(** * ISBN-Search: identifier normalisation, variants and record merge

    A shallow embedding of the ISBN logic of the repository:
    - [src/public/js/database.js]  (class [BookDatabase], the browser store),
    - [src/public/js/api.js]       (class [BookAPIService], the browser validator),
    - [src/server.js]              (class [ISBNServer], the JSON-file backed
      server, and its PostgreSQL-backed second version).

    Modelling choices.
    - A JavaScript string is a [string]; every character stands for one
      code unit in the range 0..255 (the non-ASCII letters of the French
      messages are written as their UTF-8 bytes).
    - A JavaScript number is [JS.number]: an integer or [NaN].
    - The objects used as dictionaries ([this.data], [this.books], a book
      record) are finite maps with string keys, holding their own
      properties; stored records are objects, hence truthy.  The stores
      have [Object.prototype] as their prototype, as [{}] and
      [JSON.parse] give them, so they also answer to the names inherited
      from it ([inherited_names]): a look-up by such a name is outside
      the maps, and the properties that depend on it assume that no name
      looked up is inherited ([no_inherited]).
    - Methods that change [this.data] or [this.books] take the store and
      return the new one; the clock ([new Date().toISOString()]) is the
      explicit argument [now].
    - Writing the store to [localStorage] or to the JSON file
      ([saveDatabase]) does not change it.  The methods of [BookDatabase]
      and the handlers of the servers give the store and the value
      returned, or the answer sent, when the write succeeds;
      [BookDatabaseSaving], [ISBNServerSaving] and [ISBNServerGoogle]
      take the outcome of the write as the argument [saved] and give also
      what the caller gets when it fails. *)

From Stdlib Require Import ZArith String Ascii List Lia DecimalString.
From stdpp Require Import base gmap strings list.

Local Open Scope string_scope.

(** ** JavaScript primitives used by the source *)

Module JS.

(** Numbers: the source only produces small integers and [NaN]. *)
Inductive number : Type :=
| NaN
| Num (z : Z).

Definition add (a b : number) : number :=
  match a, b with
  | Num x, Num y => Num (x + y)
  | _, _ => NaN
  end.

Definition sub (a b : number) : number :=
  match a, b with
  | Num x, Num y => Num (x - y)
  | _, _ => NaN
  end.

Definition mul (a b : number) : number :=
  match a, b with
  | Num x, Num y => Num (x * y)
  | _, _ => NaN
  end.

(** [a % b]: the remainder has the sign of the dividend; [x % 0] is [NaN]. *)
Definition rem (a b : number) : number :=
  match a, b with
  | Num x, Num y => if (y =? 0)%Z then NaN else Num (Z.rem x y)
  | _, _ => NaN
  end.

(** [a === b] on numbers: [NaN] equals nothing. *)
Definition strict_eq (a b : number) : bool :=
  match a, b with
  | Num x, Num y => (x =? y)%Z
  | _, _ => false
  end.

(** [n.toString()], and the conversion done by [string + number]. *)
Definition toString (n : number) : string :=
  match n with
  | NaN => "NaN"
  | Num z => NilZero.string_of_int (Z.to_int z)
  end.

(** The character class [\d]. *)
Definition is_digit (c : ascii) : bool :=
  let n := N_of_ascii c in ((48 <=? n) && (n <=? 57))%N.

(** The character class [\s], restricted to code units below 256:
    TAB, LF, VT, FF, CR, SPACE and NO-BREAK SPACE. *)
Definition is_space (c : ascii) : bool :=
  let n := N_of_ascii c in
  (((9 <=? n) && (n <=? 13)) || (n =? 32) || (n =? 160))%N.

(** [parseInt(s[i])]: the argument is one character, or [undefined] when
    the index is out of range.  A decimal digit gives its value, anything
    else gives [NaN]. *)
Definition parseInt (c : option ascii) : number :=
  match c with
  | Some a => if is_digit a then Num (Z.of_N (N_of_ascii a) - 48) else NaN
  | None => NaN
  end.

(** [s.substring(a, b)]: the arguments are swapped when [a > b] and the
    result is cut at the end of the string. *)
Definition substring (a b : nat) (s : string) : string :=
  String.substring (Nat.min a b) (Nat.max a b - Nat.min a b) s.

(** [s.startsWith(p)]. *)
Definition startsWith (p s : string) : bool := String.prefix p s.

(** [s.replace(/[-\s]/g, '')]. *)
Fixpoint strip_hyphens_spaces (s : string) : string :=
  match s with
  | EmptyString => EmptyString
  | String c r =>
      if Ascii.eqb c "-" || is_space c
      then strip_hyphens_spaces r
      else String c (strip_hyphens_spaces r)
  end.

(** Values stored in the fields of a book record. *)
Inductive value : Type :=
| VNull
| VBool (b : bool)
| VNum (z : Z)
| VStr (s : string)
| VArr (l : list string).

#[global] Instance value_eq_dec : EqDecision value.
Proof. solve_decision. Defined.

(** Truthiness, as used by [a || b]. *)
Definition truthy (v : value) : bool :=
  match v with
  | VNull => false
  | VBool b => b
  | VNum z => negb (z =? 0)%Z
  | VStr s => negb (String.eqb s "")
  | VArr _ => true
  end.

(** [new Set()] with [add], read back by [Array.from]: insertion order,
    no duplicates. *)
Definition set_add (v : string) (l : list string) : list string :=
  if decide (v ∈ l) then l else (l ++ [v])%list.

End JS.

(** A book record: field name to value. *)
Abbreviation Book := (gmap string JS.value).

(** The reserved identifier. *)
Definition sentinel : string := "6666666666666".

(** ** The ISBN-13 and ISBN-10 checksum loops (shared by client and server) *)

(** [for (i = 0; i < 12; i++) sum += parseInt(partial[i]) * (i % 2 === 0 ? 1 : 3)] *)
Definition sum13 (partial : string) : JS.number :=
  fold_left
    (fun sum i =>
       JS.add sum (JS.mul (JS.parseInt (String.get i partial))
                          (JS.Num (if Nat.even i then 1 else 3))))
    (seq 0 12) (JS.Num 0).

(** [(10 - (sum % 10)) % 10] *)
Definition checkDigit13 (partial : string) : JS.number :=
  JS.rem (JS.sub (JS.Num 10) (JS.rem (sum13 partial) (JS.Num 10))) (JS.Num 10).

(** [for (i = 0; i < 9; i++) sum += parseInt(partial[i]) * (10 - i)] *)
Definition sum10 (partial : string) : JS.number :=
  fold_left
    (fun sum i =>
       JS.add sum (JS.mul (JS.parseInt (String.get i partial))
                          (JS.Num (10 - Z.of_nat i))))
    (seq 0 9) (JS.Num 0).

(** [(11 - (sum % 11)) % 11] *)
Definition checkDigit10 (partial : string) : JS.number :=
  JS.rem (JS.sub (JS.Num 11) (JS.rem (sum10 partial) (JS.Num 11))) (JS.Num 11).

(** The three-way choice of the check character in [convertISBN13ToISBN10]. *)
Definition checkChar10 (checkDigit : JS.number) : string :=
  if JS.strict_eq checkDigit (JS.Num 10) then "X"
  else if JS.strict_eq checkDigit (JS.Num 11) then "0"
  else JS.toString checkDigit.

(** ** Client: [BookDatabase] (src/public/js/database.js) *)

Module BookDatabase.

Definition cleanISBN (isbn : string) : string := JS.strip_hyphens_spaces isbn.

(** [null] is [None]. *)
Definition convertISBN10ToISBN13 (isbn10 : string) : option string :=
  if String.eqb isbn10 "" || negb (Nat.eqb (String.length isbn10) 10) then None
  else
    let partial := "978" +:+ JS.substring 0 9 isbn10 in
    Some (partial +:+ JS.toString (checkDigit13 partial)).

Definition convertISBN13ToISBN10 (isbn13 : string) : option string :=
  if String.eqb isbn13 "" || negb (Nat.eqb (String.length isbn13) 13)
     || negb (JS.startsWith "978" isbn13) then None
  else
    let partial := JS.substring 3 12 isbn13 in
    Some (partial +:+ checkChar10 (checkDigit10 partial)).

Definition normalizeISBN (isbn : string) : string :=
  let clean := cleanISBN isbn in
  if String.eqb clean sentinel then clean
  else if Nat.eqb (String.length clean) 13 then clean
  else if Nat.eqb (String.length clean) 10 then
    match convertISBN10ToISBN13 clean with
    | Some isbn13 => if String.eqb isbn13 "" then clean else isbn13
    | None => clean
    end
  else clean.

Definition getISBNVariants (isbn : string) : list string :=
  let clean := cleanISBN isbn in
  let variants := JS.set_add clean [] in
  let variants :=
    if (Nat.eqb (String.length clean) 13) && JS.startsWith "978" clean then
      match convertISBN13ToISBN10 clean with
      | Some isbn10 => if String.eqb isbn10 "" then variants else JS.set_add isbn10 variants
      | None => variants
      end
    else variants in
  let variants :=
    if Nat.eqb (String.length clean) 10 then
      match convertISBN10ToISBN13 clean with
      | Some isbn13 => if String.eqb isbn13 "" then variants else JS.set_add isbn13 variants
      | None => variants
      end
    else variants in
  variants.

(** *** The store [this.data]: canonical key to record.
    Records are objects, hence truthy: for a name that is not inherited
    from [Object.prototype], [if (this.data[variant])] holds exactly when
    the key is present.  [saveDatabase] serialises [this.data] and leaves
    it unchanged; the methods below give the store and the value returned
    when it does not throw. *)

(** The loop of [findBook]: the first variant present in the store, its
    record being returned with the extra field [foundWithISBN]. *)
Fixpoint probe (data : gmap string Book) (variants : list string) : option Book :=
  match variants with
  | [] => None
  | variant :: rest =>
      match data !! variant with
      | Some book => Some (<["foundWithISBN" := JS.VStr variant]> book)
      | None => probe data rest
      end
  end.

Definition findBook (data : gmap string Book) (isbn : string) : option Book :=
  probe data (getISBNVariants isbn).

(** [book.foundWithISBN] read as a property key. *)
Definition foundWithISBN (book : Book) : string :=
  match book !! "foundWithISBN" with
  | Some (JS.VStr k) => k
  | _ => "undefined"
  end.

(** [bookInfo.source || 'unknown'] *)
Definition source_or_unknown (bookInfo : Book) : JS.value :=
  match bookInfo !! "source" with
  | Some v => if JS.truthy v then v else JS.VStr "unknown"
  | None => JS.VStr "unknown"
  end.

(** [{...existingBook, ...bookInfo, lastUpdated: now}] *)
Definition merge (existingBook bookInfo : Book) (now : string) : Book :=
  <["lastUpdated" := JS.VStr now]> (bookInfo ∪ existingBook).

(** [addBook(isbn, bookInfo)]: the new store and the returned record. *)
Definition addBook (data : gmap string Book) (isbn : string) (bookInfo : Book)
    (now : string) : gmap string Book * Book :=
  let normalizedISBN := normalizeISBN isbn in
  match findBook data isbn with
  | Some existingBook =>
      let finalBookData := merge existingBook bookInfo now in
      let data1 :=
        if decide (foundWithISBN existingBook ≠ normalizedISBN)
        then delete (foundWithISBN existingBook) data
        else data in
      (<[normalizedISBN := finalBookData]> data1, finalBookData)
  | None =>
      let finalBookData :=
        <["source" := source_or_unknown bookInfo]>
          (<["lastUpdated" := JS.VStr now]> bookInfo) in
      (<[normalizedISBN := finalBookData]> data, finalBookData)
  end.

(** [updateBookField(isbn, field, value)]: the new store and the returned
    boolean; [None] stands for the [TypeError] of assigning a field of
    [undefined]. *)
Definition updateBookField (data : gmap string Book) (isbn field : string)
    (value : JS.value) (now : string) : option (gmap string Book * bool) :=
  match findBook data isbn with
  | None => Some (data, false)
  | Some book =>
      let normalizedISBN := normalizeISBN isbn in
      let currentStorageISBN := foundWithISBN book in
      let data1 :=
        if decide (currentStorageISBN ≠ normalizedISBN)
        then delete currentStorageISBN
               (<[normalizedISBN := default ∅ (data !! currentStorageISBN)]> data)
        else data in
      match data1 !! normalizedISBN with
      | Some b =>
          Some (<[normalizedISBN :=
                   <["lastUpdated" := JS.VStr now]> (<[field := value]> b)]> data1,
                true)
      | None => None
      end
  end.

(** The loop of [deleteBook]. *)
Fixpoint delete_variants (data : gmap string Book) (variants : list string)
    (deleted : bool) : gmap string Book * bool :=
  match variants with
  | [] => (data, deleted)
  | variant :: rest =>
      match data !! variant with
      | Some _ => delete_variants (delete variant data) rest true
      | None => delete_variants data rest deleted
      end
  end.

Definition deleteBook (data : gmap string Book) (isbn : string)
    : gmap string Book * bool :=
  delete_variants data (getISBNVariants isbn) false.

End BookDatabase.

(** ** Validation results and messages *)

Inductive validation : Type :=
| Valid (isbn : string)              (* [{ valid: true, isbn }] *)
| Invalid (error : string).          (* [{ valid: false, error }] *)

Definition InvalidLength : string := "L'ISBN doit contenir 10 ou 13 chiffres".
Definition InvalidPrefix : string := "ISBN-13 doit commencer par 978 ou 979".
Definition InvalidFormat10 : string := "Format ISBN-10 invalide".
Definition InvalidFormat13 : string := "Format ISBN-13 invalide".

Definition is_valid (v : validation) : bool :=
  match v with Valid _ => true | Invalid _ => false end.

(** ** Client: [BookAPIService.validateISBN] (src/public/js/api.js) *)

Module BookAPIService.

(** [/^\d{9}[\dX]$/.test(s)] *)
Definition test_isbn10 (s : string) : bool :=
  Nat.eqb (String.length s) 10
  && forallb JS.is_digit (list_ascii_of_string (String.substring 0 9 s))
  && match String.get 9 s with
     | Some c => JS.is_digit c || Ascii.eqb c "X"
     | None => false
     end.

(** [/^\d{13}$/.test(s)] *)
Definition test_isbn13 (s : string) : bool :=
  Nat.eqb (String.length s) 13 && forallb JS.is_digit (list_ascii_of_string s).

Definition validateISBN (isbn : string) : validation :=
  let clean := JS.strip_hyphens_spaces isbn in
  if String.eqb clean sentinel then Valid clean
  else if negb (Nat.eqb (String.length clean) 10)
          && negb (Nat.eqb (String.length clean) 13)
  then Invalid InvalidLength
  else if Nat.eqb (String.length clean) 10 then
    if negb (test_isbn10 clean) then Invalid InvalidFormat10 else Valid clean
  else
    if negb (test_isbn13 clean) then Invalid InvalidFormat13
    else if negb (JS.startsWith "978" clean) && negb (JS.startsWith "979" clean)
    then Invalid InvalidPrefix
    else Valid clean.

End BookAPIService.

(** ** Server: [ISBNServer] (src/server.js) *)

Module ISBNServer.

Definition cleanISBN (isbn : string) : string := JS.strip_hyphens_spaces isbn.

Definition normalizeISBN (isbn : string) : string :=
  let clean := cleanISBN isbn in
  if String.eqb clean sentinel then clean
  else if Nat.eqb (String.length clean) 13 then clean
  else if Nat.eqb (String.length clean) 10 then
    let partial := "978" +:+ JS.substring 0 9 clean in
    partial +:+ JS.toString (checkDigit13 partial)
  else clean.

Definition getISBNVariants (isbn : string) : list string :=
  let clean := cleanISBN isbn in
  let variants := [clean] in
  let variants :=
    if (Nat.eqb (String.length clean) 13) && JS.startsWith "978" clean
    then (variants ++ [JS.substring 3 12 clean])%list
    else variants in
  let variants :=
    if Nat.eqb (String.length clean) 10 then
      let isbn13 := normalizeISBN clean in
      if negb (String.eqb isbn13 clean) then (variants ++ [isbn13])%list else variants
    else variants in
  variants.

(** [findBookByISBN]: [{ book, foundISBN }] or [null]. *)
Fixpoint probe (books : gmap string Book) (variants : list string)
    : option (Book * string) :=
  match variants with
  | [] => None
  | variant :: rest =>
      match books !! variant with
      | Some book => Some (book, variant)
      | None => probe books rest
      end
  end.

Definition findBookByISBN (books : gmap string Book) (isbn : string)
    : option (Book * string) :=
  probe books (getISBNVariants isbn).

Definition validateISBN (isbn : string) : validation :=
  let clean := cleanISBN isbn in
  if negb (Nat.eqb (String.length clean) 10)
     && negb (Nat.eqb (String.length clean) 13)
  then Invalid InvalidLength
  else if Nat.eqb (String.length clean) 13
          && (negb (JS.startsWith "978" clean) && negb (JS.startsWith "979" clean))
  then Invalid InvalidPrefix
  else Valid clean.

(** What a route handler sends: [res.status(n).json({ error })] or
    [res.json({ success: true, data?, message })]. *)
Inductive response : Type :=
| Failure (status : nat) (error : string)
| Success (data : option Book) (message : string).

(** [{...this.books[isbn], ...updates, isbn: validation.isbn, updatedAt: now}] *)
Definition merge (existing updates : Book) (isbn now : string) : Book :=
  <["updatedAt" := JS.VStr now]> (<["isbn" := JS.VStr isbn]> (updates ∪ existing)).

(** [PUT /api/books/:isbn] *)
Definition updateBook (books : gmap string Book) (isbn : string) (updates : Book)
    (now : string) : gmap string Book * response :=
  match validateISBN isbn with
  | Invalid error => (books, Failure 400 error)
  | Valid clean =>
      match books !! clean with
      | None => (books, Failure 404 "Livre non trouvé")
      | Some existing =>
          let updated := merge existing updates clean now in
          (<[clean := updated]> books,
           Success (Some updated) "Livre mis à jour avec succès")
      end
  end.

(** [DELETE /api/books/:isbn] *)
Definition deleteBook (books : gmap string Book) (isbn : string)
    : gmap string Book * response :=
  match validateISBN isbn with
  | Invalid error => (books, Failure 400 error)
  | Valid clean =>
      match books !! clean with
      | None => (books, Failure 404 "Livre non trouvé")
      | Some _ => (delete clean books, Success None "Livre supprimé avec succès")
      end
  end.

End ISBNServer.

(** ** Server, second version of [src/server.js] (PostgreSQL table [books])

    Its [cleanISBN], [normalizeISBN], [getISBNVariants] and [validateISBN]
    are those of [ISBNServer]; the table is a map from the column [isbn] to
    the column [data]. *)

Module ISBNServerPostgres.

Inductive response : Type :=
| Failure (status : nat) (error : string)
| NoContent.                                   (* [res.status(204).send()] *)

(** [DELETE /api/books/:isbn]:
    [DELETE FROM books WHERE isbn = $1] with the normalised identifier. *)
Definition deleteBook (table : gmap string Book) (isbn : string)
    : gmap string Book * response :=
  match ISBNServer.validateISBN isbn with
  | Invalid error => (table, Failure 400 error)
  | Valid clean =>
      let normalizedISBN := ISBNServer.normalizeISBN clean in
      match table !! normalizedISBN with
      | Some _ => (delete normalizedISBN table, NoContent)
      | None =>
          (table, Failure 404 ("Livre avec l'ISBN " +:+ isbn +:+ " non trouvé"))
      end
  end.

End ISBNServerPostgres.

(** ** Reference definitions, following the specification *)

Module Spec.

Local Open Scope Z_scope.

(** The value of a decimal digit character, and the character of a value. *)
Definition digit_value (c : ascii) : Z := Z.of_N (N_of_ascii c) - 48.
Definition digit_char (d : Z) : ascii := ascii_of_N (Z.to_N (d + 48)).

Definition digits_of (s : string) : list Z :=
  map digit_value (list_ascii_of_string s).

Definition all_digits (s : string) : bool :=
  forallb JS.is_digit (list_ascii_of_string s).

(** Section 4.3: the sum over the index [i] of [digit[i] * (1 if i even
    else 3)], and the check digit [(10 - (sum mod 10)) mod 10]. *)
Fixpoint weighted_sum13 (i : nat) (digits : list Z) : Z :=
  match digits with
  | [] => 0
  | d :: rest => d * (if Nat.even i then 1 else 3) + weighted_sum13 (S i) rest
  end.

Definition ean13_check_digit (digits : list Z) : Z :=
  (10 - weighted_sum13 0 digits mod 10) mod 10.

(** Section 4.4: the sum over the index [i] of [digit[i] * (10 - i)], the
    check value [(11 - (sum mod 11)) mod 11], written [X] when it is 10. *)
Fixpoint weighted_sum10 (i : nat) (digits : list Z) : Z :=
  match digits with
  | [] => 0
  | d :: rest => d * (10 - Z.of_nat i) + weighted_sum10 (S i) rest
  end.

Definition isbn10_check_char (digits : list Z) : ascii :=
  let c := (11 - weighted_sum10 0 digits mod 11) mod 11 in
  if (c =? 10)%Z then "X"%char
  else if (c =? 11)%Z then "0"%char
  else digit_char c.

End Spec.

(** A string free of hyphens and white space: a fixed point of [cleanISBN]. *)
Definition is_clean (s : string) : bool :=
  forallb (fun c => negb (Ascii.eqb c "-" || JS.is_space c)) (list_ascii_of_string s).

(** The string built by the ISBN-10 to ISBN-13 conversion, in
    [convertISBN10ToISBN13] and in the server's [normalizeISBN]. *)
Definition isbn13_of (clean : string) : string :=
  let partial := "978" +:+ JS.substring 0 9 clean in
  partial +:+ JS.toString (checkDigit13 partial).

(** [toISBN10(toISBN13(x))] on the client. *)
Definition roundtrip10 (x : string) : option string :=
  match BookDatabase.convertISBN10ToISBN13 x with
  | Some isbn13 => BookDatabase.convertISBN13ToISBN10 isbn13
  | None => None
  end.

(** ** Sample records of the concrete cases *)

Definition title_only : Book := {[ "title" := JS.VStr "Le Petit Prince" ]}.
Definition pages_only : Book := {[ "pageCount" := JS.VNum 96 ]}.

Definition petit_prince : Book :=
  {[ "isbn" := JS.VStr "9780156013987"; "title" := JS.VStr "Le Petit Prince" ]}.

(** A store holding the book under its ISBN-13 key, one holding it under
    its ISBN-10 key, and what [findBook] returns from the latter. *)
Definition store_isbn13 : gmap string Book := {[ "9780156013987" := petit_prince ]}.
Definition store_isbn10 : gmap string Book := {[ "0156013983" := title_only ]}.
Definition found_isbn10 : Book :=
  <["foundWithISBN" := JS.VStr "0156013983"]> title_only.

(** A store holding records under two ten-character keys that share their
    first nine characters. *)
Definition store_two_isbn10 : gmap string Book :=
  {[ "0156013987" := title_only; "0156013983" := pages_only ]}.

Definition dated_2024 : Book :=
  {[ "title" := JS.VStr "Le Petit Prince";
     "createdAt" := JS.VStr "2024-01-01T00:00:00.000Z" ]}.
Definition dated_2025 : Book :=
  {[ "createdAt" := JS.VStr "2025-06-30T00:00:00.000Z" ]}.

(** ** Further string primitives *)

Module JSString.

(** [s.replace(/[^\dX]/g, '')] *)
Fixpoint keep_digits_X (s : string) : string :=
  match s with
  | EmptyString => EmptyString
  | String c r =>
      if JS.is_digit c || Ascii.eqb c "X"
      then String c (keep_digits_X r)
      else keep_digits_X r
  end.

(** [s.replace(/[^\d]/g, '')] *)
Fixpoint keep_digits (s : string) : string :=
  match s with
  | EmptyString => EmptyString
  | String c r =>
      if JS.is_digit c then String c (keep_digits r) else keep_digits r
  end.

(** [s.slice(a, b)] for indices that are not negative: empty when [b <= a]. *)
Definition slice (a b : nat) (s : string) : string := String.substring a (b - a) s.

(** [s.slice(a)] and [s.substring(a)]: from index [a] to the end. *)
Definition from (a : nat) (s : string) : string :=
  String.substring a (String.length s - a) s.

End JSString.

(** ** Client: [formatISBN] (src/public/js/api.js, and the scanner) *)

Module Display.

Definition formatISBN (isbn : string) : string :=
  let clean := JSString.keep_digits_X isbn in
  if Nat.eqb (String.length clean) 13 then
    JSString.slice 0 3 clean +:+ "-" +:+ JSString.slice 3 4 clean +:+ "-"
    +:+ JSString.slice 4 6 clean +:+ "-" +:+ JSString.slice 6 12 clean +:+ "-"
    +:+ JSString.from 12 clean
  else if Nat.eqb (String.length clean) 10 then
    JSString.slice 0 1 clean +:+ "-" +:+ JSString.slice 1 3 clean +:+ "-"
    +:+ JSString.slice 3 9 clean +:+ "-" +:+ JSString.from 9 clean
  else clean.

(** [formatISBNInput] (src/public/js/app.js): from the text of the input
    field to the text written back to it. *)
Definition hyphen_at (n : nat) (value : string) : string :=
  if Nat.leb n (String.length value)
  then JS.substring 0 n value +:+ "-" +:+ JSString.from n value
  else value.

Definition formatISBNInput (value : string) : string :=
  let value := JSString.keep_digits value in
  let value := if Nat.ltb 13 (String.length value) then JS.substring 0 13 value else value in
  let value := hyphen_at 3 value in
  let value := hyphen_at 6 value in
  let value := hyphen_at 13 value in
  let value := hyphen_at 20 value in
  value.

End Display.

(** ** Client: import into [BookDatabase] *)

Module BookDatabaseExport.

(** [importDatabase(exportedData)]: the argument is an object whose field
    [books], when present, is an object of records.
    [this.data = { ...this.data, ...exportedData.books }].  The boolean is
    the one returned when [saveDatabase] succeeds; when it throws, the
    store is the same and the method returns [false]. *)
Definition importDatabase (data : gmap string Book)
    (exportedBooks : option (gmap string Book)) : gmap string Book * bool :=
  match exportedBooks with
  | Some imported => (imported ∪ data, true)
  | None => (data, false)
  end.

End BookDatabaseExport.

(** ** Server: further routes of [ISBNServer] (src/server.js, first version) *)

Module ISBNServerRoutes.

Inductive response : Type :=
| Error (status : nat) (error : string)
    (* [res.status(n).json({ error })] *)
| Created (data : Book) (message : string)
    (* [res.status(201).json({ success: true, data, message })] *)
| Found (data : Book) (source foundWithISBN : string)
    (* [res.json({ success: true, data, source, foundWithISBN })] *)
| Synchronised (imported updated total : nat).
    (* [res.json({ success: true, message, imported, updated, total })] *)

(** [GET /api/books/:isbn] *)
Definition getBook (books : gmap string Book) (isbn : string) : response :=
  match ISBNServer.validateISBN isbn with
  | Invalid error => Error 400 error
  | Valid clean =>
      match ISBNServer.findBookByISBN books clean with
      | None => Error 404 "Livre non trouvé"
      | Some (book, foundISBN) => Found book "database" foundISBN
      end
  end.

(** [POST /api/books]: [body] is [req.body]; [now1] and [now2] are the two
    readings of the clock.  A field [isbn] that is truthy but not a string
    makes [cleanISBN] throw, which the handler turns into the answer 500.
    The answer is the one given when [await this.saveDatabase()] succeeds;
    [ISBNServerSaving.createBook] adds the other case. *)
Definition createBook (books : gmap string Book) (body : Book) (now1 now2 : string)
    : gmap string Book * response :=
  match body !! "isbn" with
  | None => (books, Error 400 "ISBN requis")
  | Some v =>
      if negb (JS.truthy v) then (books, Error 400 "ISBN requis")
      else
        match v with
        | JS.VStr isbn =>
            match ISBNServer.validateISBN isbn with
            | Invalid error => (books, Error 400 error)
            | Valid clean =>
                let normalizedISBN := ISBNServer.normalizeISBN clean in
                match ISBNServer.findBookByISBN books clean with
                | Some (_, foundISBN) =>
                    (books, Error 409 ("Ce livre existe déjà sous l'ISBN " +:+ foundISBN))
                | None =>
                    let newBook : Book :=
                      <["source" := JS.VStr "user_created"]>
                        (<["updatedAt" := JS.VStr now2]>
                           (<["createdAt" := JS.VStr now1]>
                              (<["isbn" := JS.VStr normalizedISBN]> (delete "isbn" body)))) in
                    (<[normalizedISBN := newBook]> books,
                     Created newBook "Livre créé avec succès")
                end
            end
        | _ => (books, Error 500 "Erreur serveur")
        end
  end.

(** One turn of the loop of [importFromLocalStorage]; the state is the
    store and the two counters, [now1] and [now2] are the readings of the
    clock in this turn. *)
Definition import_entry (state : gmap string Book * nat * nat)
    (isbn : string) (bookData : Book) (now1 now2 : string)
    : gmap string Book * nat * nat :=
  let '(books, importedCount, updatedCount) := state in
  match ISBNServer.validateISBN isbn with
  | Invalid _ => state
  | Valid clean =>
      let normalizedISBN := ISBNServer.normalizeISBN clean in
      match books !! normalizedISBN with
      | Some existing =>
          (<[normalizedISBN := <["updatedAt" := JS.VStr now1]> (bookData ∪ existing)]> books,
           importedCount, S updatedCount)
      | None =>
          (<[normalizedISBN :=
               <["updatedAt" := JS.VStr now2]>
                 (<["createdAt" := JS.VStr now1]>
                    (<["isbn" := JS.VStr normalizedISBN]> bookData))]> books,
           S importedCount, updatedCount)
      end
  end.

(** The loop over [Object.entries(books)]: every entry comes with the
    clock readings of its turn. *)
Fixpoint import_loop (state : gmap string Book * nat * nat)
    (entries : list (string * Book * (string * string)))
    : gmap string Book * nat * nat :=
  match entries with
  | [] => state
  | (isbn, bookData, (now1, now2)) :: rest =>
      import_loop (import_entry state isbn bookData now1 now2) rest
  end.

(** [POST /api/sync/import] for a body whose field [books] is an object. *)
Definition importFromLocalStorage (books : gmap string Book)
    (entries : list (string * Book * (string * string)))
    : gmap string Book * response :=
  let '(books', importedCount, updatedCount) := import_loop (books, 0, 0) entries in
  (books', Synchronised importedCount updatedCount (size books')).

End ISBNServerRoutes.

(** ** Server: [searchGoogleBooks] (src/server.js, first version)

    The answer of the Google Books API is an argument: the request failed
    (the network, or a status that is not ok), or it gave the list
    [data.items], each item standing for its [volumeInfo]; a missing list
    is the empty list.  [saved] tells whether [await this.saveDatabase()]
    succeeds: when it throws, the record is already in [this.books] and
    the [catch] of the handler answers 500. *)

Module ISBNServerGoogle.

Inductive fetched : Type :=
| FetchFailed
| FetchOk (items : list Book).

Inductive response : Type :=
| Error (status : nat) (error : string)
| LocalDatabase (volumeInfo : Book)
    (* [{ success: true, items: [{ volumeInfo }], source: 'local_database' }] *)
| GoogleApiServer (items : list Book).
    (* [{ success: true, items: data.items, source: 'google_api_server' }] *)

(** [GET /api/external/google/:isbn] *)
Definition searchGoogleBooks (books : gmap string Book) (isbn : string)
    (answer : fetched) (now1 now2 : string) (saved : bool)
    : gmap string Book * response :=
  match ISBNServer.validateISBN isbn with
  | Invalid error => (books, Error 400 error)
  | Valid clean =>
      match ISBNServer.findBookByISBN books clean with
      | Some (book, _) => (books, LocalDatabase book)
      | None =>
          match answer with
          | FetchFailed => (books, Error 500 "Erreur lors de la recherche Google Books")
          | FetchOk [] => (books, Error 404 "Livre non trouvé dans l'API Google Books")
          | FetchOk (bookInfo :: rest) =>
              let normalizedISBN := ISBNServer.normalizeISBN clean in
              let stored : Book :=
                <["updatedAt" := JS.VStr now2]>
                  (<["createdAt" := JS.VStr now1]>
                     (<["source" := JS.VStr "google_api"]>
                        (<["isbn" := JS.VStr normalizedISBN]> bookInfo))) in
              (<[normalizedISBN := stored]> books,
               if saved then GoogleApiServer (bookInfo :: rest)
               else Error 500 "Erreur lors de la recherche Google Books")
          end
      end
  end.

End ISBNServerGoogle.

(** ** Server, second version: further routes on the table [books] *)

Module ISBNServerPostgresRoutes.

Inductive response : Type :=
| Error (status : nat) (error : string)
| Created (data : Book)                    (* [res.status(201).json(data)] *)
| Updated (data : Book).                   (* [res.json(data)] *)

(** [POST /api/books]:
    [INSERT ... ON CONFLICT (isbn) DO UPDATE SET data = EXCLUDED.data]. *)
Definition createBook (table : gmap string Book) (bookData : Book) (now1 now2 : string)
    : gmap string Book * response :=
  match bookData !! "isbn" with
  | None => (table, Error 400 "Données du livre ou ISBN manquant")
  | Some v =>
      if negb (JS.truthy v) then (table, Error 400 "Données du livre ou ISBN manquant")
      else
        match v with
        | JS.VStr isbn =>
            match ISBNServer.validateISBN isbn with
            | Invalid error => (table, Error 400 error)
            | Valid clean =>
                let normalizedISBN := ISBNServer.normalizeISBN clean in
                let finalBookData : Book :=
                  <["updatedAt" := JS.VStr now2]>
                    (<["createdAt" := JS.VStr now1]>
                       (<["isbn" := JS.VStr normalizedISBN]> bookData)) in
                (<[normalizedISBN := finalBookData]> table, Created finalBookData)
            end
        | _ => (table, Error 500 "Erreur lors de la création du livre")
        end
  end.

(** [PUT /api/books/:isbn]: select by the normalised identifier, merge,
    update. *)
Definition updateBook (table : gmap string Book) (isbn : string) (bookData : Book)
    (now : string) : gmap string Book * response :=
  match ISBNServer.validateISBN isbn with
  | Invalid error => (table, Error 400 error)
  | Valid clean =>
      let normalizedISBN := ISBNServer.normalizeISBN clean in
      match table !! normalizedISBN with
      | None => (table, Error 404 ("Livre avec l'ISBN " +:+ isbn +:+ " non trouvé"))
      | Some existing =>
          let updatedData : Book := <["updatedAt" := JS.VStr now]> (bookData ∪ existing) in
          (<[normalizedISBN := updatedData]> table, Updated updatedData)
      end
  end.

End ISBNServerPostgresRoutes.

(** ** Names inherited from [Object.prototype]

    [this.data] and [this.books] are plain objects: [object[name]] is
    truthy for an own key and also for the members that every object
    inherits.  These are the names of the members of [Object.prototype]. *)

Definition inherited_names : list string :=
  [ "constructor"; "hasOwnProperty"; "isPrototypeOf"; "propertyIsEnumerable";
    "toLocaleString"; "toString"; "valueOf"; "__proto__";
    "__defineGetter__"; "__defineSetter__"; "__lookupGetter__"; "__lookupSetter__" ].

(** None of the names looked up is inherited: then [object[name]] is
    truthy exactly for the own keys. *)
Definition no_inherited (names : list string) : bool :=
  forallb (fun name => negb (existsb (String.eqb name) inherited_names)) names.

(** ** Client: the methods of [BookDatabase] with the outcome of
    [this.saveDatabase()] *)

Module BookDatabaseSaving.

(** What the caller of a method gets: the returned value, or the error
    thrown. *)
Inductive outcome (A : Type) : Type :=
| Returns (result : A)
| Throws (message : string).

Arguments Returns {A} result.
Arguments Throws {A} message.

(** [this.saveDatabase(); return result]: [saved] tells whether
    [localStorage.setItem] succeeds; otherwise [saveDatabase] throws
    [new Error('Impossible de sauvegarder les données')]. *)
Definition save_then_return {A : Type} (saved : bool) (result : A) : outcome A :=
  if saved then Returns result else Throws "Impossible de sauvegarder les données".

(** [addBook]: [this.saveDatabase(); return this.data[normalizedISBN];] *)
Definition addBook (data : gmap string Book) (isbn : string) (bookInfo : Book)
    (now : string) (saved : bool) : gmap string Book * outcome Book :=
  ((BookDatabase.addBook data isbn bookInfo now).1,
   save_then_return saved (BookDatabase.addBook data isbn bookInfo now).2).

(** [updateBookField]: nothing is written when [findBook] finds nothing. *)
Definition updateBookField (data : gmap string Book) (isbn field : string)
    (value : JS.value) (now : string) (saved : bool)
    : option (gmap string Book * outcome bool) :=
  match BookDatabase.updateBookField data isbn field value now with
  | None => None
  | Some (data', true) => Some (data', save_then_return saved true)
  | Some (data', false) => Some (data', Returns false)
  end.

(** [deleteBook]: [if (deleted) { this.saveDatabase(); } return deleted;] *)
Definition deleteBook (data : gmap string Book) (isbn : string) (saved : bool)
    : gmap string Book * outcome bool :=
  let data' := (BookDatabase.deleteBook data isbn).1 in
  if (BookDatabase.deleteBook data isbn).2
  then (data', save_then_return saved true)
  else (data', Returns false).

End BookDatabaseSaving.

(** ** Server: [createBook] with the outcome of [await this.saveDatabase()] *)

Module ISBNServerSaving.

(** When writing the file fails, the record is already in [this.books]
    and the [catch] of the handler answers 500. *)
Definition createBook (books : gmap string Book) (body : Book) (now1 now2 : string)
    (saved : bool) : gmap string Book * ISBNServerRoutes.response :=
  match ISBNServerRoutes.createBook books body now1 now2 with
  | (books', ISBNServerRoutes.Created newBook message) =>
      (books', if saved then ISBNServerRoutes.Created newBook message
               else ISBNServerRoutes.Error 500 "Erreur serveur")
  | unchanged => unchanged
  end.

End ISBNServerSaving.

(** ** Predicates of the further properties *)

(** Every key of the store is its own canonical key. *)
Definition canonical_keys (data : gmap string Book) : Prop :=
  forall k b, data !! k = Some b -> BookDatabase.normalizeISBN k = k.

(** The digits kept by [formatISBNInput]: at most thirteen. *)
Definition typed_digits (value : string) : string :=
  let digits := JSString.keep_digits value in
  if Nat.ltb 13 (String.length digits) then JS.substring 0 13 digits else digits.

(** The entries of an import whose identifier the server validator accepts. *)
Definition count_valid (entries : list (string * Book * (string * string))) : nat :=
  List.length (List.filter (fun e => is_valid (ISBNServer.validateISBN e.1.1)) entries).

(** The body of a [POST /api/books] with an ISBN-10, and the records that
    the two servers build from it at the times ["T1"] and ["T2"]. *)
Definition post_isbn10 : Book :=
  {[ "isbn" := JS.VStr "0156013983"; "title" := JS.VStr "Le Petit Prince" ]}.
Definition created_isbn10 : Book :=
  <["source" := JS.VStr "user_created"]>
    (<["updatedAt" := JS.VStr "T2"]>
       (<["createdAt" := JS.VStr "T1"]>
          (<["isbn" := JS.VStr "9780156013987"]> (delete "isbn" post_isbn10)))).
Definition upserted_isbn10 : Book :=
  <["updatedAt" := JS.VStr "T2"]>
    (<["createdAt" := JS.VStr "T1"]>
       (<["isbn" := JS.VStr "9780156013987"]> post_isbn10)).

(** * Properties *)

(** ** Concrete cases *)

Example toISBN13_petit_prince :
  BookDatabase.convertISBN10ToISBN13 "0156013987" = Some "9780156013987".
Proof. reflexivity. Qed.

Example toISBN10_petit_prince :
  BookDatabase.convertISBN13ToISBN10 "9780156013987" = Some "0156013983".
Proof. reflexivity. Qed.

Example toISBN10_spec_case :
  BookDatabase.convertISBN13ToISBN10 "9782401084629" = Some "2401084622".
Proof. reflexivity. Qed.

Example toISBN13_malformed :
  BookDatabase.convertISBN10ToISBN13 "01560a3987" = Some "97801560a398NaN".
Proof. reflexivity. Qed.

Example variants_client_13 :
  BookDatabase.getISBNVariants "978-0-15-601398-7" = ["9780156013987"; "0156013983"].
Proof. reflexivity. Qed.

(** ** Strings *)

Lemma length_append (s t : string) :
  String.length (s +:+ t) = String.length s + String.length t.
Proof. induction s as [|c s IH]; simpl; [reflexivity | now rewrite IH]. Qed.

Lemma length_substring (n m : nat) (s : string) :
  n + m <= String.length s -> String.length (String.substring n m s) = m.
Proof.
  revert n m. induction s as [|c s IH]; intros n m H; simpl in H.
  - assert (n = 0) by lia. assert (m = 0) by lia. subst. reflexivity.
  - destruct n as [|n]; destruct m as [|m]; simpl; try reflexivity.
    + f_equal. apply (IH 0). lia.
    + apply IH. lia.
    + apply IH. lia.
Qed.

Lemma is_clean_append (s t : string) :
  is_clean (s +:+ t) = is_clean s && is_clean t.
Proof.
  unfold is_clean. induction s as [|c s IH]; simpl; [reflexivity |].
  rewrite IH. now rewrite andb_assoc.
Qed.

Lemma is_clean_substring (n m : nat) (s : string) :
  is_clean s = true -> is_clean (String.substring n m s) = true.
Proof.
  unfold is_clean. revert n m.
  induction s as [|c s IH]; intros n m H.
  - destruct n, m; reflexivity.
  - simpl in H. apply andb_prop in H as [Hc Hs].
    destruct n as [|n]; destruct m as [|m]; simpl; try reflexivity.
    + rewrite Hc. simpl. now apply IH.
    + now apply IH.
    + now apply IH.
Qed.

Lemma strip_is_clean (s : string) : is_clean (JS.strip_hyphens_spaces s) = true.
Proof.
  unfold is_clean. induction s as [|c s IH]; simpl; [reflexivity |].
  destruct (Ascii.eqb c "-" || JS.is_space c) eqn:E; [exact IH |].
  simpl. rewrite E. exact IH.
Qed.

Lemma strip_fixed (s : string) : is_clean s = true -> JS.strip_hyphens_spaces s = s.
Proof.
  unfold is_clean. induction s as [|c s IH]; simpl; intros H; [reflexivity |].
  apply andb_prop in H as [Hc Hs]. apply negb_true_iff in Hc.
  rewrite Hc. f_equal. now apply IH.
Qed.

Lemma strip_idempotent (s : string) :
  JS.strip_hyphens_spaces (JS.strip_hyphens_spaces s) = JS.strip_hyphens_spaces s.
Proof. apply strip_fixed, strip_is_clean. Qed.

(** ** Numbers and check digits *)

Lemma toString_digit (d : Z) :
  (0 <= d <= 9)%Z ->
  JS.toString (JS.Num d) = String (Spec.digit_char d) EmptyString
  /\ JS.is_digit (Spec.digit_char d) = true.
Proof.
  intros H.
  assert (d = 0 \/ d = 1 \/ d = 2 \/ d = 3 \/ d = 4 \/ d = 5 \/ d = 6
          \/ d = 7 \/ d = 8 \/ d = 9)%Z as Hd by lia.
  repeat (destruct Hd as [-> | Hd]; [split; reflexivity |]).
  subst d. split; reflexivity.
Qed.

Lemma rem10_range (x : Z) : (0 <= Z.rem (10 - Z.rem x 10) 10 <= 9)%Z.
Proof.
  pose proof (Z.rem_bound_abs x 10 ltac:(lia)) as Hx.
  pose proof (Z.rem_bound_pos (10 - Z.rem x 10) 10 ltac:(lia) ltac:(lia)).
  lia.
Qed.

Lemma rem11_range (x : Z) : (0 <= Z.rem (11 - Z.rem x 11) 11 <= 10)%Z.
Proof.
  pose proof (Z.rem_bound_abs x 11 ltac:(lia)) as Hx.
  pose proof (Z.rem_bound_pos (11 - Z.rem x 11) 11 ltac:(lia) ltac:(lia)).
  lia.
Qed.

(** The ISBN-13 check digit is [NaN] or a number between 0 and 9. *)
Lemma checkDigit13_cases (partial : string) :
  checkDigit13 partial = JS.NaN
  \/ exists d, (0 <= d <= 9)%Z /\ checkDigit13 partial = JS.Num d.
Proof.
  unfold checkDigit13. destruct (sum13 partial) as [|n]; [now left |].
  right. exists (Z.rem (10 - Z.rem n 10) 10). split; [apply rem10_range | reflexivity].
Qed.

(** The ISBN-10 check value is [NaN] or a number between 0 and 10. *)
Lemma checkDigit10_cases (partial : string) :
  checkDigit10 partial = JS.NaN
  \/ exists d, (0 <= d <= 10)%Z /\ checkDigit10 partial = JS.Num d.
Proof.
  unfold checkDigit10. destruct (sum10 partial) as [|n]; [now left |].
  right. exists (Z.rem (11 - Z.rem n 11) 11). split; [apply rem11_range | reflexivity].
Qed.

(** What is appended by [convertISBN10ToISBN13]: one digit, or ["NaN"]. *)
Lemma checkDigit13_toString (partial : string) :
  JS.toString (checkDigit13 partial) = "NaN"
  \/ exists c, JS.is_digit c = true
               /\ JS.toString (checkDigit13 partial) = String c EmptyString.
Proof.
  destruct (checkDigit13_cases partial) as [-> | (d & Hd & ->)]; [now left |].
  right. exists (Spec.digit_char d). destruct (toString_digit d Hd). now split.
Qed.

(** What is appended by [convertISBN13ToISBN10]: one digit, [X], or ["NaN"]. *)
Lemma checkChar10_cases (partial : string) :
  checkChar10 (checkDigit10 partial) = "NaN"
  \/ exists c, (JS.is_digit c = true \/ c = "X"%char)
               /\ checkChar10 (checkDigit10 partial) = String c EmptyString.
Proof.
  destruct (checkDigit10_cases partial) as [-> | (d & Hd & ->)]; [now left |].
  right. unfold checkChar10, JS.strict_eq.
  destruct (d =? 10)%Z eqn:E10.
  - exists "X"%char. split; [now right | reflexivity].
  - apply Z.eqb_neq in E10.
    destruct (d =? 11)%Z eqn:E11; [apply Z.eqb_eq in E11; lia |].
    exists (Spec.digit_char d).
    destruct (toString_digit d ltac:(lia)) as [-> ?]. split; [now left | reflexivity].
Qed.

(** ** The two conversions *)

Lemma length_nonempty (s : string) (n : nat) :
  String.length s = S n -> String.eqb s "" = false.
Proof. destruct s; [discriminate | reflexivity]. Qed.

Lemma convert10_Some (s : string) :
  String.length s = 10 -> BookDatabase.convertISBN10ToISBN13 s = Some (isbn13_of s).
Proof.
  intros H. unfold BookDatabase.convertISBN10ToISBN13.
  rewrite (length_nonempty s 9 H), H. reflexivity.
Qed.

Lemma convert10_None (s : string) :
  String.length s <> 10 -> BookDatabase.convertISBN10ToISBN13 s = None.
Proof.
  intros H. unfold BookDatabase.convertISBN10ToISBN13.
  apply Nat.eqb_neq in H. rewrite H. now rewrite orb_true_r.
Qed.

Lemma isbn13_of_length (s : string) :
  String.length s = 10 ->
  String.length (isbn13_of s) = 13 \/ String.length (isbn13_of s) = 15.
Proof.
  intros H. unfold isbn13_of. rewrite !length_append.
  unfold JS.substring. simpl Nat.min. simpl Nat.max. simpl (9 - 0).
  rewrite length_substring by lia.
  destruct (checkDigit13_toString ("978" +:+ String.substring 0 9 s))
    as [-> | (c & _ & ->)]; simpl; lia.
Qed.

Lemma isbn13_of_clean (s : string) :
  is_clean s = true -> is_clean (isbn13_of s) = true.
Proof.
  intros H. unfold isbn13_of. rewrite !is_clean_append.
  unfold JS.substring. rewrite is_clean_substring by exact H.
  destruct (checkDigit13_cases ("978" +:+ String.substring (Nat.min 0 9) (Nat.max 0 9 - Nat.min 0 9) s))
    as [-> | (d & Hd & ->)]; [reflexivity |].
  destruct (toString_digit d Hd) as [-> Hdig]. simpl.
  unfold is_clean. simpl. rewrite andb_true_r. apply negb_true_iff.
  unfold JS.is_digit in Hdig. unfold JS.is_space.
  destruct (Spec.digit_char d) as [[] [] [] [] [] [] [] []]; try discriminate; reflexivity.
Qed.

Lemma convert13_Some (s : string) :
  String.length s = 13 -> JS.startsWith "978" s = true ->
  BookDatabase.convertISBN13ToISBN10 s
  = Some (JS.substring 3 12 s +:+ checkChar10 (checkDigit10 (JS.substring 3 12 s))).
Proof.
  intros H Hp. unfold BookDatabase.convertISBN13ToISBN10.
  rewrite (length_nonempty s 12 H), H, Hp. reflexivity.
Qed.

Lemma convert13_None (s : string) :
  ~ (String.length s = 13 /\ JS.startsWith "978" s = true) ->
  BookDatabase.convertISBN13ToISBN10 s = None.
Proof.
  intros H. unfold BookDatabase.convertISBN13ToISBN10.
  destruct (Nat.eqb (String.length s) 13) eqn:E; [| now rewrite orb_true_r].
  apply Nat.eqb_eq in E.
  destruct (JS.startsWith "978" s) eqn:P; [exfalso; now apply H |].
  now rewrite orb_true_r.
Qed.

(** C9. [convertISBN10ToISBN13] and [convertISBN13ToISBN10] are defined on
    every string: the result is [null] exactly when the guard of the first
    line rejects the input, and otherwise a string (of 13 or 15 characters
    for the first conversion, of 10 or 12 for the second; the longer ones end
    with ["NaN"]).  No index read by the two loops is out of range. *)
Theorem conversions_total (s : string) :
  match BookDatabase.convertISBN10ToISBN13 s with
  | None => String.length s <> 10
  | Some r =>
      String.length s = 10
      /\ (String.length r = 13 \/ String.length r = 15)
      /\ forall i, i < 12 -> String.get i ("978" +:+ JS.substring 0 9 s) <> None
  end
  /\
  match BookDatabase.convertISBN13ToISBN10 s with
  | None => ~ (String.length s = 13 /\ JS.startsWith "978" s = true)
  | Some r =>
      String.length s = 13 /\ JS.startsWith "978" s = true
      /\ (String.length r = 10 \/ String.length r = 12)
      /\ forall i, i < 9 -> String.get i (JS.substring 3 12 s) <> None
  end.
Proof.
  split.
  - destruct (Nat.eq_dec (String.length s) 10) as [H | H].
    + rewrite (convert10_Some s H). split; [exact H |].
      split; [now apply isbn13_of_length |].
      intros i Hi.
      do 10 (destruct s as [|? s]; [discriminate H |]).
      do 12 (destruct i as [|i]; [discriminate |]). lia.
    + now rewrite (convert10_None s H).
  - destruct (Nat.eq_dec (String.length s) 13) as [H | H].
    + destruct (JS.startsWith "978" s) eqn:P.
      * rewrite (convert13_Some s H P). split; [exact H |]. split; [reflexivity |].
        assert (String.length (JS.substring 3 12 s) = 9) as L
          by (unfold JS.substring; simpl; apply length_substring; lia).
        split.
        -- rewrite length_append, L.
           destruct (checkChar10_cases (JS.substring 3 12 s)) as [-> | (c & _ & ->)];
             simpl; lia.
        -- intros i Hi.
           do 13 (destruct s as [|? s]; [discriminate H |]).
           do 9 (destruct i as [|i]; [discriminate |]). lia.
      * rewrite convert13_None; intros [_ ?]; congruence.
    + rewrite convert13_None; intros [? _]; congruence.
Qed.

(** ** Normalisation *)

Lemma normalize_server_client (isbn : string) :
  ISBNServer.normalizeISBN isbn = BookDatabase.normalizeISBN isbn.
Proof.
  unfold ISBNServer.normalizeISBN, BookDatabase.normalizeISBN,
    ISBNServer.cleanISBN, BookDatabase.cleanISBN.
  destruct (String.eqb _ sentinel); [reflexivity |].
  destruct (Nat.eqb _ 13); [reflexivity |].
  destruct (Nat.eqb (String.length _) 10) eqn:E; [| reflexivity].
  apply Nat.eqb_eq in E. rewrite (convert10_Some _ E).
  destruct (isbn13_of_length _ E) as [L | L];
    now rewrite (length_nonempty _ _ L).
Qed.

(** The result of [normalizeISBN] is the cleaned input, unless the cleaned
    input has ten characters. *)
Lemma normalize_cases (isbn : string) :
  let clean := JS.strip_hyphens_spaces isbn in
  (String.length clean <> 10 /\ ISBNServer.normalizeISBN isbn = clean)
  \/ (String.length clean = 10 /\ ISBNServer.normalizeISBN isbn = isbn13_of clean).
Proof.
  unfold ISBNServer.normalizeISBN, ISBNServer.cleanISBN. simpl.
  destruct (String.eqb _ sentinel) eqn:S.
  - left. apply String.eqb_eq in S. rewrite S. split; [discriminate | reflexivity].
  - destruct (Nat.eqb _ 13) eqn:E13.
    + left. apply Nat.eqb_eq in E13. split; [lia | reflexivity].
    + destruct (Nat.eqb (String.length _) 10) eqn:E10.
      * right. apply Nat.eqb_eq in E10. now split.
      * left. apply Nat.eqb_neq in E10. now split.
Qed.

Lemma normalize_fixed (s : string) :
  is_clean s = true -> String.length s <> 10 -> ISBNServer.normalizeISBN s = s.
Proof.
  intros Hc Hl. destruct (normalize_cases s) as [[_ ->] | [H _]].
  - now apply strip_fixed.
  - simpl in H. rewrite (strip_fixed s Hc) in H. contradiction.
Qed.

(** C7. [normalizeISBN] is idempotent on every input string, in the client
    and in the server. *)
Theorem normalize_idempotent (x : string) :
  BookDatabase.normalizeISBN (BookDatabase.normalizeISBN x) = BookDatabase.normalizeISBN x
  /\ ISBNServer.normalizeISBN (ISBNServer.normalizeISBN x) = ISBNServer.normalizeISBN x.
Proof.
  rewrite <- !normalize_server_client.
  assert (ISBNServer.normalizeISBN (ISBNServer.normalizeISBN x)
          = ISBNServer.normalizeISBN x) as H; [| now split].
  destruct (normalize_cases x) as [[Hl ->] | [Hl ->]].
  - apply normalize_fixed; [apply strip_is_clean | exact Hl].
  - apply normalize_fixed.
    + apply isbn13_of_clean, strip_is_clean.
    + destruct (isbn13_of_length _ Hl); lia.
Qed.

(** ** Validation *)

Lemma sentinel_client_valid (raw : string) :
  JS.strip_hyphens_spaces raw = sentinel ->
  BookAPIService.validateISBN raw = Valid sentinel.
Proof. intros H. unfold BookAPIService.validateISBN. rewrite H. reflexivity. Qed.

Lemma sentinel_normalize (raw : string) :
  JS.strip_hyphens_spaces raw = sentinel ->
  BookDatabase.normalizeISBN raw = sentinel /\ ISBNServer.normalizeISBN raw = sentinel.
Proof.
  intros H. rewrite normalize_server_client.
  unfold BookDatabase.normalizeISBN, BookDatabase.cleanISBN. rewrite H. now split.
Qed.

(** The server validator has no branch for the reserved identifier: its
    prefix rule rejects it. *)
Lemma sentinel_server_invalid (raw : string) :
  JS.strip_hyphens_spaces raw = sentinel ->
  ISBNServer.validateISBN raw = Invalid InvalidPrefix.
Proof.
  intros H. unfold ISBNServer.validateISBN, ISBNServer.cleanISBN. rewrite H. reflexivity.
Qed.

(** C2. On the reserved identifier the client validator answers
    [{valid: true}] and both [normalizeISBN] return it unchanged, but the
    server validator answers [{valid: false}] with the prefix error. *)
Theorem sentinel_server_rejected :
  ISBNServer.validateISBN "6666666666666" = Invalid InvalidPrefix
  /\ BookAPIService.validateISBN "6666666666666" = Valid "6666666666666"
  /\ BookDatabase.normalizeISBN "6666666666666" = "6666666666666"
  /\ ISBNServer.normalizeISBN "6666666666666" = "6666666666666".
Proof. repeat split; reflexivity. Qed.

(** C8. When the cleaned input is not the reserved identifier and its length
    is neither 10 nor 13, both validators answer [{valid: false}] with the
    length error, whatever the characters of the input are. *)
Theorem validate_invalid_length (raw : string) :
  JS.strip_hyphens_spaces raw <> sentinel ->
  String.length (JS.strip_hyphens_spaces raw) <> 10 ->
  String.length (JS.strip_hyphens_spaces raw) <> 13 ->
  BookAPIService.validateISBN raw = Invalid InvalidLength
  /\ ISBNServer.validateISBN raw = Invalid InvalidLength.
Proof.
  intros Hs H10 H13.
  unfold BookAPIService.validateISBN, ISBNServer.validateISBN, ISBNServer.cleanISBN.
  apply String.eqb_neq in Hs. apply Nat.eqb_neq in H10, H13.
  rewrite Hs, H10, H13. now split.
Qed.

Lemma validate_invalid_length_12345 :
  BookAPIService.validateISBN "12345" = Invalid InvalidLength
  /\ ISBNServer.validateISBN "12345" = Invalid InvalidLength.
Proof. apply (validate_invalid_length "12345"); vm_compute; discriminate. Defined.

(** ** Variants *)

(** On the client the second variant of a 13-digit identifier under [978]
    is the nine digits followed by the recomputed check character. *)
Lemma client_variants_13 (raw : string) :
  let clean := JS.strip_hyphens_spaces raw in
  String.length clean = 13 -> JS.startsWith "978" clean = true ->
  BookDatabase.getISBNVariants raw
  = [clean; JS.substring 3 12 clean +:+ checkChar10 (checkDigit10 (JS.substring 3 12 clean))].
Proof.
  intros clean H P. unfold BookDatabase.getISBNVariants, BookDatabase.cleanISBN.
  fold clean. rewrite H, P. simpl.
  rewrite (convert13_Some clean H P).
  set (p := JS.substring 3 12 clean).
  assert (String.length p = 9) as Lp
    by (unfold p, JS.substring; simpl; apply length_substring; lia).
  set (t := p +:+ checkChar10 (checkDigit10 p)).
  assert (String.length t = 10 \/ String.length t = 12) as Lt.
  { unfold t. rewrite length_append, Lp.
    destruct (checkChar10_cases p) as [-> | (c & _ & ->)]; simpl; lia. }
  assert (String.eqb t "" = false) as -> by (destruct Lt as [L | L]; now rewrite (length_nonempty _ _ L)).
  unfold JS.set_add. simpl.
  destruct (decide (t ∈ [clean])) as [Hin | _]; [| reflexivity].
  apply list_elem_of_singleton in Hin. rewrite Hin in Lt. lia.
Qed.

(** On the server the second variant is the nine-character substring alone. *)
Lemma server_variants_13 (raw : string) :
  let clean := JS.strip_hyphens_spaces raw in
  String.length clean = 13 -> JS.startsWith "978" clean = true ->
  ISBNServer.getISBNVariants raw = [clean; JS.substring 3 12 clean].
Proof.
  intros clean H P. unfold ISBNServer.getISBNVariants, ISBNServer.cleanISBN.
  fold clean. rewrite H, P. reflexivity.
Qed.

(** C1. For ["9780156013987"] the client returns the cleaned input and the
    ten-character ISBN-10 ["0156013983"]; the server returns the cleaned
    input and the nine-character string ["015601398"], which lacks the
    check character, and no ten-character string at all. *)
Theorem server_variants_lack_check_character :
  BookDatabase.getISBNVariants "9780156013987" = ["9780156013987"; "0156013983"]
  /\ ISBNServer.getISBNVariants "9780156013987" = ["9780156013987"; "015601398"]
  /\ forallb (fun v => negb (Nat.eqb (String.length v) 10))
             (ISBNServer.getISBNVariants "9780156013987") = true.
Proof. repeat split; reflexivity. Qed.

(** ** The checksum loops compute the specified check digits *)

Lemma parseInt_digit (a : ascii) :
  JS.is_digit a = true -> JS.parseInt (Some a) = JS.Num (Spec.digit_value a).
Proof. intros H. unfold JS.parseInt. now rewrite H. Qed.

Lemma digit_value_range (a : ascii) :
  JS.is_digit a = true -> (0 <= Spec.digit_value a <= 9)%Z.
Proof.
  unfold JS.is_digit, Spec.digit_value. intros H.
  apply andb_prop in H as [H1 H2]. apply N.leb_le in H1, H2. lia.
Qed.

Lemma digits_of_nonneg (p : string) :
  Spec.all_digits p = true -> Forall (fun d => 0 <= d)%Z (Spec.digits_of p).
Proof.
  unfold Spec.all_digits, Spec.digits_of.
  induction p as [|a p IH]; simpl; intros H; [constructor |].
  apply andb_prop in H as [Ha Hp]. constructor; [| now apply IH].
  now destruct (digit_value_range a Ha).
Qed.

Lemma weighted_sum13_nonneg (digits : list Z) :
  Forall (fun d => 0 <= d)%Z digits ->
  forall i, (0 <= Spec.weighted_sum13 i digits)%Z.
Proof.
  induction 1 as [|d l Hd _ IH]; intros i; simpl; [lia |].
  specialize (IH (S i)). destruct (Nat.even i); lia.
Qed.

Lemma weighted_sum10_nonneg (digits : list Z) :
  Forall (fun d => 0 <= d)%Z digits ->
  forall i, i + List.length digits <= 10 -> (0 <= Spec.weighted_sum10 i digits)%Z.
Proof.
  induction 1 as [|d l Hd _ IH]; intros i Hi; simpl in *; [lia |].
  specialize (IH (S i) ltac:(lia)). nia.
Qed.

Lemma sum13_spec (p : string) :
  String.length p = 12 -> Spec.all_digits p = true ->
  sum13 p = JS.Num (Spec.weighted_sum13 0 (Spec.digits_of p)).
Proof.
  intros L D.
  do 12 (destruct p as [|? p]; [discriminate L |]).
  destruct p; [| discriminate L]. clear L.
  unfold Spec.all_digits in D. cbn [forallb list_ascii_of_string] in D.
  repeat (apply andb_prop in D as [? D]).
  unfold sum13. cbn [seq fold_left String.get Nat.even].
  rewrite !parseInt_digit by assumption.
  cbn [JS.add JS.mul].
  unfold Spec.digits_of. cbn [map list_ascii_of_string Spec.weighted_sum13 Nat.even].
  f_equal. lia.
Qed.

Lemma sum10_spec (p : string) :
  String.length p = 9 -> Spec.all_digits p = true ->
  sum10 p = JS.Num (Spec.weighted_sum10 0 (Spec.digits_of p)).
Proof.
  intros L D.
  do 9 (destruct p as [|? p]; [discriminate L |]).
  destruct p; [| discriminate L]. clear L.
  unfold Spec.all_digits in D. cbn [forallb list_ascii_of_string] in D.
  repeat (apply andb_prop in D as [? D]).
  unfold sum10. cbn [seq fold_left String.get].
  rewrite !parseInt_digit by assumption.
  cbn [JS.add JS.mul].
  unfold Spec.digits_of. cbn [map list_ascii_of_string Spec.weighted_sum10].
  f_equal. lia.
Qed.

Lemma length_digits_of (p : string) :
  List.length (Spec.digits_of p) = String.length p.
Proof.
  unfold Spec.digits_of. rewrite length_map.
  induction p as [|a p IH]; simpl; [reflexivity | now rewrite IH].
Qed.

Lemma ean13_check_digit_range (digits : list Z) :
  (0 <= Spec.ean13_check_digit digits <= 9)%Z.
Proof.
  unfold Spec.ean13_check_digit.
  pose proof (Z.mod_pos_bound (10 - Spec.weighted_sum13 0 digits mod 10) 10 ltac:(lia)).
  lia.
Qed.

Lemma checkDigit13_spec (p : string) :
  String.length p = 12 -> Spec.all_digits p = true ->
  checkDigit13 p = JS.Num (Spec.ean13_check_digit (Spec.digits_of p)).
Proof.
  intros L D. unfold checkDigit13. rewrite (sum13_spec p L D).
  pose proof (weighted_sum13_nonneg _ (digits_of_nonneg p D) 0) as Hs.
  set (s := Spec.weighted_sum13 0 (Spec.digits_of p)) in *.
  unfold Spec.ean13_check_digit. fold s. cbn [JS.rem JS.sub Z.eqb].
  f_equal. rewrite (Z.rem_mod_nonneg s 10) by lia.
  pose proof (Z.mod_pos_bound s 10 ltac:(lia)).
  apply Z.rem_mod_nonneg; lia.
Qed.

Lemma checkChar10_spec (p : string) :
  String.length p = 9 -> Spec.all_digits p = true ->
  checkChar10 (checkDigit10 p)
  = String (Spec.isbn10_check_char (Spec.digits_of p)) EmptyString.
Proof.
  intros L D. unfold checkDigit10. rewrite (sum10_spec p L D).
  assert (0 <= Spec.weighted_sum10 0 (Spec.digits_of p))%Z as Hs.
  { apply weighted_sum10_nonneg; [now apply digits_of_nonneg |].
    rewrite length_digits_of. lia. }
  set (s := Spec.weighted_sum10 0 (Spec.digits_of p)) in *.
  unfold Spec.isbn10_check_char. fold s. cbn [JS.rem JS.sub Z.eqb].
  rewrite (Z.rem_mod_nonneg s 11) by lia.
  pose proof (Z.mod_pos_bound s 11 ltac:(lia)).
  rewrite (Z.rem_mod_nonneg (11 - s mod 11) 11) by lia.
  pose proof (Z.mod_pos_bound (11 - s mod 11) 11 ltac:(lia)).
  set (c := ((11 - s mod 11) mod 11)%Z) in *.
  unfold checkChar10, JS.strict_eq.
  destruct (c =? 10)%Z eqn:E10; [reflexivity |].
  apply Z.eqb_neq in E10.
  destruct (c =? 11)%Z eqn:E11; [reflexivity |].
  now destruct (toString_digit c ltac:(lia)) as [-> _].
Qed.

Lemma all_digits_append (s t : string) :
  Spec.all_digits (s +:+ t) = Spec.all_digits s && Spec.all_digits t.
Proof.
  unfold Spec.all_digits. induction s as [|c s IH]; simpl; [reflexivity |].
  rewrite IH. now rewrite andb_assoc.
Qed.

Lemma substring_append_prefix (s t : string) :
  String.substring 0 (String.length s) (s +:+ t) = s.
Proof.
  induction s as [|c s IH]; simpl; [now destruct t | now rewrite IH].
Qed.

Lemma startsWith_append (p s : string) : JS.startsWith p (p +:+ s) = true.
Proof. apply String.prefix_correct, substring_append_prefix. Qed.

Lemma get_append_end (s : string) (c : ascii) (t : string) :
  String.get (String.length s) (s +:+ String c t) = Some c.
Proof. induction s as [|a s IH]; simpl; [reflexivity | exact IH]. Qed.

Lemma append_inj_l (s t u : string) : s +:+ t = s +:+ u -> t = u.
Proof.
  induction s as [|c s IH]; simpl; intros H; [exact H |].
  injection H as H. now apply IH.
Qed.

(** For nine digits, the conversion appends the EAN-13 check digit. *)
Lemma isbn13_of_digits (clean : string) :
  String.length clean = 10 -> Spec.all_digits (JS.substring 0 9 clean) = true ->
  let partial := "978" +:+ JS.substring 0 9 clean in
  String.length partial = 12
  /\ isbn13_of clean
     = partial +:+ String (Spec.digit_char
                             (Spec.ean13_check_digit (Spec.digits_of partial)))
                     EmptyString.
Proof.
  intros L D partial.
  assert (String.length partial = 12) as Lp.
  { unfold partial. rewrite length_append. unfold JS.substring. simpl.
    rewrite length_substring; lia. }
  assert (Spec.all_digits partial = true) as Dp.
  { unfold partial. rewrite all_digits_append, D. reflexivity. }
  split; [exact Lp |].
  unfold isbn13_of. fold partial. rewrite (checkDigit13_spec partial Lp Dp).
  now destruct (toString_digit _ (ean13_check_digit_range (Spec.digits_of partial)))
    as [-> _].
Qed.

(** C10. When the cleaned input has exactly ten characters, the first nine
    being decimal digits, [normalizeISBN] (client and server alike) returns a
    string of exactly 13 characters that starts with ["978"] and ends with
    the EAN-13 check digit of its first twelve characters; any other input
    whose cleaned form has ten characters and the same first nine gets the
    same result, so the tenth character has no influence. *)
Theorem normalize_isbn10_digits (raw : string) :
  let clean := JS.strip_hyphens_spaces raw in
  String.length clean = 10 ->
  Spec.all_digits (JS.substring 0 9 clean) = true ->
  let r := BookDatabase.normalizeISBN raw in
  ISBNServer.normalizeISBN raw = r
  /\ String.length r = 13
  /\ JS.startsWith "978" r = true
  /\ String.get 12 r
     = Some (Spec.digit_char
               (Spec.ean13_check_digit (Spec.digits_of (JS.substring 0 12 r))))
  /\ forall raw',
       String.length (JS.strip_hyphens_spaces raw') = 10 ->
       JS.substring 0 9 (JS.strip_hyphens_spaces raw') = JS.substring 0 9 clean ->
       BookDatabase.normalizeISBN raw' = r /\ ISBNServer.normalizeISBN raw' = r.
Proof.
  intros clean L D r. unfold r. rewrite <- !normalize_server_client.
  destruct (normalize_cases raw) as [[Hl _] | [_ Hn]]; [contradiction |].
  fold clean in Hn. rewrite Hn.
  destruct (isbn13_of_digits clean L D) as [Lp E].
  set (partial := "978" +:+ JS.substring 0 9 clean) in *.
  split; [reflexivity |]. rewrite E.
  split; [rewrite length_append, Lp; reflexivity |].
  split.
  { exact (startsWith_append "978" (JS.substring 0 9 clean +:+ String (Spec.digit_char
             (Spec.ean13_check_digit (Spec.digits_of partial))) EmptyString)). }
  split.
  - unfold JS.substring. simpl Nat.min. simpl Nat.max. simpl (12 - 0).
    rewrite <- Lp at 2. rewrite substring_append_prefix.
    rewrite <- Lp at 1. apply get_append_end.
  - intros raw' L' S'. rewrite <- normalize_server_client.
    destruct (normalize_cases raw') as [[Hl _] | [_ Hn']]; [contradiction |].
    rewrite Hn', <- E. unfold isbn13_of. rewrite S'. now split.
Qed.

Lemma normalize_isbn10_digits_witness :
  String.length (BookDatabase.normalizeISBN "0-15-601398-7") = 13.
Proof.
  apply (normalize_isbn10_digits "0-15-601398-7"); reflexivity.
Defined.

(** ** The round trip ISBN-10, ISBN-13, ISBN-10 *)

Lemma strip_length_le (s : string) :
  String.length (JS.strip_hyphens_spaces s) <= String.length s.
Proof.
  induction s as [|c s IH]; simpl; [lia |].
  destruct (Ascii.eqb c "-" || JS.is_space c); simpl; lia.
Qed.

Lemma strip_same_length (s : string) :
  String.length (JS.strip_hyphens_spaces s) = String.length s ->
  JS.strip_hyphens_spaces s = s.
Proof.
  induction s as [|c s IH]; simpl; [reflexivity |].
  pose proof (strip_length_le s) as Hle.
  destruct (Ascii.eqb c "-" || JS.is_space c); simpl; intros H; [lia |].
  f_equal. apply IH. lia.
Qed.

(** What the client validator has checked on an accepted string of ten
    characters. *)
Lemma client_valid_10 (x : string) :
  String.length x = 10 ->
  is_valid (BookAPIService.validateISBN x) = true ->
  JS.strip_hyphens_spaces x = x /\ BookAPIService.test_isbn10 x = true.
Proof.
  intros L V. pose proof (strip_length_le x) as Hle.
  unfold BookAPIService.validateISBN in V.
  destruct (String.eqb _ sentinel) eqn:S.
  { apply String.eqb_eq in S. rewrite S in Hle. simpl in Hle. lia. }
  destruct (Nat.eqb (String.length (JS.strip_hyphens_spaces x)) 10) eqn:E10.
  - apply Nat.eqb_eq in E10.
    assert (JS.strip_hyphens_spaces x = x) as Hx
      by (apply strip_same_length; lia).
    rewrite Hx in V. simpl in V.
    destruct (BookAPIService.test_isbn10 x); [now split | discriminate V].
  - destruct (Nat.eqb (String.length (JS.strip_hyphens_spaces x)) 13) eqn:E13.
    + apply Nat.eqb_eq in E13. lia.
    + discriminate V.
Qed.

Lemma split_last10 (x : string) :
  String.length x = 10 ->
  exists c, String.get 9 x = Some c
            /\ x = JS.substring 0 9 x +:+ String c EmptyString.
Proof.
  intros L. do 10 (destruct x as [|? x]; [discriminate L |]).
  destruct x; [| discriminate L]. eexists. split; reflexivity.
Qed.

(** The round trip keeps the nine digits and recomputes the check character. *)
Lemma roundtrip10_value (x : string) :
  String.length x = 10 -> Spec.all_digits (JS.substring 0 9 x) = true ->
  roundtrip10 x
  = Some (JS.substring 0 9 x
          +:+ String (Spec.isbn10_check_char (Spec.digits_of (JS.substring 0 9 x)))
                EmptyString).
Proof.
  intros L D. unfold roundtrip10. rewrite (convert10_Some x L).
  destruct (isbn13_of_digits x L D) as [Lp E]. rewrite E. clear E.
  set (c := Spec.digit_char _).
  set (s9 := JS.substring 0 9 x) in *.
  assert (String.length s9 = 9) as L9
    by (unfold s9, JS.substring; simpl; apply length_substring; lia).
  rewrite convert13_Some.
  - assert (JS.substring 3 12 (("978" +:+ s9) +:+ String c EmptyString) = s9) as ->.
    { change (String.substring 0 9 (s9 +:+ String c EmptyString) = s9).
      rewrite <- L9 at 1. apply substring_append_prefix. }
    now rewrite (checkChar10_spec s9 L9 D).
  - rewrite length_append, Lp. reflexivity.
  - exact (startsWith_append "978" (s9 +:+ String c EmptyString)).
Qed.

(** C6 (as amended). For a string of ten characters accepted by the client
    validator, converting to ISBN-13 and back gives the string itself
    exactly when its tenth character is the ISBN-10 check character of its
    first nine digits. *)
Theorem roundtrip10_iff_check_character (x : string) :
  String.length x = 10 ->
  is_valid (BookAPIService.validateISBN x) = true ->
  roundtrip10 x = Some x
  <-> String.get 9 x
      = Some (Spec.isbn10_check_char (Spec.digits_of (JS.substring 0 9 x))).
Proof.
  intros L V. destruct (client_valid_10 x L V) as [_ T].
  assert (Spec.all_digits (JS.substring 0 9 x) = true) as D.
  { unfold BookAPIService.test_isbn10 in T.
    apply andb_prop in T as [T _]. apply andb_prop in T as [_ T]. exact T. }
  rewrite (roundtrip10_value x L D).
  destruct (split_last10 x L) as (c & Hc & Hx). rewrite Hc.
  set (k := Spec.isbn10_check_char _). split.
  - intros H. injection H as H. rewrite Hx in H at 2.
    apply append_inj_l in H. congruence.
  - intros H. injection H as ->. now rewrite <- Hx.
Qed.

Lemma roundtrip10_iff_check_character_witness :
  roundtrip10 "0156013983" = Some "0156013983"
  <-> String.get 9 "0156013983"
      = Some (Spec.isbn10_check_char (Spec.digits_of (JS.substring 0 9 "0156013983"))).
Proof. apply (roundtrip10_iff_check_character "0156013983"); reflexivity. Defined.

(** C6 (as stated) fails: ["0156013987"] is accepted by both validators, and
    the round trip returns ["0156013983"]. *)
Lemma roundtrip10_changes_check_character :
  String.length "0156013987" = 10
  /\ BookAPIService.validateISBN "0156013987" = Valid "0156013987"
  /\ ISBNServer.validateISBN "0156013987" = Valid "0156013987"
  /\ roundtrip10 "0156013987" = Some "0156013983"
  /\ roundtrip10 "0156013987" <> Some "0156013987".
Proof. repeat split; try reflexivity. discriminate. Qed.

(** ** The client store *)

Lemma client_normalize_cases (raw : string) :
  let clean := JS.strip_hyphens_spaces raw in
  (String.length clean <> 10 /\ BookDatabase.normalizeISBN raw = clean)
  \/ (String.length clean = 10 /\ BookDatabase.normalizeISBN raw = isbn13_of clean).
Proof. rewrite <- normalize_server_client. apply normalize_cases. Qed.

Lemma client_variants_10 (raw : string) :
  let clean := JS.strip_hyphens_spaces raw in
  String.length clean = 10 ->
  BookDatabase.getISBNVariants raw = [clean; isbn13_of clean].
Proof.
  intros clean H. unfold BookDatabase.getISBNVariants, BookDatabase.cleanISBN.
  fold clean. rewrite H. simpl.
  rewrite (convert10_Some clean H).
  assert (String.length (isbn13_of clean) <> 10) as Ln
    by (destruct (isbn13_of_length clean H); lia).
  destruct (isbn13_of_length clean H) as [L | L]; rewrite (length_nonempty _ _ L);
    unfold JS.set_add; simpl;
    (destruct (decide (isbn13_of clean ∈ [clean])) as [Hin | _]; [| reflexivity]);
    apply list_elem_of_singleton in Hin; rewrite Hin in Ln; contradiction.
Qed.

Lemma client_variants_other (raw : string) :
  let clean := JS.strip_hyphens_spaces raw in
  String.length clean <> 10 ->
  ~ (String.length clean = 13 /\ JS.startsWith "978" clean = true) ->
  BookDatabase.getISBNVariants raw = [clean].
Proof.
  intros clean H10 H13. unfold BookDatabase.getISBNVariants, BookDatabase.cleanISBN.
  fold clean. apply Nat.eqb_neq in H10. rewrite H10.
  destruct (Nat.eqb (String.length clean) 13) eqn:E; [| reflexivity].
  apply Nat.eqb_eq in E.
  destruct (JS.startsWith "978" clean) eqn:P; [exfalso; now apply H13 | reflexivity].
Qed.

(** The variants are the cleaned input and at most one other string; the
    canonical key is one of them. *)
Lemma client_variants_shape (raw : string) :
  let clean := JS.strip_hyphens_spaces raw in
  let n := BookDatabase.normalizeISBN raw in
  (BookDatabase.getISBNVariants raw = [clean] /\ n = clean)
  \/ (exists other, BookDatabase.getISBNVariants raw = [clean; other]
                    /\ other <> clean /\ (n = clean \/ n = other)).
Proof.
  intros clean n. unfold n.
  destruct (client_normalize_cases raw) as [[H10 Hn] | [H10 Hn]]; fold clean in H10, Hn.
  - destruct (Nat.eq_dec (String.length clean) 13) as [H13 | H13].
    + destruct (JS.startsWith "978" clean) eqn:P.
      * right.
        exists (JS.substring 3 12 clean +:+ checkChar10 (checkDigit10 (JS.substring 3 12 clean))).
        split; [exact (client_variants_13 raw H13 P) |].
        split; [| now left].
        intros E. apply (f_equal String.length) in E.
        rewrite length_append in E.
        assert (String.length (JS.substring 3 12 clean) = 9) as L9
          by (unfold JS.substring; simpl; apply length_substring; lia).
        destruct (checkChar10_cases (JS.substring 3 12 clean)) as [Hc | (c & _ & Hc)];
          rewrite Hc, L9, H13 in E; simpl in E; lia.
      * left. split; [| exact Hn]. apply client_variants_other; [exact H10 |].
        intros [_ Q]. change (JS.startsWith "978" clean = true) in Q. congruence.
    + left. split; [| exact Hn]. apply client_variants_other; [exact H10 |].
      intros [Q _]. change (String.length clean = 13) in Q. contradiction.
  - right. exists (isbn13_of clean). split; [exact (client_variants_10 raw H10) |].
    split; [| now right].
    intros E. destruct (isbn13_of_length clean H10); rewrite E in *; lia.
Qed.

Lemma client_probe_Some (data : gmap string Book) (variants : list string) (found : Book) :
  BookDatabase.probe data variants = Some found ->
  exists k stored, k ∈ variants /\ data !! k = Some stored
                   /\ found = <["foundWithISBN" := JS.VStr k]> stored
                   /\ BookDatabase.foundWithISBN found = k.
Proof.
  induction variants as [|v vs IH]; simpl; [discriminate |].
  destruct (data !! v) as [b |] eqn:E.
  - intros [= <-]. exists v, b. split; [left |]. split; [exact E |].
    split; [reflexivity |]. unfold BookDatabase.foundWithISBN.
    now rewrite lookup_insert_eq.
  - intros H. destruct (IH H) as (k & b & Hk & ?). exists k, b. split; [now right | assumption].
Qed.

Lemma client_probe_None (data : gmap string Book) (variants : list string) :
  BookDatabase.probe data variants = None -> forall v, v ∈ variants -> data !! v = None.
Proof.
  induction variants as [|v vs IH]; simpl; intros H w Hw.
  - inversion Hw.
  - destruct (data !! v) eqn:E; [discriminate |].
    apply elem_of_cons in Hw as [-> | Hw]; [exact E | now apply IH].
Qed.

Lemma client_normalize_in_variants (raw : string) :
  BookDatabase.normalizeISBN raw ∈ BookDatabase.getISBNVariants raw.
Proof.
  destruct (client_variants_shape raw) as [[-> ->] | (o & -> & _ & [-> | ->])].
  - left.
  - left.
  - right. left.
Qed.

(** Two variants that both differ from the canonical key are equal. *)
Lemma client_variants_one_other (raw v k : string) :
  v ∈ BookDatabase.getISBNVariants raw -> k ∈ BookDatabase.getISBNVariants raw ->
  v <> BookDatabase.normalizeISBN raw -> k <> BookDatabase.normalizeISBN raw -> v = k.
Proof.
  destruct (client_variants_shape raw) as [[-> ->] | (o & -> & _ & [-> | ->])];
    intros Hv Hk Nv Nk;
    repeat (apply elem_of_cons in Hv as [Hv | Hv]);
    repeat (apply elem_of_cons in Hk as [Hk | Hk]);
    try (inversion Hv; fail); try (inversion Hk; fail); congruence.
Qed.

Lemma client_merge_lookup (existing bookInfo : Book) (now f : string) :
  BookDatabase.merge existing bookInfo now !! f
  = if decide (f = "lastUpdated") then Some (JS.VStr now)
    else match bookInfo !! f with
         | Some v => Some v
         | None => existing !! f
         end.
Proof.
  unfold BookDatabase.merge. destruct (decide (f = "lastUpdated")) as [-> | N].
  - apply lookup_insert_eq.
  - rewrite lookup_insert_ne by congruence. rewrite lookup_union.
    destruct (bookInfo !! f), (existing !! f); reflexivity.
Qed.

Lemma server_merge_lookup (existing updates : Book) (isbn now f : string) :
  ISBNServer.merge existing updates isbn now !! f
  = if decide (f = "updatedAt") then Some (JS.VStr now)
    else if decide (f = "isbn") then Some (JS.VStr isbn)
    else match updates !! f with
         | Some v => Some v
         | None => existing !! f
         end.
Proof.
  unfold ISBNServer.merge. destruct (decide (f = "updatedAt")) as [-> | N].
  - apply lookup_insert_eq.
  - rewrite lookup_insert_ne by congruence.
    destruct (decide (f = "isbn")) as [-> | N'].
    + apply lookup_insert_eq.
    + rewrite lookup_insert_ne by congruence. rewrite lookup_union.
      destruct (updates !! f), (existing !! f); reflexivity.
Qed.

(** The store after an upsert that finds the record under a key other
    than the canonical key. *)
Lemma upsert_migrates_found
    (data : gmap string Book) (isbn : string) (bookInfo : Book)
    (field : string) (value : JS.value) (now : string) (existing : Book) :
  BookDatabase.findBook data isbn = Some existing ->
  BookDatabase.foundWithISBN existing <> BookDatabase.normalizeISBN isbn ->
  let old := BookDatabase.foundWithISBN existing in
  let canonical := BookDatabase.normalizeISBN isbn in
  (exists data',
      BookDatabase.addBook data isbn bookInfo now
      = (data', BookDatabase.merge existing bookInfo now)
      /\ data' !! old = None
      /\ data' !! canonical = Some (BookDatabase.merge existing bookInfo now)
      /\ (forall v, v ∈ BookDatabase.getISBNVariants isbn ->
                    is_Some (data' !! v) -> v = canonical)
      /\ (forall k, k <> old -> k <> canonical -> data' !! k = data !! k))
  /\ (exists data' stored,
      BookDatabase.updateBookField data isbn field value now = Some (data', true)
      /\ data !! old = Some stored
      /\ data' !! old = None
      /\ data' !! canonical
         = Some (<["lastUpdated" := JS.VStr now]> (<[field := value]> stored))
      /\ (forall v, v ∈ BookDatabase.getISBNVariants isbn ->
                    is_Some (data' !! v) -> v = canonical)
      /\ (forall k, k <> old -> k <> canonical -> data' !! k = data !! k))
  /\ (let s1 := (BookDatabase.addBook ∅ "9780156013987" title_only now).1 in
      let s2 := (BookDatabase.addBook s1 "0156013987" pages_only now).1 in
      dom s2 = {[ "9780156013987" ]}
      /\ exists record, s2 !! "9780156013987" = Some record
                        /\ record !! "title" = Some (JS.VStr "Le Petit Prince")
                        /\ record !! "pageCount" = Some (JS.VNum 96)).
Proof.
  intros Hf Hne old canonical.
  unfold BookDatabase.findBook in Hf.
  destruct (client_probe_Some _ _ _ Hf) as (k & stored & Hk & Hs & He & Hfound).
  assert (old = k) as Hold by exact Hfound.
  assert (k <> canonical) as Hkc by (rewrite <- Hold; exact Hne).
  assert (forall v, v ∈ BookDatabase.getISBNVariants isbn -> v <> canonical -> v = k) as Hone.
  { intros v Hv Nv. now apply (client_variants_one_other isbn). }
  split; [| split].
  - eexists. unfold BookDatabase.addBook, BookDatabase.findBook. rewrite Hf.
    fold old canonical. rewrite decide_True by exact Hne.
    split; [reflexivity |].
    split; [rewrite lookup_insert_ne by congruence; apply lookup_delete_eq |].
    split; [apply lookup_insert_eq |].
    split.
    + intros v Hv [x Hx]. destruct (decide (v = canonical)) as [E | N]; [exact E |].
      rewrite (Hone v Hv N), <- Hold in Hx.
      rewrite lookup_insert_ne, lookup_delete_eq in Hx by congruence. discriminate.
    + intros j N1 N2. rewrite lookup_insert_ne, lookup_delete_ne by congruence. reflexivity.
  - unfold BookDatabase.updateBookField, BookDatabase.findBook. rewrite Hf.
    fold old canonical. rewrite decide_True by exact Hne.
    rewrite lookup_delete_ne by exact Hne. rewrite lookup_insert_eq.
    rewrite Hold, Hs. simpl.
    eexists. exists stored. split; [reflexivity |]. split; [reflexivity |].
    split; [rewrite lookup_insert_ne by congruence; apply lookup_delete_eq |].
    split; [apply lookup_insert_eq |].
    split.
    + intros v Hv [x Hx]. destruct (decide (v = canonical)) as [E | N]; [exact E |].
      rewrite (Hone v Hv N) in Hx.
      rewrite lookup_insert_ne, lookup_delete_eq in Hx by congruence. discriminate.
    + intros j N1 N2.
      rewrite lookup_insert_ne, lookup_delete_ne, lookup_insert_ne by congruence.
      reflexivity.
  - split.
    + vm_compute. reflexivity.
    + eexists. split; [vm_compute; reflexivity |]. split; vm_compute; reflexivity.
Qed.

(** ** Deleting and merging *)

(** The client removes a record stored under the ISBN-13 key when asked with
    any ten-character form that normalises to this key. *)
Lemma client_delete_by_isbn10 (data : gmap string Book) (x : string) (stored : Book) :
  String.length (JS.strip_hyphens_spaces x) = 10 ->
  data !! BookDatabase.normalizeISBN x = Some stored ->
  exists data',
    BookDatabase.deleteBook data x = (data', true)
    /\ data' !! BookDatabase.normalizeISBN x = None
    /\ data' !! JS.strip_hyphens_spaces x = None
    /\ forall k, k <> JS.strip_hyphens_spaces x -> k <> BookDatabase.normalizeISBN x ->
                 data' !! k = data !! k.
Proof.
  intros L Hs. unfold BookDatabase.deleteBook. rewrite (client_variants_10 x L).
  destruct (client_normalize_cases x) as [[N _] | [_ Hn]]; [contradiction |].
  rewrite Hn in *. set (clean := JS.strip_hyphens_spaces x) in *.
  assert (isbn13_of clean <> clean) as Hne.
  { intros E. destruct (isbn13_of_length clean L); rewrite E in *; lia. }
  simpl. destruct (data !! clean) as [b |] eqn:Ec.
  - rewrite lookup_delete_ne by congruence. rewrite Hs.
    eexists. split; [reflexivity |].
    split; [apply lookup_delete_eq |].
    split; [rewrite lookup_delete_ne by congruence; apply lookup_delete_eq |].
    intros k N1 N2. now rewrite !lookup_delete_ne by congruence.
  - rewrite Hs. eexists. split; [reflexivity |].
    split; [apply lookup_delete_eq |].
    split; [rewrite lookup_delete_ne by congruence; exact Ec |].
    intros k N1 N2. now rewrite lookup_delete_ne by congruence.
Qed.

(** C3. The record of a book is stored under its ISBN-13 key
    ["9780156013987"] and the request names the ISBN-10 ["0156013983"] of the
    same book.  The server's [findBookByISBN] finds the record, but its
    [deleteBook] answers 404 and leaves the store unchanged; the client's
    [deleteBook] and the PostgreSQL server's [deleteBook] remove it. *)
Theorem server_delete_not_variant_aware :
  let books := store_isbn13 in
  BookDatabase.convertISBN10ToISBN13 "0156013983" = Some "9780156013987"
  /\ ISBNServer.findBookByISBN books "0156013983" = Some (petit_prince, "9780156013987")
  /\ ISBNServer.deleteBook books "0156013983"
     = (books, ISBNServer.Failure 404 "Livre non trouvé")
  /\ BookDatabase.deleteBook books "0156013983" = (∅, true)
  /\ ISBNServerPostgres.deleteBook books "0156013983" = (∅, ISBNServerPostgres.NoContent).
Proof. repeat split; vm_compute; reflexivity. Qed.

Lemma server_update_fields
    (books : gmap string Book) (isbn : string) (updates : Book) (now clean : string)
    (existing : Book) :
  ISBNServer.validateISBN isbn = Valid clean ->
  books !! clean = Some existing ->
  exists updated,
    ISBNServer.updateBook books isbn updates now
    = (<[clean := updated]> books,
       ISBNServer.Success (Some updated) "Livre mis à jour avec succès")
    /\ (forall f v, f <> "isbn" -> f <> "updatedAt" ->
                    updates !! f = Some v -> updated !! f = Some v)
    /\ (forall f, f <> "isbn" -> f <> "updatedAt" ->
                  updates !! f = None -> updated !! f = existing !! f)
    /\ updated !! "isbn" = Some (JS.VStr clean)
    /\ updated !! "updatedAt" = Some (JS.VStr now).
Proof.
  intros V E. unfold ISBNServer.updateBook. rewrite V, E.
  eexists. split; [reflexivity |].
  split; [| split; [| split]].
  - intros f v N1 N2 H. rewrite server_merge_lookup.
    rewrite !decide_False by congruence. now rewrite H.
  - intros f N1 N2 H. rewrite server_merge_lookup.
    rewrite !decide_False by congruence. now rewrite H.
  - rewrite server_merge_lookup. reflexivity.
  - rewrite server_merge_lookup. reflexivity.
Qed.

Lemma client_add_fields
    (data : gmap string Book) (isbn : string) (bookInfo : Book) (now : string)
    (found : Book) :
  BookDatabase.findBook data isbn = Some found ->
  exists stored final,
    data !! BookDatabase.foundWithISBN found = Some stored
    /\ (BookDatabase.addBook data isbn bookInfo now).2 = final
    /\ (forall f v, f <> "lastUpdated" -> bookInfo !! f = Some v -> final !! f = Some v)
    /\ (forall f, f <> "lastUpdated" -> f <> "foundWithISBN" ->
                  bookInfo !! f = None -> final !! f = stored !! f)
    /\ final !! "lastUpdated" = Some (JS.VStr now).
Proof.
  intros Hf. unfold BookDatabase.addBook. rewrite Hf.
  unfold BookDatabase.findBook in Hf.
  destruct (client_probe_Some _ _ _ Hf) as (k & stored & _ & Hs & He & Hk).
  exists stored. eexists. rewrite Hk. split; [exact Hs |].
  split; [reflexivity |]. simpl.
  split; [| split].
  - intros f v N H. rewrite client_merge_lookup, decide_False by exact N. now rewrite H.
  - intros f N1 N2 H. rewrite client_merge_lookup, decide_False by exact N1.
    rewrite H, He. now rewrite lookup_insert_ne by congruence.
  - rewrite client_merge_lookup. reflexivity.
Qed.

(** C5 (as amended). The record produced by a merge gives every field of the
    incoming update its incoming value and keeps every other field of the
    existing record, apart from the fields the merge sets itself: [isbn] (the
    validated identifier) and [updatedAt] (the current time) in the server's
    [updateBook], [lastUpdated] (the current time) in the client's [addBook],
    whose field [foundWithISBN] is left out of the statement.  [createdAt] is
    kept from the existing record when the incoming update has no
    [createdAt]. *)
Theorem merge_keeps_other_fields
    (books : gmap string Book) (isbn : string) (updates : Book) (now clean : string)
    (existing : Book)
    (data : gmap string Book) (isbn' : string) (bookInfo found : Book) :
  ISBNServer.validateISBN isbn = Valid clean ->
  books !! clean = Some existing ->
  BookDatabase.findBook data isbn' = Some found ->
  (exists updated,
      ISBNServer.updateBook books isbn updates now
      = (<[clean := updated]> books,
         ISBNServer.Success (Some updated) "Livre mis à jour avec succès")
      /\ (forall f v, f <> "isbn" -> f <> "updatedAt" ->
                      updates !! f = Some v -> updated !! f = Some v)
      /\ (forall f, f <> "isbn" -> f <> "updatedAt" ->
                    updates !! f = None -> updated !! f = existing !! f)
      /\ updated !! "isbn" = Some (JS.VStr clean)
      /\ updated !! "updatedAt" = Some (JS.VStr now)
      /\ (updates !! "createdAt" = None ->
          updated !! "createdAt" = existing !! "createdAt"))
  /\ (exists stored final,
      data !! BookDatabase.foundWithISBN found = Some stored
      /\ (BookDatabase.addBook data isbn' bookInfo now).2 = final
      /\ (forall f v, f <> "lastUpdated" ->
                      bookInfo !! f = Some v -> final !! f = Some v)
      /\ (forall f, f <> "lastUpdated" -> f <> "foundWithISBN" ->
                    bookInfo !! f = None -> final !! f = stored !! f)
      /\ final !! "lastUpdated" = Some (JS.VStr now)
      /\ (bookInfo !! "createdAt" = None ->
          final !! "createdAt" = stored !! "createdAt")).
Proof.
  intros V E F. split.
  - destruct (server_update_fields books isbn updates now clean existing V E)
      as (updated & Hu & Hin & Hkeep & Hisbn & Hat).
    exists updated. repeat (split; [assumption |]).
    intros H. now apply Hkeep.
  - destruct (client_add_fields data isbn' bookInfo now found F)
      as (stored & final & Hs & Hfin & Hin & Hkeep & Hat).
    exists stored, final. repeat (split; [assumption |]).
    intros H. now apply Hkeep.
Qed.

Lemma merge_keeps_other_fields_witness :
  exists updated,
    ISBNServer.updateBook store_isbn13 "978-0-15-601398-7" pages_only
      "2025-06-30T00:00:00.000Z"
    = (<["9780156013987" := updated]> store_isbn13,
       ISBNServer.Success (Some updated) "Livre mis à jour avec succès")
    /\ updated !! "title" = petit_prince !! "title".
Proof.
  assert (ISBNServer.validateISBN "978-0-15-601398-7" = Valid "9780156013987") as V
    by reflexivity.
  assert (store_isbn13 !! "9780156013987" = Some petit_prince) as E
    by (vm_compute; reflexivity).
  assert (BookDatabase.findBook store_isbn10 "0156013983" = Some found_isbn10) as F
    by (vm_compute; reflexivity).
  destruct (merge_keeps_other_fields
              store_isbn13 "978-0-15-601398-7" pages_only "2025-06-30T00:00:00.000Z"
              "9780156013987" petit_prince store_isbn10 "0156013983" pages_only
              found_isbn10 V E F)
    as [(updated & Hu & _ & Hkeep & _) _].
  exists updated. split; [exact Hu |].
  apply Hkeep; [discriminate | discriminate | vm_compute; reflexivity].
Defined.

(** C5 (as stated) fails: an incoming [createdAt] replaces the one of the
    existing record, in the server's [updateBook] and in the client's
    [addBook]. *)
Lemma merge_overwrites_createdAt :
  let books : gmap string Book := {[ "9780156013987" := dated_2024 ]} in
  let now := "2025-07-01T12:00:00.000Z" in
  dated_2024 !! "createdAt" = Some (JS.VStr "2024-01-01T00:00:00.000Z")
  /\ (exists updated,
        (ISBNServer.updateBook books "9780156013987" dated_2025 now).2
        = ISBNServer.Success (Some updated) "Livre mis à jour avec succès"
        /\ updated !! "createdAt" = Some (JS.VStr "2025-06-30T00:00:00.000Z")
        /\ updated !! "createdAt" <> dated_2024 !! "createdAt")
  /\ (BookDatabase.addBook books "9780156013987" dated_2025 now).2 !! "createdAt"
     = Some (JS.VStr "2025-06-30T00:00:00.000Z").
Proof.
  split; [reflexivity |]. split.
  - eexists. split; [vm_compute; reflexivity |].
    split; [vm_compute; reflexivity |]. vm_compute. discriminate.
  - vm_compute. reflexivity.
Qed.

(** The record stored by the merge branch of [addBook] carries the field
    [foundWithISBN] of the object returned by [findBook]. *)
Example addBook_stores_foundWithISBN :
  (BookDatabase.addBook store_isbn10 "0156013983" pages_only
     "2025-07-01T12:00:00.000Z").2 !! "foundWithISBN"
  = Some (JS.VStr "0156013983").
Proof. vm_compute. reflexivity. Qed.

(** ** The client store: look-up after a write *)

Lemma client_probe_two (data : gmap string Book) (a b : string) :
  BookDatabase.probe data [a; b]
  = match data !! a with
    | Some book => Some (<["foundWithISBN" := JS.VStr a]> book)
    | None => match data !! b with
              | Some book => Some (<["foundWithISBN" := JS.VStr b]> book)
              | None => None
              end
    end.
Proof. simpl. destruct (data !! a); [reflexivity |]. now destruct (data !! b). Qed.

Lemma foundWithISBN_insert (k : string) (book : Book) :
  BookDatabase.foundWithISBN (<["foundWithISBN" := JS.VStr k]> book) = k.
Proof. unfold BookDatabase.foundWithISBN. now rewrite lookup_insert_eq. Qed.

(** The store after [addBook]: the canonical key holds the returned record,
    and the cleaned input, when it is another key, holds nothing. *)
Lemma addBook_store (data : gmap string Book) (isbn : string) (bookInfo : Book)
    (now : string) :
  let clean := JS.strip_hyphens_spaces isbn in
  let n := BookDatabase.normalizeISBN isbn in
  let data' := (BookDatabase.addBook data isbn bookInfo now).1 in
  let final := (BookDatabase.addBook data isbn bookInfo now).2 in
  data' !! n = Some final /\ (clean <> n -> data' !! clean = None).
Proof.
  intros clean n data' final. unfold data', final, BookDatabase.addBook.
  fold n. unfold BookDatabase.findBook.
  destruct (client_variants_shape isbn) as [[Hv Hn] | (o & Hv & Ho & Hn)];
    fold clean n in Hv, Hn; rewrite Hv.
  - simpl. destruct (data !! clean) eqn:E; simpl;
      (split; [apply lookup_insert_eq | intros N; congruence]).
  - rewrite client_probe_two.
    destruct (data !! clean) as [b1 |] eqn:E1; [| destruct (data !! o) as [b2 |] eqn:E2];
      simpl; rewrite ?foundWithISBN_insert;
      (split; [apply lookup_insert_eq |]); intros N.
    + rewrite decide_True by exact N.
      rewrite lookup_insert_ne by congruence. apply lookup_delete_eq.
    + destruct Hn as [Hn | Hn]; [congruence |].
      rewrite decide_False by (intros Q; apply Q; congruence).
      rewrite lookup_insert_ne by congruence. exact E1.
    + rewrite lookup_insert_ne by congruence. exact E1.
Qed.

(** After [addBook(isbn, bookInfo)], [findBook(isbn)] returns the record that
    [addBook] returned, found under the canonical key. *)
Theorem addBook_then_findBook (data : gmap string Book) (isbn : string)
    (bookInfo : Book) (now : string) :
  BookDatabase.findBook (BookDatabase.addBook data isbn bookInfo now).1 isbn
  = Some (<["foundWithISBN" := JS.VStr (BookDatabase.normalizeISBN isbn)]>
            (BookDatabase.addBook data isbn bookInfo now).2).
Proof.
  destruct (addBook_store data isbn bookInfo now) as [Hn Hc].
  set (data' := (BookDatabase.addBook data isbn bookInfo now).1) in *.
  set (final := (BookDatabase.addBook data isbn bookInfo now).2) in *.
  unfold BookDatabase.findBook.
  destruct (client_variants_shape isbn) as [[Hv E] | (o & Hv & Ho & E)]; rewrite Hv.
  - simpl. rewrite <- E, Hn. reflexivity.
  - rewrite client_probe_two. destruct E as [E | E].
    + rewrite <- E, Hn. reflexivity.
    + rewrite Hc by congruence. rewrite <- E, Hn. reflexivity.
Qed.

(** ** The client store: deletion *)

Lemma delete_variants_spec (variants : list string) :
  forall (data : gmap string Book) (deleted : bool),
    let data' := (BookDatabase.delete_variants data variants deleted).1 in
    let deleted' := (BookDatabase.delete_variants data variants deleted).2 in
    (forall v, v ∈ variants -> data' !! v = None)
    /\ (forall k, k ∉ variants -> data' !! k = data !! k)
    /\ (forall k b, data' !! k = Some b -> data !! k = Some b)
    /\ (deleted' = true <-> deleted = true \/ exists v, v ∈ variants /\ is_Some (data !! v)).
Proof.
  induction variants as [|v vs IH]; intros data deleted; simpl.
  - split; [intros v Hv; inversion Hv |]. split; [reflexivity |].
    split; [tauto |]. split; [tauto |]. intros [H | (v & Hv & _)]; [exact H | inversion Hv].
  - destruct (data !! v) as [b |] eqn:E.
    + destruct (IH (delete v data) true) as (Hgone & Hframe & Hsub & Hdel).
      split; [| split; [| split]].
      * intros w Hw. apply elem_of_cons in Hw as [-> | Hw]; [| now apply Hgone].
        destruct (decide (v ∈ vs)) as [Hin | Hnin]; [now apply Hgone |].
        rewrite (Hframe v Hnin). apply lookup_delete_eq.
      * intros k Hk. apply not_elem_of_cons in Hk as [Hkv Hk].
        rewrite (Hframe k Hk). now apply lookup_delete_ne.
      * intros k b' Hk. apply Hsub in Hk.
        destruct (decide (v = k)) as [-> | N]; [now rewrite lookup_delete_eq in Hk |].
        now rewrite lookup_delete_ne in Hk.
      * split; [| intros _; apply Hdel; now left].
        intros _. right. exists v. split; [left | eauto].
    + destruct (IH data deleted) as (Hgone & Hframe & Hsub & Hdel).
      split; [| split; [| split]].
      * intros w Hw. apply elem_of_cons in Hw as [-> | Hw]; [| now apply Hgone].
        destruct (decide (v ∈ vs)) as [Hin | Hnin]; [now apply Hgone |].
        now rewrite (Hframe v Hnin).
      * intros k Hk. apply not_elem_of_cons in Hk as [_ Hk]. now apply Hframe.
      * exact Hsub.
      * rewrite Hdel. split.
        -- intros [H | (w & Hw & Hs)]; [now left |]. right. exists w. split; [now right | exact Hs].
        -- intros [H | (w & Hw & Hs)]; [now left |].
           apply elem_of_cons in Hw as [-> | Hw].
           ++ rewrite E in Hs. destruct Hs; discriminate.
           ++ right. eauto.
Qed.

Lemma client_probe_None_iff (data : gmap string Book) (variants : list string) :
  BookDatabase.probe data variants = None <-> forall v, v ∈ variants -> data !! v = None.
Proof.
  split; [apply client_probe_None |].
  induction variants as [|v vs IH]; simpl; intros H; [reflexivity |].
  rewrite (H v) by left. apply IH. intros w Hw. apply H. now right.
Qed.

(** The store and the flag [deleted] at the end of the loop of
    [deleteBook]. *)
Lemma deleteBook_loop (data : gmap string Book) (isbn : string) :
  let data' := (BookDatabase.deleteBook data isbn).1 in
  let deleted := (BookDatabase.deleteBook data isbn).2 in
  BookDatabase.findBook data' isbn = None
  /\ (deleted = true <-> is_Some (BookDatabase.findBook data isbn))
  /\ (deleted = false -> data' = data)
  /\ (forall k, k ∉ BookDatabase.getISBNVariants isbn -> data' !! k = data !! k).
Proof.
  intros data' deleted. unfold data', deleted, BookDatabase.deleteBook.
  destruct (delete_variants_spec (BookDatabase.getISBNVariants isbn) data false)
    as (Hgone & Hframe & Hsub & Hdel).
  split; [| split; [| split]].
  - apply client_probe_None_iff. exact Hgone.
  - rewrite Hdel. unfold BookDatabase.findBook. split.
    + intros [H | (v & Hv & Hs)]; [discriminate |].
      destruct (BookDatabase.probe data _) eqn:P; [eauto |].
      rewrite (client_probe_None _ _ P v Hv) in Hs. destruct Hs; discriminate.
    + intros [found P]. right.
      destruct (client_probe_Some _ _ _ P) as (k & b & Hk & Hb & _). exists k. eauto.
  - intros Hfalse. apply map_eq. intros k.
    destruct (decide (k ∈ BookDatabase.getISBNVariants isbn)) as [Hin | Hnin];
      [| now apply Hframe].
    rewrite (Hgone k Hin). symmetry.
    destruct (data !! k) eqn:E; [| reflexivity].
    assert ((BookDatabase.delete_variants data (BookDatabase.getISBNVariants isbn) false).2 = true)
      as Htrue by (apply Hdel; right; exists k; eauto).
    congruence.
  - exact Hframe.
Qed.

(** For an identifier none of whose variants is an inherited name: after
    [deleteBook(isbn)] no variant of the identifier is a key, so
    [findBook(isbn)] returns [null], and the keys that are no variant are
    untouched.  When [findBook] found nothing before, [deleteBook] leaves
    the store as it was and returns [false] without saving; when it found
    a record, [deleteBook] saves, and returns [true] or throws the error of
    [saveDatabase], the records being removed from [this.data] either way. *)
Theorem deleteBook_removes_every_variant (data : gmap string Book) (isbn : string)
    (saved : bool) :
  no_inherited (BookDatabase.getISBNVariants isbn) = true ->
  let data' := (BookDatabaseSaving.deleteBook data isbn saved).1 in
  let result := (BookDatabaseSaving.deleteBook data isbn saved).2 in
  BookDatabase.findBook data' isbn = None
  /\ (forall v, v ∈ BookDatabase.getISBNVariants isbn -> data' !! v = None)
  /\ (BookDatabase.findBook data isbn = None ->
      result = BookDatabaseSaving.Returns false /\ data' = data)
  /\ (is_Some (BookDatabase.findBook data isbn) ->
      result = BookDatabaseSaving.save_then_return saved true)
  /\ (forall k, k ∉ BookDatabase.getISBNVariants isbn -> data' !! k = data !! k).
Proof.
  intros _ data' result.
  destruct (deleteBook_loop data isbn) as (Hnone & Hdel & Hsame & Hframe).
  assert (data' = (BookDatabase.deleteBook data isbn).1) as Ed
    by (unfold data', BookDatabaseSaving.deleteBook;
        now destruct ((BookDatabase.deleteBook data isbn).2)).
  assert (result = if (BookDatabase.deleteBook data isbn).2
                   then BookDatabaseSaving.save_then_return saved true
                   else BookDatabaseSaving.Returns false) as Er
    by (unfold result, BookDatabaseSaving.deleteBook;
        now destruct ((BookDatabase.deleteBook data isbn).2)).
  rewrite Ed, Er. clear Ed Er data' result.
  split; [exact Hnone |].
  split; [now apply client_probe_None_iff |].
  split; [| split; [| exact Hframe]].
  - intros F. destruct ((BookDatabase.deleteBook data isbn).2) eqn:D.
    + destruct (proj1 Hdel eq_refl) as [x Hx]. congruence.
    + split; [reflexivity | now apply Hsame].
  - intros F. now rewrite (proj2 Hdel F).
Qed.

(** ** The client store: [updateBookField] *)

(** What [updateBookField] does when [findBook] has found a record. *)
Lemma updateBookField_found (data : gmap string Book) (isbn field : string)
    (value : JS.value) (now : string) (found : Book) :
  BookDatabase.findBook data isbn = Some found ->
  let clean := JS.strip_hyphens_spaces isbn in
  let n := BookDatabase.normalizeISBN isbn in
  exists data1 stored,
    BookDatabase.updateBookField data isbn field value now
    = Some (<[n := <["lastUpdated" := JS.VStr now]> (<[field := value]> stored)]> data1,
            true)
    /\ data !! BookDatabase.foundWithISBN found = Some stored
    /\ (clean <> n -> data1 !! clean = None)
    /\ (forall k, k <> BookDatabase.foundWithISBN found -> k <> n -> data1 !! k = data !! k).
Proof.
  intros F clean n. unfold BookDatabase.updateBookField. rewrite F. fold n.
  unfold BookDatabase.findBook in F.
  destruct (client_variants_shape isbn) as [[Hv Hn] | (o & Hv & Ho & Hn)];
    fold clean n in Hv, Hn; rewrite Hv in F.
  - simpl in F. destruct (data !! clean) as [b |] eqn:E; [| discriminate].
    injection F as <-. rewrite foundWithISBN_insert.
    rewrite decide_False by (intros Q; apply Q; congruence).
    rewrite Hn, E. exists data, b. split; [reflexivity |]. split; [reflexivity |].
    split; [congruence | reflexivity].
  - rewrite client_probe_two in F.
    destruct (data !! clean) as [b1 |] eqn:E1.
    + injection F as <-. rewrite foundWithISBN_insert.
      destruct (decide (clean <> n)) as [N | Q].
      * rewrite lookup_delete_ne by exact N. rewrite lookup_insert_eq, E1. simpl.
        eexists. exists b1. split; [reflexivity |]. split; [reflexivity |].
        split; [intros _; apply lookup_delete_eq |].
        intros k N1 N2. now rewrite lookup_delete_ne, lookup_insert_ne by congruence.
      * apply dec_stable in Q. rewrite <- Q, E1.
        exists data, b1. split; [reflexivity |]. split; [reflexivity |].
        split; [congruence | reflexivity].
    + destruct (data !! o) as [b2 |] eqn:E2; [| discriminate].
      injection F as <-. rewrite foundWithISBN_insert.
      destruct (decide (o <> n)) as [N | Q].
      * destruct Hn as [Hn | Hn]; [| congruence].
        rewrite lookup_delete_ne by exact N. rewrite lookup_insert_eq, E2. simpl.
        eexists. exists b2. split; [reflexivity |]. split; [reflexivity |].
        split; [congruence |].
        intros k N1 N2. now rewrite lookup_delete_ne, lookup_insert_ne by congruence.
      * apply dec_stable in Q. rewrite <- Q, E2.
        exists data, b2. split; [reflexivity |]. split; [reflexivity |].
        split; [intros _; exact E1 | reflexivity].
Qed.

(** [updateBookField] up to the call of [saveDatabase]: no field of
    [undefined] is assigned. *)
Lemma updateBookField_cases (data : gmap string Book) (isbn field : string)
    (value : JS.value) (now : string) :
  exists data' ok,
    BookDatabase.updateBookField data isbn field value now = Some (data', ok)
    /\ (ok = false <-> BookDatabase.findBook data isbn = None)
    /\ (ok = false -> data' = data)
    /\ (ok = true ->
        exists record,
          data' !! BookDatabase.normalizeISBN isbn = Some record
          /\ record !! "lastUpdated" = Some (JS.VStr now)
          /\ (field <> "lastUpdated" -> record !! field = Some value)
          /\ BookDatabase.findBook data' isbn
             = Some (<["foundWithISBN" := JS.VStr (BookDatabase.normalizeISBN isbn)]> record)).
Proof.
  destruct (BookDatabase.findBook data isbn) as [found |] eqn:F.
  - destruct (updateBookField_found data isbn field value now found F)
      as (data1 & stored & -> & _ & Hc & _).
    set (n := BookDatabase.normalizeISBN isbn) in *.
    set (clean := JS.strip_hyphens_spaces isbn) in *.
    eexists. exists true. split; [reflexivity |].
    split; [split; discriminate |]. split; [discriminate |].
    intros _. eexists. split; [apply lookup_insert_eq |].
    split; [apply lookup_insert_eq |].
    split; [intros N; rewrite lookup_insert_ne by congruence; apply lookup_insert_eq |].
    unfold BookDatabase.findBook.
    destruct (client_variants_shape isbn) as [[Hvs Hn] | (o & Hvs & Ho & Hn)];
      fold n clean in Hn, Hvs; try fold clean in Ho; rewrite Hvs.
    + simpl. rewrite <- Hn, lookup_insert_eq. reflexivity.
    + rewrite client_probe_two. destruct Hn as [Hn | Hn].
      * rewrite <- Hn, lookup_insert_eq. reflexivity.
      * match goal with |- context [?m !! clean] =>
          assert (m !! clean = None) as ->
            by (rewrite lookup_insert_ne by congruence; apply Hc; congruence)
        end.
        rewrite <- Hn, lookup_insert_eq. reflexivity.
  - unfold BookDatabase.updateBookField. rewrite F.
    exists data, false. split; [reflexivity |].
    split; [tauto |]. split; [reflexivity | discriminate].
Qed.

(** For an identifier none of whose variants is an inherited name and a
    field other than [__proto__], [updateBookField] never assigns a field
    of [undefined].  When [findBook] finds nothing it returns [false],
    leaving the store unchanged.  Otherwise the record under the canonical
    key carries the new value and the time of the update, and is what
    [findBook] then returns; the method returns [true] when
    [saveDatabase] succeeds and throws its error when it fails, [this.data]
    being updated either way. *)
Theorem updateBookField_outcome (data : gmap string Book) (isbn field : string)
    (value : JS.value) (now : string) (saved : bool) :
  no_inherited (BookDatabase.getISBNVariants isbn) = true ->
  field <> "__proto__" ->
  exists data' result,
    BookDatabaseSaving.updateBookField data isbn field value now saved
    = Some (data', result)
    /\ (BookDatabase.findBook data isbn = None ->
        result = BookDatabaseSaving.Returns false /\ data' = data)
    /\ (is_Some (BookDatabase.findBook data isbn) ->
        result = BookDatabaseSaving.save_then_return saved true
        /\ exists record,
            data' !! BookDatabase.normalizeISBN isbn = Some record
            /\ record !! "lastUpdated" = Some (JS.VStr now)
            /\ (field <> "lastUpdated" -> record !! field = Some value)
            /\ BookDatabase.findBook data' isbn
               = Some (<["foundWithISBN" := JS.VStr (BookDatabase.normalizeISBN isbn)]>
                         record)).
Proof.
  intros _ _.
  destruct (updateBookField_cases data isbn field value now)
    as (data' & ok & E & Hfalse & Hsame & Htrue).
  unfold BookDatabaseSaving.updateBookField. rewrite E.
  destruct ok.
  - eexists. eexists. split; [reflexivity |]. split.
    + intros F. apply Hfalse in F. discriminate F.
    + intros _. split; [reflexivity | now apply Htrue].
  - eexists. eexists. split; [reflexivity |]. split.
    + intros _. split; [reflexivity | now apply Hsame].
    + intros [x F]. rewrite (proj1 Hfalse eq_refl) in F. discriminate F.
Qed.

(** ** The client store: number of records *)

Lemma size_lookup_Some (data : gmap string Book) (k : string) (b : Book) :
  data !! k = Some b -> size data = S (size (delete k data)).
Proof.
  intros H. rewrite <- (insert_delete_id data k b H) at 1.
  apply map_size_insert_None, lookup_delete_eq.
Qed.

Lemma addBook_size_keys (data : gmap string Book) (isbn : string) (bookInfo : Book)
    (now : string) :
  let data' := (BookDatabase.addBook data isbn bookInfo now).1 in
  match BookDatabase.findBook data isbn with
  | None => size data' = S (size data)
  | Some _ => size data' <= size data
  end.
Proof.
  intros data'. unfold data', BookDatabase.addBook.
  destruct (BookDatabase.findBook data isbn) as [found |] eqn:F; simpl.
  - unfold BookDatabase.findBook in F.
    destruct (client_probe_Some _ _ _ F) as (k & stored & _ & Hs & _ & ->).
    destruct (decide (k <> BookDatabase.normalizeISBN isbn)) as [N | Q].
    + rewrite map_size_insert, (size_lookup_Some data k stored Hs).
      destruct (delete k data !! BookDatabase.normalizeISBN isbn); simpl; lia.
    + apply dec_stable in Q. rewrite <- Q.
      rewrite map_size_insert_Some by eauto. lia.
  - apply map_size_insert_None.
    apply (client_probe_None _ _ F), client_normalize_in_variants.
Qed.

(** For an identifier none of whose variants is an inherited name,
    [addBook] adds exactly one key when [findBook] finds no record, and
    does not add any when it finds one. *)
Theorem addBook_size (data : gmap string Book) (isbn : string) (bookInfo : Book)
    (now : string) :
  no_inherited (BookDatabase.getISBNVariants isbn) = true ->
  let data' := (BookDatabase.addBook data isbn bookInfo now).1 in
  (BookDatabase.findBook data isbn = None -> size data' = S (size data))
  /\ (is_Some (BookDatabase.findBook data isbn) -> size data' <= size data).
Proof.
  intros _ data'. pose proof (addBook_size_keys data isbn bookInfo now) as H.
  fold data' in H. split.
  - intros F. now rewrite F in H.
  - intros [x F]. now rewrite F in H.
Qed.

(** ** Variants *)

Lemma digit_or_X_is_clean (c : ascii) :
  JS.is_digit c = true \/ c = "X"%char ->
  (Ascii.eqb c "-" || JS.is_space c) = false.
Proof.
  intros [H | ->]; [| reflexivity].
  unfold JS.is_digit in H. unfold JS.is_space.
  destruct c as [[] [] [] [] [] [] [] []]; try discriminate; reflexivity.
Qed.

Lemma client_variants_clean (isbn v : string) :
  v ∈ BookDatabase.getISBNVariants isbn -> is_clean v = true.
Proof.
  set (clean := JS.strip_hyphens_spaces isbn).
  assert (is_clean clean = true) as Hc by apply strip_is_clean.
  destruct (Nat.eq_dec (String.length clean) 10) as [H10 | H10].
  - rewrite (client_variants_10 isbn H10). fold clean. intros Hv.
    apply elem_of_cons in Hv as [-> | Hv]; [exact Hc |].
    apply list_elem_of_singleton in Hv. subst v. now apply isbn13_of_clean.
  - destruct (Nat.eq_dec (String.length clean) 13) as [H13 | H13];
      [destruct (JS.startsWith "978" clean) eqn:P |].
    + rewrite (client_variants_13 isbn H13 P). fold clean. intros Hv.
      apply elem_of_cons in Hv as [-> | Hv]; [exact Hc |].
      apply list_elem_of_singleton in Hv. subst v.
      rewrite is_clean_append. unfold JS.substring.
      rewrite is_clean_substring by exact Hc.
      destruct (checkChar10_cases (String.substring (Nat.min 3 12) (Nat.max 3 12 - Nat.min 3 12) clean))
        as [-> | (c & Hdc & ->)]; [reflexivity |].
      unfold is_clean. simpl. now rewrite (digit_or_X_is_clean c Hdc).
    + rewrite (client_variants_other isbn H10).
      * intros Hv. apply list_elem_of_singleton in Hv. now subst v.
      * intros [_ Q]. change (JS.startsWith "978" clean = true) in Q. congruence.
    + rewrite (client_variants_other isbn H10).
      * intros Hv. apply list_elem_of_singleton in Hv. now subst v.
      * intros [Q _]. change (String.length clean = 13) in Q. contradiction.
Qed.

Lemma server_normalize_in_variants (isbn : string) :
  ISBNServer.normalizeISBN isbn ∈ ISBNServer.getISBNVariants isbn.
Proof.
  unfold ISBNServer.getISBNVariants, ISBNServer.cleanISBN.
  set (clean := JS.strip_hyphens_spaces isbn).
  assert (ISBNServer.normalizeISBN clean = ISBNServer.normalizeISBN isbn) as Hcl.
  { unfold ISBNServer.normalizeISBN, ISBNServer.cleanISBN. fold clean.
    unfold clean. now rewrite strip_idempotent. }
  destruct (normalize_cases isbn) as [[H10 Hn] | [H10 Hn]]; fold clean in H10, Hn.
  - apply Nat.eqb_neq in H10. rewrite H10, Hn.
    destruct (Nat.eqb (String.length clean) 13 && JS.startsWith "978" clean); left.
  - rewrite H10. simpl.
    rewrite Hcl, Hn.
    assert (String.eqb (isbn13_of clean) clean = false) as ->.
    { apply String.eqb_neq. intros E. destruct (isbn13_of_length clean H10); rewrite E in *; lia. }
    simpl. right. left.
Qed.

(** The list of variants starts with the cleaned input, has at most two
    entries and contains the canonical key, on the client and on the server;
    on the client it has no duplicates and holds clean strings only. *)
Theorem variants_head_and_canonical (isbn : string) :
  let clean := JS.strip_hyphens_spaces isbn in
  (exists others, BookDatabase.getISBNVariants isbn = clean :: others
                  /\ List.length others <= 1)
  /\ NoDup (BookDatabase.getISBNVariants isbn)
  /\ BookDatabase.normalizeISBN isbn ∈ BookDatabase.getISBNVariants isbn
  /\ (forall v, v ∈ BookDatabase.getISBNVariants isbn -> is_clean v = true)
  /\ (exists others, ISBNServer.getISBNVariants isbn = clean :: others
                     /\ List.length others <= 1)
  /\ ISBNServer.normalizeISBN isbn ∈ ISBNServer.getISBNVariants isbn.
Proof.
  intros clean. split; [| split; [| split; [| split; [| split]]]].
  - destruct (client_variants_shape isbn) as [[-> _] | (o & -> & _ & _)];
      eexists; (split; [reflexivity | simpl; lia]).
  - destruct (client_variants_shape isbn) as [[-> _] | (o & -> & Ho & _)].
    + apply NoDup_singleton.
    + apply NoDup_cons. split; [| apply NoDup_singleton].
      intros Hin. apply list_elem_of_singleton in Hin. congruence.
  - apply client_normalize_in_variants.
  - apply client_variants_clean.
  - unfold ISBNServer.getISBNVariants, ISBNServer.cleanISBN. fold clean.
    destruct (Nat.eqb (String.length clean) 13 && JS.startsWith "978" clean) eqn:E13.
    + apply andb_prop in E13 as [E13 _]. apply Nat.eqb_eq in E13.
      assert (Nat.eqb (String.length clean) 10 = false) as ->
        by (apply Nat.eqb_neq; lia).
      eexists. split; [reflexivity | simpl; lia].
    + destruct (Nat.eqb (String.length clean) 10);
        [destruct (negb (String.eqb (ISBNServer.normalizeISBN clean) clean)) |];
        eexists; (split; [reflexivity | simpl; lia]).
  - apply server_normalize_in_variants.
Qed.

(** ** The client store keeps canonical keys *)

Lemma client_normalize_fixed_point (raw : string) :
  BookDatabase.normalizeISBN (BookDatabase.normalizeISBN raw)
  = BookDatabase.normalizeISBN raw.
Proof.
  rewrite <- !normalize_server_client.
  destruct (normalize_cases raw) as [[Hl ->] | [Hl ->]].
  - apply normalize_fixed; [apply strip_is_clean | exact Hl].
  - apply normalize_fixed.
    + apply isbn13_of_clean, strip_is_clean.
    + destruct (isbn13_of_length _ Hl); lia.
Qed.

(** A canonical key is clean and does not have ten characters. *)
Lemma canonical_key_clean (k : string) :
  BookDatabase.normalizeISBN k = k ->
  JS.strip_hyphens_spaces k = k /\ String.length k <> 10.
Proof.
  intros H. rewrite <- normalize_server_client in H.
  destruct (normalize_cases k) as [[Hl Hn] | [Hl Hn]]; rewrite Hn in H.
  - rewrite H in Hl. now split.
  - assert (is_clean k = true) as Hc
      by (rewrite <- H; apply isbn13_of_clean, strip_is_clean).
    rewrite (strip_fixed k Hc) in Hl.
    rewrite (strip_fixed k Hc) in H.
    destruct (isbn13_of_length k Hl) as [L | L]; rewrite H in L; lia.
Qed.

Lemma addBook_keys (data : gmap string Book) (isbn : string) (bookInfo : Book)
    (now : string) (k : string) (b : Book) :
  (BookDatabase.addBook data isbn bookInfo now).1 !! k = Some b ->
  k = BookDatabase.normalizeISBN isbn \/ data !! k = Some b.
Proof.
  unfold BookDatabase.addBook.
  destruct (BookDatabase.findBook data isbn) as [found |]; simpl; intros H;
    (destruct (decide (k = BookDatabase.normalizeISBN isbn)) as [-> | N]; [now left | right]);
    rewrite lookup_insert_ne in H by congruence; [| exact H].
  destruct (decide (BookDatabase.foundWithISBN found <> BookDatabase.normalizeISBN isbn));
    [| exact H].
  destruct (decide (BookDatabase.foundWithISBN found = k)) as [<- | N'].
  - now rewrite lookup_delete_eq in H.
  - now rewrite lookup_delete_ne in H.
Qed.

(** When every key of the store is its own canonical key, this still holds
    after [addBook], [updateBookField] and [deleteBook], and [findBook]
    finds every record under its own key. *)
Theorem canonical_keys_preserved (data : gmap string Book) (isbn : string)
    (bookInfo : Book) (field : string) (value : JS.value) (now : string) :
  canonical_keys data ->
  canonical_keys (BookDatabase.addBook data isbn bookInfo now).1
  /\ (forall data' ok,
         BookDatabase.updateBookField data isbn field value now = Some (data', ok) ->
         canonical_keys data')
  /\ canonical_keys (BookDatabase.deleteBook data isbn).1
  /\ (forall k b, data !! k = Some b ->
                  BookDatabase.findBook data k = Some (<["foundWithISBN" := JS.VStr k]> b)).
Proof.
  intros Hcan. split; [| split; [| split]].
  - intros k b H. destruct (addBook_keys _ _ _ _ _ _ H) as [-> | H'].
    + apply client_normalize_fixed_point.
    + exact (Hcan k b H').
  - intros data' ok H.
    destruct (BookDatabase.findBook data isbn) as [found |] eqn:F.
    + destruct (updateBookField_found data isbn field value now found F)
        as (data1 & stored & E & _ & _ & Hframe).
      rewrite E in H. injection H as <- _. intros k b Hk.
      destruct (decide (k = BookDatabase.normalizeISBN isbn)) as [-> | N];
        [apply client_normalize_fixed_point |].
      rewrite lookup_insert_ne in Hk by congruence.
      destruct (decide (k = BookDatabase.foundWithISBN found)) as [-> | N'].
      * unfold BookDatabase.findBook in F.
        destruct (client_probe_Some _ _ _ F) as (k' & st & _ & Hs & _ & Hf).
        rewrite Hf in *. exact (Hcan k' st Hs).
      * rewrite (Hframe k N' N) in Hk. exact (Hcan k b Hk).
    + unfold BookDatabase.updateBookField in H. rewrite F in H.
      injection H as <- _. exact Hcan.
  - intros k b H. unfold BookDatabase.deleteBook in H.
    destruct (delete_variants_spec (BookDatabase.getISBNVariants isbn) data false)
      as (_ & _ & Hsub & _).
    exact (Hcan k b (Hsub k b H)).
  - intros k b H. destruct (canonical_key_clean k (Hcan k b H)) as [Hs Hl].
    unfold BookDatabase.findBook.
    destruct (client_variants_shape k) as [[Hv _] | (o & Hv & _ & _)];
      rewrite Hv, Hs; simpl; now rewrite H.
Qed.

(** ** Keys that no look-up reaches *)

Lemma client_probe_ext (d1 d2 : gmap string Book) (variants : list string) :
  (forall v, v ∈ variants -> d1 !! v = d2 !! v) ->
  BookDatabase.probe d1 variants = BookDatabase.probe d2 variants.
Proof.
  induction variants as [|v vs IH]; simpl; intros H; [reflexivity |].
  rewrite (H v) by left. destruct (d2 !! v); [reflexivity |].
  apply IH. intros w Hw. apply H. now right.
Qed.

(** [importDatabase] stores a key as it is.  A key that contains a hyphen or
    white space is no variant of any identifier: wherever it is stored,
    [findBook] returns what it returns without it, and [deleteBook] and
    [addBook] leave its record in place. *)
Theorem unclean_key_is_invisible (data : gmap string Book) (k : string) (b : Book)
    (isbn : string) (bookInfo : Book) (now : string) :
  is_clean k = false ->
  (BookDatabaseExport.importDatabase data (Some {[ k := b ]})).1 !! k = Some b
  /\ BookDatabase.findBook (<[k := b]> data) isbn = BookDatabase.findBook data isbn
  /\ (BookDatabase.deleteBook (<[k := b]> data) isbn).1 !! k = Some b
  /\ (BookDatabase.addBook (<[k := b]> data) isbn bookInfo now).1 !! k = Some b.
Proof.
  intros Hk.
  assert (forall v, v ∈ BookDatabase.getISBNVariants isbn -> v <> k) as Hne.
  { intros v Hv ->. rewrite (client_variants_clean isbn k Hv) in Hk. discriminate. }
  split; [| split; [| split]].
  - simpl. apply lookup_union_Some_l, lookup_singleton_eq.
  - apply client_probe_ext. intros v Hv. apply lookup_insert_ne. intros E.
    now apply (Hne v Hv).
  - unfold BookDatabase.deleteBook.
    destruct (delete_variants_spec (BookDatabase.getISBNVariants isbn) (<[k := b]> data) false)
      as (_ & Hframe & _).
    rewrite Hframe; [apply lookup_insert_eq |].
    intros Hin. now apply (Hne k Hin).
  - set (d := <[k := b]> data).
    assert (BookDatabase.normalizeISBN isbn <> k) as Hn
      by (apply Hne, client_normalize_in_variants).
    unfold BookDatabase.addBook.
    destruct (BookDatabase.findBook d isbn) as [found |] eqn:F; simpl.
    + unfold BookDatabase.findBook in F.
      destruct (client_probe_Some _ _ _ F) as (k' & st & Hk' & _ & _ & ->).
      rewrite lookup_insert_ne by exact Hn.
      destruct (decide (k' <> BookDatabase.normalizeISBN isbn)).
      * rewrite lookup_delete_ne by (apply Hne, Hk'). apply lookup_insert_eq.
      * apply lookup_insert_eq.
    + rewrite lookup_insert_ne by exact Hn. apply lookup_insert_eq.
Qed.

(** ** Display forms *)

Lemma strip_append (s t : string) :
  JS.strip_hyphens_spaces (s +:+ t)
  = JS.strip_hyphens_spaces s +:+ JS.strip_hyphens_spaces t.
Proof.
  induction s as [|c s IH]; simpl; [reflexivity |].
  destruct (Ascii.eqb c "-" || JS.is_space c); simpl; now rewrite IH.
Qed.

Lemma append_empty_l (s : string) : "" +:+ s = s.
Proof. reflexivity. Qed.

Lemma substring_empty (n m : nat) : String.substring n m "" = "".
Proof. destruct n, m; reflexivity. Qed.

Lemma substring_split (s : string) :
  forall n m k,
    String.substring n m s +:+ String.substring (n + m) k s = String.substring n (m + k) s.
Proof.
  induction s as [|c s IH]; intros n m k.
  - now rewrite !substring_empty.
  - destruct n as [|n].
    + destruct m as [|m]; [reflexivity |].
      change (String c (String.substring 0 m s +:+ String.substring (0 + m) k s)
              = String c (String.substring 0 (m + k) s)).
      f_equal. apply (IH 0).
    + change (String.substring n m s +:+ String.substring (n + m) k s
              = String.substring n (m + k) s).
      apply IH.
Qed.

Lemma substring_full (s : string) : String.substring 0 (String.length s) s = s.
Proof. induction s as [|c s IH]; simpl; [reflexivity | now rewrite IH]. Qed.

Lemma from_split (n : nat) (s : string) :
  n <= String.length s -> String.substring 0 n s +:+ JSString.from n s = s.
Proof.
  intros H. unfold JSString.from.
  rewrite (substring_split s 0 n). replace (n + (String.length s - n)) with (String.length s) by lia.
  apply substring_full.
Qed.

Lemma keep_digits_X_is_clean (s : string) : is_clean (JSString.keep_digits_X s) = true.
Proof.
  unfold is_clean. induction s as [|c s IH]; simpl; [reflexivity |].
  destruct (JS.is_digit c || Ascii.eqb c "X") eqn:E; [| exact IH].
  simpl. rewrite IH, andb_true_r. apply negb_true_iff, digit_or_X_is_clean.
  apply orb_prop in E as [E | E]; [now left | right; now apply Ascii.eqb_eq].
Qed.

Lemma keep_digits_X_strip (s : string) :
  JSString.keep_digits_X (JS.strip_hyphens_spaces s) = JSString.keep_digits_X s.
Proof.
  induction s as [|c s IH]; simpl; [reflexivity |].
  destruct (Ascii.eqb c "-" || JS.is_space c) eqn:E; simpl; [| now rewrite IH].
  destruct (JS.is_digit c || Ascii.eqb c "X") eqn:D; [| exact IH].
  rewrite digit_or_X_is_clean in E; [discriminate |].
  apply orb_prop in D as [D | D]; [now left | right; now apply Ascii.eqb_eq].
Qed.

Lemma keep_digits_X_fixed (s : string) :
  forallb (fun c => JS.is_digit c || Ascii.eqb c "X") (list_ascii_of_string s) = true ->
  JSString.keep_digits_X s = s.
Proof.
  induction s as [|c s IH]; simpl; intros H; [reflexivity |].
  apply andb_prop in H as [Hc Hs]. rewrite Hc. f_equal. now apply IH.
Qed.

Lemma formatISBN_properties (isbn : string) :
  let clean := JSString.keep_digits_X isbn in
  JS.strip_hyphens_spaces (Display.formatISBN isbn) = clean
  /\ Display.formatISBN (Display.formatISBN isbn) = Display.formatISBN isbn
  /\ (String.length clean = 13 -> String.length (Display.formatISBN isbn) = 17)
  /\ (String.length clean = 10 -> String.length (Display.formatISBN isbn) = 13)
  /\ (String.length clean <> 13 -> String.length clean <> 10 ->
      Display.formatISBN isbn = clean).
Proof.
  intros clean.
  assert (is_clean clean = true) as Hc by apply keep_digits_X_is_clean.
  assert (forall n m, JS.strip_hyphens_spaces (String.substring n m clean)
                      = String.substring n m clean) as Hsub
    by (intros n m; apply strip_fixed, is_clean_substring, Hc).
  assert (JS.strip_hyphens_spaces (Display.formatISBN isbn) = clean) as Hstrip.
  { unfold Display.formatISBN. fold clean.
    destruct (Nat.eqb (String.length clean) 13) eqn:E13;
      [| destruct (Nat.eqb (String.length clean) 10) eqn:E10].
    - apply Nat.eqb_eq in E13. unfold JSString.slice, JSString.from.
      rewrite !strip_append, !Hsub. rewrite E13.
      cbn [JS.strip_hyphens_spaces Ascii.eqb Bool.eqb orb String.append Nat.sub].
      pose proof (substring_split clean 6 6 1) as J1.
      pose proof (substring_split clean 4 2 7) as J2.
      pose proof (substring_split clean 3 1 9) as J3.
      pose proof (substring_split clean 0 3 10) as J4.
      simpl Nat.add in J1, J2, J3, J4. rewrite !append_empty_l, J1, J2, J3, J4.
      rewrite <- E13. apply substring_full.
    - apply Nat.eqb_eq in E10. unfold JSString.slice, JSString.from.
      rewrite !strip_append, !Hsub. rewrite E10.
      cbn [JS.strip_hyphens_spaces Ascii.eqb Bool.eqb orb String.append Nat.sub].
      pose proof (substring_split clean 3 6 1) as J1.
      pose proof (substring_split clean 1 2 7) as J2.
      pose proof (substring_split clean 0 1 9) as J3.
      simpl Nat.add in J1, J2, J3. rewrite !append_empty_l, J1, J2, J3.
      rewrite <- E10. apply substring_full.
    - now apply strip_fixed. }
  split; [exact Hstrip |]. split; [| split; [| split]].
  - unfold Display.formatISBN at 1.
    rewrite <- keep_digits_X_strip, Hstrip.
    rewrite (keep_digits_X_fixed clean).
    + reflexivity.
    + unfold clean. clear. induction isbn as [|c s IH]; simpl; [reflexivity |].
      destruct (JS.is_digit c || Ascii.eqb c "X") eqn:E; [| exact IH].
      simpl. now rewrite E, IH.
  - intros L. unfold Display.formatISBN. fold clean. rewrite L. simpl.
    unfold JSString.slice, JSString.from. rewrite !length_append.
    rewrite !length_substring by lia. rewrite L. reflexivity.
  - intros L. unfold Display.formatISBN. fold clean. rewrite L. simpl.
    unfold JSString.slice, JSString.from. rewrite !length_append.
    rewrite !length_substring by lia. rewrite L. reflexivity.
  - intros N13 N10. unfold Display.formatISBN. fold clean.
    apply Nat.eqb_neq in N13, N10. now rewrite N13, N10.
Qed.

(** [formatISBN] only adds hyphens: cleaning its result gives back the
    digits and [X] of the input, so formatting twice changes nothing.  The
    result has 17 characters for 13 digits, 13 characters for 10, and is
    the bare digits otherwise. *)
Theorem formatISBN_only_adds_hyphens (isbn : string) :
  let clean := JSString.keep_digits_X isbn in
  JS.strip_hyphens_spaces (Display.formatISBN isbn) = clean
  /\ Display.formatISBN (Display.formatISBN isbn) = Display.formatISBN isbn
  /\ (String.length clean = 13 -> String.length (Display.formatISBN isbn) = 17)
  /\ (String.length clean = 10 -> String.length (Display.formatISBN isbn) = 13)
  /\ (String.length clean <> 13 -> String.length clean <> 10 ->
      Display.formatISBN isbn = clean).
Proof. exact (formatISBN_properties isbn). Qed.

(** *** The input field *)

Lemma keep_digits_is_clean (s : string) : is_clean (JSString.keep_digits s) = true.
Proof.
  unfold is_clean. induction s as [|c s IH]; simpl; [reflexivity |].
  destruct (JS.is_digit c) eqn:E; [| exact IH].
  simpl. rewrite IH, andb_true_r. apply negb_true_iff, digit_or_X_is_clean. now left.
Qed.

Lemma keep_digits_all_digits (s : string) :
  Spec.all_digits (JSString.keep_digits s) = true.
Proof.
  unfold Spec.all_digits. induction s as [|c s IH]; simpl; [reflexivity |].
  destruct (JS.is_digit c) eqn:E; [| exact IH]. simpl. now rewrite E.
Qed.

Lemma keep_digits_append (s t : string) :
  JSString.keep_digits (s +:+ t) = JSString.keep_digits s +:+ JSString.keep_digits t.
Proof.
  induction s as [|c s IH]; simpl; [reflexivity |].
  destruct (JS.is_digit c); simpl; now rewrite IH.
Qed.

Lemma keep_digits_fixed (s : string) :
  Spec.all_digits s = true -> JSString.keep_digits s = s.
Proof.
  unfold Spec.all_digits. induction s as [|c s IH]; simpl; intros H; [reflexivity |].
  apply andb_prop in H as [Hc Hs]. rewrite Hc. f_equal. now apply IH.
Qed.

Lemma all_digits_substring (n m : nat) (s : string) :
  Spec.all_digits s = true -> Spec.all_digits (String.substring n m s) = true.
Proof.
  unfold Spec.all_digits. revert n m.
  induction s as [|c s IH]; intros n m H.
  - destruct n, m; reflexivity.
  - simpl in H. apply andb_prop in H as [Hc Hs].
    destruct n as [|n]; destruct m as [|m]; simpl; try reflexivity.
    + rewrite Hc. simpl. now apply IH.
    + now apply IH.
    + now apply IH.
Qed.

(** One step of [formatISBNInput] keeps the digits and adds at most one
    character. *)
Lemma hyphen_at_digits (n : nat) (value : string) :
  JSString.keep_digits (Display.hyphen_at n value) = JSString.keep_digits value
  /\ String.length (Display.hyphen_at n value)
     = (if Nat.leb n (String.length value) then S (String.length value)
        else String.length value).
Proof.
  unfold Display.hyphen_at. destruct (Nat.leb n (String.length value)) eqn:E; [| now split].
  apply Nat.leb_le in E.
  assert (JS.substring 0 n value = String.substring 0 n value) as ->.
  { unfold JS.substring. now rewrite Nat.min_0_l, Nat.max_0_l, Nat.sub_0_r. }
  split.
  - rewrite !keep_digits_append, append_empty_l, <- keep_digits_append.
    now rewrite (from_split n value E).
  - rewrite <- (from_split n value E) at 3. rewrite !length_append. simpl. lia.
Qed.

Lemma typed_digits_spec (value : string) :
  String.length (typed_digits value) <= 13
  /\ Spec.all_digits (typed_digits value) = true.
Proof.
  unfold typed_digits.
  destruct (Nat.ltb 13 (String.length (JSString.keep_digits value))) eqn:E.
  - apply Nat.ltb_lt in E. unfold JS.substring. simpl Nat.min. simpl Nat.max. simpl (13 - 0).
    split; [rewrite length_substring; lia |].
    apply all_digits_substring, keep_digits_all_digits.
  - apply Nat.ltb_ge in E. split; [exact E | apply keep_digits_all_digits].
Qed.

(** [formatISBNInput] keeps the first thirteen digits of the input and adds
    hyphens only: cleaning its result gives these digits back, the result
    has at most 16 characters (the fourth hyphen is never added), and
    formatting the result again changes nothing. *)
Theorem formatISBNInput_keeps_digits (value : string) :
  JS.strip_hyphens_spaces (Display.formatISBNInput value) = typed_digits value
  /\ String.length (Display.formatISBNInput value) <= 16
  /\ Display.formatISBNInput (Display.formatISBNInput value)
     = Display.formatISBNInput value.
Proof.
  destruct (typed_digits_spec value) as [L D].
  assert (forall w, Display.formatISBNInput w
                    = Display.hyphen_at 20 (Display.hyphen_at 13
                        (Display.hyphen_at 6 (Display.hyphen_at 3 (typed_digits w)))))
    as Hdef by reflexivity.
  set (t := typed_digits value) in *.
  destruct (hyphen_at_digits 3 t) as [K1 L1].
  destruct (hyphen_at_digits 6 (Display.hyphen_at 3 t)) as [K2 L2].
  destruct (hyphen_at_digits 13 (Display.hyphen_at 6 (Display.hyphen_at 3 t))) as [K3 L3].
  destruct (hyphen_at_digits 20
              (Display.hyphen_at 13 (Display.hyphen_at 6 (Display.hyphen_at 3 t))))
    as [K4 L4].
  assert (JSString.keep_digits (Display.formatISBNInput value) = t) as Hkeep.
  { rewrite Hdef. fold t. rewrite K4, K3, K2, K1. now apply keep_digits_fixed. }
  assert (String.length (Display.formatISBNInput value) <= 16) as Hlen.
  { rewrite Hdef. fold t. rewrite L4, L3, L2, L1.
    repeat match goal with |- context [Nat.leb ?a ?b] => destruct (Nat.leb a b) eqn:? end;
      repeat match goal with
             | H : Nat.leb _ _ = true |- _ => apply Nat.leb_le in H
             | H : Nat.leb _ _ = false |- _ => apply Nat.leb_gt in H
             end; lia. }
  split; [| split; [exact Hlen |]].
  - (* the output is made of the digits and of hyphens *)
    assert (forall n w, JS.strip_hyphens_spaces w = JSString.keep_digits w ->
                        JS.strip_hyphens_spaces (Display.hyphen_at n w)
                        = JSString.keep_digits (Display.hyphen_at n w)) as Hstep.
    { intros n w Hw. unfold Display.hyphen_at.
      destruct (Nat.leb n (String.length w)) eqn:E; [| exact Hw].
      apply Nat.leb_le in E.
      assert (JS.substring 0 n w = String.substring 0 n w) as ->.
      { unfold JS.substring. now rewrite Nat.min_0_l, Nat.max_0_l, Nat.sub_0_r. }
      rewrite !strip_append, !keep_digits_append.
      change (JS.strip_hyphens_spaces "-") with "".
      change (JSString.keep_digits "-") with "".
      rewrite !append_empty_l, <- strip_append, <- keep_digits_append.
      now rewrite (from_split n w E). }
    rewrite <- Hkeep. rewrite Hdef. fold t.
    do 4 apply Hstep.
    rewrite (keep_digits_fixed t D). apply strip_fixed.
    unfold t, typed_digits.
    destruct (Nat.ltb 13 _); [apply is_clean_substring |]; apply keep_digits_is_clean.
  - rewrite (Hdef (Display.formatISBNInput value)).
    assert (typed_digits (Display.formatISBNInput value) = t) as ->.
    { unfold typed_digits at 1. rewrite Hkeep.
      assert (Nat.ltb 13 (String.length t) = false) as -> by (apply Nat.ltb_ge; exact L).
      reflexivity. }
    now rewrite Hdef.
Qed.

(** ** Validation, display and normalisation together *)

Lemma validate_depends_on_clean (a b : string) :
  JS.strip_hyphens_spaces a = JS.strip_hyphens_spaces b ->
  BookAPIService.validateISBN a = BookAPIService.validateISBN b
  /\ ISBNServer.validateISBN a = ISBNServer.validateISBN b.
Proof.
  intros H. unfold BookAPIService.validateISBN, ISBNServer.validateISBN, ISBNServer.cleanISBN.
  now rewrite H.
Qed.

(** What the client validator has checked when it answers [{valid: true}]. *)
Lemma client_valid_cases (raw : string) (c : string) :
  BookAPIService.validateISBN raw = Valid c ->
  c = JS.strip_hyphens_spaces raw
  /\ (c = sentinel
      \/ (String.length c = 10 /\ BookAPIService.test_isbn10 c = true)
      \/ (String.length c = 13 /\ Spec.all_digits c = true
          /\ (JS.startsWith "978" c = true \/ JS.startsWith "979" c = true))).
Proof.
  unfold BookAPIService.validateISBN. set (clean := JS.strip_hyphens_spaces raw).
  destruct (String.eqb clean sentinel) eqn:S.
  { intros [= <-]. apply String.eqb_eq in S. split; [reflexivity | now left]. }
  destruct (Nat.eqb (String.length clean) 10) eqn:E10; simpl.
  - destruct (BookAPIService.test_isbn10 clean) eqn:T; simpl; [| discriminate].
    intros [= <-]. apply Nat.eqb_eq in E10. split; [reflexivity |]. right. left. now split.
  - destruct (Nat.eqb (String.length clean) 13) eqn:E13; simpl; [| discriminate].
    destruct (BookAPIService.test_isbn13 clean) eqn:T; simpl; [| discriminate].
    destruct (JS.startsWith "978" clean) eqn:P8; simpl.
    + intros [= <-]. apply Nat.eqb_eq in E13. split; [reflexivity |]. right. right.
      unfold BookAPIService.test_isbn13 in T. apply andb_prop in T as [_ T].
      split; [exact E13 |]. split; [exact T | now left].
    + destruct (JS.startsWith "979" clean) eqn:P9; simpl; [| discriminate].
      intros [= <-]. apply Nat.eqb_eq in E13. split; [reflexivity |]. right. right.
      unfold BookAPIService.test_isbn13 in T. apply andb_prop in T as [_ T].
      split; [exact E13 |]. split; [exact T | now right].
Qed.

Lemma test_isbn10_chars (c : string) :
  BookAPIService.test_isbn10 c = true ->
  String.length c = 10
  /\ Spec.all_digits (JS.substring 0 9 c) = true
  /\ forallb (fun a => JS.is_digit a || Ascii.eqb a "X") (list_ascii_of_string c) = true.
Proof.
  unfold BookAPIService.test_isbn10. intros T.
  apply andb_prop in T as [T T3]. apply andb_prop in T as [T1 T2].
  apply Nat.eqb_eq in T1. split; [exact T1 |]. split; [exact T2 |].
  do 10 (destruct c as [|? c]; [discriminate T1 |]).
  destruct c; [| discriminate T1].
  cbn [String.substring list_ascii_of_string forallb] in T2.
  cbn [String.get] in T3.
  repeat (apply andb_prop in T2 as [? T2]).
  cbn [list_ascii_of_string forallb].
  repeat match goal with H : JS.is_digit _ = true |- _ => rewrite H; clear H end.
  now rewrite T3.
Qed.

Lemma all_digits_digit_or_X (s : string) :
  Spec.all_digits s = true ->
  forallb (fun a => JS.is_digit a || Ascii.eqb a "X") (list_ascii_of_string s) = true.
Proof.
  unfold Spec.all_digits. induction s as [|c s IH]; simpl; intros H; [reflexivity |].
  apply andb_prop in H as [Hc Hs]. now rewrite Hc, IH.
Qed.

(** An identifier accepted by the client validator is accepted by the server
    validator with the same cleaned form, unless it is the reserved
    identifier; its display form [formatISBN] and its cleaned form are
    accepted by the client validator with the same cleaned form. *)
Theorem client_valid_implies_server_valid (raw c : string) :
  BookAPIService.validateISBN raw = Valid c ->
  (c <> sentinel -> ISBNServer.validateISBN raw = Valid c)
  /\ BookAPIService.validateISBN (Display.formatISBN raw) = Valid c
  /\ BookAPIService.validateISBN c = Valid c.
Proof.
  intros V. destruct (client_valid_cases raw c V) as [Hc Hcases].
  assert (JS.strip_hyphens_spaces c = c) as Hcc by (rewrite Hc; apply strip_idempotent).
  split; [| split].
  - intros Ns. unfold ISBNServer.validateISBN, ISBNServer.cleanISBN. rewrite <- Hc.
    destruct Hcases as [? | [[L _] | (L & _ & [P | P])]]; [contradiction | | |];
      rewrite L, ?P; simpl; rewrite ?andb_false_r; reflexivity.
  - rewrite <- V. apply validate_depends_on_clean.
    destruct (formatISBN_properties raw) as [-> _].
    rewrite <- keep_digits_X_strip, <- Hc. apply keep_digits_X_fixed.
    destruct Hcases as [-> | [[_ T] | (_ & D & _)]].
    + reflexivity.
    + now destruct (test_isbn10_chars c T) as (_ & _ & ?).
    + now apply all_digits_digit_or_X.
  - rewrite <- V. apply validate_depends_on_clean. now rewrite Hcc, Hc.
Qed.

Lemma all_digits_is_clean (s : string) : Spec.all_digits s = true -> is_clean s = true.
Proof.
  unfold Spec.all_digits, is_clean. induction s as [|c s IH]; simpl; intros H; [reflexivity |].
  apply andb_prop in H as [Hc Hs]. rewrite (IH Hs), andb_true_r.
  apply negb_true_iff, digit_or_X_is_clean. now left.
Qed.

Lemma client_validate_13_digits (n : string) :
  String.length n = 13 -> Spec.all_digits n = true ->
  JS.startsWith "978" n = true \/ JS.startsWith "979" n = true ->
  BookAPIService.validateISBN n = Valid n.
Proof.
  intros L D P. unfold BookAPIService.validateISBN.
  rewrite (strip_fixed n (all_digits_is_clean n D)).
  assert (String.eqb n sentinel = false) as ->.
  { apply String.eqb_neq. intros ->. destruct P as [P | P]; discriminate P. }
  rewrite L. simpl. unfold BookAPIService.test_isbn13. rewrite L.
  change (forallb JS.is_digit (list_ascii_of_string n)) with (Spec.all_digits n).
  rewrite D. simpl. destruct P as [-> | ->]; simpl; rewrite ?andb_false_r; reflexivity.
Qed.

(** The canonical key of an identifier accepted by the client validator has
    13 decimal digits, is accepted by the client validator, is its own
    canonical key, and is the cleaned identifier when that has 13
    characters. *)
Theorem valid_identifier_has_valid_key (raw c : string) :
  BookAPIService.validateISBN raw = Valid c ->
  let n := BookDatabase.normalizeISBN raw in
  BookAPIService.validateISBN n = Valid n
  /\ BookDatabase.normalizeISBN n = n
  /\ String.length n = 13
  /\ Spec.all_digits n = true
  /\ (String.length c = 13 -> n = c).
Proof.
  intros V n. destruct (client_valid_cases raw c V) as [Hc Hcases].
  assert (BookDatabase.normalizeISBN n = n) as Hfix by apply client_normalize_fixed_point.
  destruct (client_normalize_cases raw) as [[H10 Hn] | [H10 Hn]];
    fold n in Hn; rewrite <- Hc in H10, Hn.
  - assert (BookAPIService.validateISBN c = Valid c) as Vc.
    { rewrite <- V. apply validate_depends_on_clean. rewrite Hc. apply strip_idempotent. }
    rewrite Hn. split; [exact Vc |]. split; [now rewrite <- Hn |].
    destruct Hcases as [-> | [[L _] | (L & D & _)]];
      [repeat split; reflexivity | contradiction | now repeat split].
  - destruct Hcases as [-> | [[_ T] | (L & _)]]; [discriminate H10 | | lia].
    destruct (test_isbn10_chars c T) as (_ & D & _).
    destruct (isbn13_of_digits c H10 D) as [Lp E].
    set (partial := "978" +:+ JS.substring 0 9 c) in *.
    set (d := Spec.ean13_check_digit (Spec.digits_of partial)) in *.
    destruct (toString_digit d (ean13_check_digit_range _)) as [_ Hd].
    assert (String.length n = 13) as Ln by (rewrite Hn, E, length_append, Lp; reflexivity).
    assert (Spec.all_digits n = true) as Dn.
    { rewrite Hn, E, all_digits_append. unfold partial at 1.
      rewrite all_digits_append, D. unfold Spec.all_digits at 2. simpl. now rewrite Hd. }
    split; [| split; [exact Hfix | split; [exact Ln | split; [exact Dn | lia]]]].
    apply client_validate_13_digits; [exact Ln | exact Dn |]. left.
    rewrite Hn, E.
    exact (startsWith_append "978" (JS.substring 0 9 c +:+ String (Spec.digit_char d) EmptyString)).
Qed.

(** ** Keys that end with ["NaN"] *)

Lemma sum13_not_digits (p : string) :
  String.length p = 12 -> Spec.all_digits p = false -> sum13 p = JS.NaN.
Proof.
  intros L D.
  do 12 (destruct p as [|? p]; [discriminate L |]).
  destruct p; [| discriminate L]. clear L.
  unfold Spec.all_digits in D. cbn [forallb list_ascii_of_string] in D.
  unfold sum13. cbn [seq fold_left String.get Nat.even]. unfold JS.parseInt.
  repeat match goal with
         | |- context [JS.is_digit ?a] =>
             destruct (JS.is_digit a) eqn:?; cbn [JS.add JS.mul andb] in *;
             try reflexivity; try discriminate
         end.
Qed.

(** The server validator accepts any ten characters.  When one of the first
    nine is not a decimal digit, the canonical key is ["978"], the nine
    characters and ["NaN"]: 15 characters, which the server validator
    rejects for their length.  The client validator rejects the input. *)
Theorem server_key_ending_with_NaN (raw : string) :
  let clean := JS.strip_hyphens_spaces raw in
  String.length clean = 10 ->
  Spec.all_digits (JS.substring 0 9 clean) = false ->
  ISBNServer.validateISBN raw = Valid clean
  /\ ISBNServer.normalizeISBN raw = "978" +:+ JS.substring 0 9 clean +:+ "NaN"
  /\ BookDatabase.normalizeISBN raw = "978" +:+ JS.substring 0 9 clean +:+ "NaN"
  /\ String.length (ISBNServer.normalizeISBN raw) = 15
  /\ ISBNServer.validateISBN (ISBNServer.normalizeISBN raw) = Invalid InvalidLength
  /\ is_valid (BookAPIService.validateISBN raw) = false.
Proof.
  intros clean L D.
  assert (ISBNServer.normalizeISBN raw = "978" +:+ JS.substring 0 9 clean +:+ "NaN") as Hn.
  { destruct (normalize_cases raw) as [[H _] | [_ ->]]; [contradiction |].
    fold clean. unfold isbn13_of, checkDigit13.
    rewrite sum13_not_digits; [reflexivity | |].
    - rewrite length_append. unfold JS.substring. simpl.
      rewrite length_substring; lia.
    - rewrite all_digits_append, D. reflexivity. }
  assert (String.length (ISBNServer.normalizeISBN raw) = 15) as Ln.
  { rewrite Hn. change (String.length ("978" +:+ (JS.substring 0 9 clean +:+ "NaN")) = 15).
    rewrite !length_append. unfold JS.substring. simpl.
    rewrite length_substring; lia. }
  split; [| split; [exact Hn | split; [| split; [exact Ln | split]]]].
  - unfold ISBNServer.validateISBN, ISBNServer.cleanISBN. fold clean. now rewrite L.
  - rewrite <- normalize_server_client. exact Hn.
  - unfold ISBNServer.validateISBN, ISBNServer.cleanISBN.
    assert (JS.strip_hyphens_spaces (ISBNServer.normalizeISBN raw)
            = ISBNServer.normalizeISBN raw) as ->.
    { destruct (normalize_cases raw) as [[H _] | [_ ->]]; [contradiction |].
      apply strip_fixed, isbn13_of_clean, strip_is_clean. }
    now rewrite Ln.
  - unfold BookAPIService.validateISBN. fold clean.
    assert (String.eqb clean sentinel = false) as ->
      by (apply String.eqb_neq; intros E; rewrite E in L; discriminate L).
    rewrite L. simpl. unfold BookAPIService.test_isbn10. rewrite L. simpl.
    change (forallb JS.is_digit (list_ascii_of_string (String.substring 0 9 clean)))
      with (Spec.all_digits (JS.substring 0 9 clean)).
    now rewrite D.
Qed.

(** ** The server: creating and fetching *)

Lemma server_normalize_of_clean (raw : string) :
  ISBNServer.normalizeISBN (JS.strip_hyphens_spaces raw) = ISBNServer.normalizeISBN raw.
Proof.
  unfold ISBNServer.normalizeISBN, ISBNServer.cleanISBN. now rewrite strip_idempotent.
Qed.

Lemma server_variants_of_clean (raw : string) :
  ISBNServer.getISBNVariants (JS.strip_hyphens_spaces raw) = ISBNServer.getISBNVariants raw.
Proof.
  unfold ISBNServer.getISBNVariants, ISBNServer.cleanISBN. now rewrite strip_idempotent.
Qed.

Lemma server_valid_clean (raw clean : string) :
  ISBNServer.validateISBN raw = Valid clean ->
  clean = JS.strip_hyphens_spaces raw
  /\ (String.length clean = 10 \/ String.length clean = 13).
Proof.
  unfold ISBNServer.validateISBN, ISBNServer.cleanISBN.
  set (c := JS.strip_hyphens_spaces raw).
  destruct (Nat.eqb (String.length c) 10) eqn:E10; simpl.
  - apply Nat.eqb_eq in E10.
    assert (Nat.eqb (String.length c) 13 = false) as -> by (apply Nat.eqb_neq; lia).
    simpl. intros [= <-]. split; [reflexivity | now left].
  - destruct (Nat.eqb (String.length c) 13) eqn:E13; simpl; [| discriminate].
    apply Nat.eqb_eq in E13.
    destruct (negb (JS.startsWith "978" c) && negb (JS.startsWith "979" c)); [discriminate |].
    intros [= <-]. split; [reflexivity | now right].
Qed.

Lemma server_probe_None (books : gmap string Book) (variants : list string) :
  ISBNServer.probe books variants = None <-> forall v, v ∈ variants -> books !! v = None.
Proof.
  induction variants as [|v vs IH]; simpl.
  - split; [intros _ w Hw; inversion Hw | reflexivity].
  - destruct (books !! v) eqn:E.
    + split; [discriminate |]. intros H. specialize (H v ltac:(left)). congruence.
    + rewrite IH. split.
      * intros H w Hw. apply elem_of_cons in Hw as [-> | Hw]; [exact E | now apply H].
      * intros H w Hw. apply H. now right.
Qed.

Lemma server_probe_Some (books : gmap string Book) (variants : list string)
    (book : Book) (k : string) :
  ISBNServer.probe books variants = Some (book, k) ->
  k ∈ variants /\ books !! k = Some book.
Proof.
  induction variants as [|v vs IH]; simpl; [discriminate |].
  destruct (books !! v) eqn:E.
  - intros [= <- <-]. split; [left | exact E].
  - intros H. destruct (IH H). split; [now right | assumption].
Qed.

(** A record written under a key that is a variant, all variants being
    absent before, is what the look-up returns. *)
Lemma server_probe_insert (books : gmap string Book) (variants : list string)
    (n : string) (b : Book) :
  (forall v, v ∈ variants -> books !! v = None) -> n ∈ variants ->
  ISBNServer.probe (<[n := b]> books) variants = Some (b, n).
Proof.
  induction variants as [|v vs IH]; intros Hnone Hin; [inversion Hin |].
  simpl. destruct (decide (n = v)) as [-> | N].
  - now rewrite lookup_insert_eq.
  - rewrite lookup_insert_ne by exact N. rewrite (Hnone v) by left.
    apply IH; [intros w Hw; apply Hnone; now right |].
    apply elem_of_cons in Hin as [-> | Hin]; [contradiction | exact Hin].
Qed.

Lemma createBook_cases (books : gmap string Book) (body : Book) (now1 now2 : string) :
  let books' := (ISBNServerRoutes.createBook books body now1 now2).1 in
  let answer := (ISBNServerRoutes.createBook books body now1 now2).2 in
  (exists isbn clean newBook,
      body !! "isbn" = Some (JS.VStr isbn)
      /\ ISBNServer.validateISBN isbn = Valid clean
      /\ answer = ISBNServerRoutes.Created newBook "Livre créé avec succès"
      /\ ISBNServer.findBookByISBN books isbn = None
      /\ books !! ISBNServer.normalizeISBN isbn = None
      /\ books' = <[ISBNServer.normalizeISBN isbn := newBook]> books
      /\ size books' = S (size books)
      /\ newBook !! "isbn" = Some (JS.VStr (ISBNServer.normalizeISBN isbn))
      /\ (forall f, f <> "isbn" -> f <> "createdAt" -> f <> "updatedAt" -> f <> "source" ->
                    newBook !! f = body !! f)
      /\ ISBNServerRoutes.getBook books' isbn
         = ISBNServerRoutes.Found newBook "database" (ISBNServer.normalizeISBN isbn))
  \/ (books' = books
      /\ exists status error,
           answer = ISBNServerRoutes.Error status error
           /\ (status = 400 \/ status = 409 \/ status = 500)).
Proof.
  intros books' answer. unfold books', answer, ISBNServerRoutes.createBook.
  destruct (body !! "isbn") as [v |] eqn:B; [| right; simpl; eauto 7].
  destruct (JS.truthy v) eqn:T; simpl; [| right; simpl; eauto 7].
  destruct v as [| | | isbn |]; try (right; simpl; eauto 7; fail).
  destruct (ISBNServer.validateISBN isbn) as [clean | error] eqn:V; [| right; simpl; eauto 7].
  destruct (server_valid_clean isbn clean V) as [-> _].
  unfold ISBNServer.findBookByISBN.
  rewrite server_variants_of_clean, server_normalize_of_clean.
  destruct (ISBNServer.probe books (ISBNServer.getISBNVariants isbn)) as [[b k] |] eqn:P;
    [right; simpl; eauto 7 |].
  left. simpl.
  pose proof (proj1 (server_probe_None _ _) P) as Hnone.
  pose proof (server_normalize_in_variants isbn) as Hin.
  exists isbn, (JS.strip_hyphens_spaces isbn). eexists.
  split; [reflexivity |]. split; [exact V |]. split; [reflexivity |].
  split; [exact P |]. split; [now apply Hnone |]. split; [reflexivity |].
  split; [apply map_size_insert_None; now apply Hnone |].
  split; [rewrite !lookup_insert_ne by discriminate; apply lookup_insert_eq |].
  split.
  - intros f N1 N2 N3 N4. rewrite !lookup_insert_ne by congruence.
    now apply lookup_delete_ne.
  - unfold ISBNServerRoutes.getBook. rewrite V.
    unfold ISBNServer.findBookByISBN. rewrite server_variants_of_clean.
    now rewrite (server_probe_insert _ _ _ _ Hnone Hin).
Qed.

(** [POST /api/books] with a body whose identifier has no inherited name
    among its variants.  Either the store is unchanged and the answer is an
    error: 400, 409, or 500 for an [isbn] that is no string.  Or no variant
    of the identifier was a key: then the store gains exactly one record,
    under the normalised identifier, which carries the fields of the
    request other than [isbn], [createdAt], [updatedAt] and [source], and
    [GET /api/books/:isbn] with the same identifier returns it; the answer
    is 201 when the file is written, and 500 when writing it fails. *)
Theorem createBook_outcome (books : gmap string Book) (body : Book) (now1 now2 : string)
    (saved : bool) :
  (forall isbn, body !! "isbn" = Some (JS.VStr isbn) ->
                no_inherited (ISBNServer.getISBNVariants isbn) = true) ->
  let books' := (ISBNServerSaving.createBook books body now1 now2 saved).1 in
  let answer := (ISBNServerSaving.createBook books body now1 now2 saved).2 in
  (exists isbn clean newBook,
      body !! "isbn" = Some (JS.VStr isbn)
      /\ ISBNServer.validateISBN isbn = Valid clean
      /\ answer = (if saved
                   then ISBNServerRoutes.Created newBook "Livre créé avec succès"
                   else ISBNServerRoutes.Error 500 "Erreur serveur")
      /\ ISBNServer.findBookByISBN books isbn = None
      /\ books !! ISBNServer.normalizeISBN isbn = None
      /\ books' = <[ISBNServer.normalizeISBN isbn := newBook]> books
      /\ size books' = S (size books)
      /\ newBook !! "isbn" = Some (JS.VStr (ISBNServer.normalizeISBN isbn))
      /\ (forall f, f <> "isbn" -> f <> "createdAt" -> f <> "updatedAt" -> f <> "source" ->
                    newBook !! f = body !! f)
      /\ ISBNServerRoutes.getBook books' isbn
         = ISBNServerRoutes.Found newBook "database" (ISBNServer.normalizeISBN isbn))
  \/ (books' = books
      /\ exists status error,
           answer = ISBNServerRoutes.Error status error
           /\ (status = 400 \/ status = 409 \/ status = 500)).
Proof.
  intros _ books' answer.
  destruct (createBook_cases books body now1 now2)
    as [(isbn & clean & nb & B & V & A & F & Hn & E & Hs & Hi & Hf & G)
       | (E & status & error & A & Hst)].
  - left. exists isbn, clean, nb.
    assert (ISBNServerRoutes.createBook books body now1 now2
            = (<[ISBNServer.normalizeISBN isbn := nb]> books,
               ISBNServerRoutes.Created nb "Livre créé avec succès")) as C
      by (apply injective_projections; assumption).
    assert (books' = <[ISBNServer.normalizeISBN isbn := nb]> books) as Eb
      by (unfold books', ISBNServerSaving.createBook; now rewrite C).
    assert (answer = if saved
                     then ISBNServerRoutes.Created nb "Livre créé avec succès"
                     else ISBNServerRoutes.Error 500 "Erreur serveur") as Ea
      by (unfold answer, ISBNServerSaving.createBook; now rewrite C).
    split; [exact B |]. split; [exact V |]. split; [exact Ea |].
    split; [exact F |]. split; [exact Hn |]. split; [exact Eb |].
    rewrite Eb, <- E.
    split; [exact Hs |]. split; [exact Hi |]. split; [exact Hf | exact G].
  - right.
    assert (ISBNServerRoutes.createBook books body now1 now2
            = (books, ISBNServerRoutes.Error status error)) as C
      by (apply injective_projections; assumption).
    unfold books', answer, ISBNServerSaving.createBook. rewrite C. simpl.
    split; [reflexivity |]. exists status, error. now split.
Qed.

(** After a successful [POST /api/books] with an identifier of ten
    characters, [GET] with this identifier returns the record, but [DELETE]
    and [PUT] with it answer 404 and change nothing.  With an identifier of
    13 characters, [DELETE] gives back the store as it was before the
    [POST]. *)
Theorem created_isbn10_is_not_deletable
    (books : gmap string Book) (body : Book) (now1 now2 isbn : string)
    (updates : Book) (now : string) (newBook : Book) (message : string) :
  body !! "isbn" = Some (JS.VStr isbn) ->
  (ISBNServerRoutes.createBook books body now1 now2).2
  = ISBNServerRoutes.Created newBook message ->
  let books' := (ISBNServerRoutes.createBook books body now1 now2).1 in
  (String.length (JS.strip_hyphens_spaces isbn) = 10 ->
   ISBNServerRoutes.getBook books' isbn
   = ISBNServerRoutes.Found newBook "database" (ISBNServer.normalizeISBN isbn)
   /\ ISBNServer.deleteBook books' isbn = (books', ISBNServer.Failure 404 "Livre non trouvé")
   /\ ISBNServer.updateBook books' isbn updates now
      = (books', ISBNServer.Failure 404 "Livre non trouvé"))
  /\ (String.length (JS.strip_hyphens_spaces isbn) = 13 ->
      ISBNServer.deleteBook books' isbn
      = (books, ISBNServer.Success None "Livre supprimé avec succès")).
Proof.
  intros B C books'.
  destruct (createBook_cases books body now1 now2)
    as [(isbn0 & clean & nb & B0 & V & A & F & Hn & E & _ & _ & _ & G) | (_ & s & e & A & _)];
    [| unfold books' in *; rewrite A in C; discriminate].
  rewrite B in B0. injection B0 as <-. rewrite A in C. injection C as <- <-.
  fold books' in E, G. destruct (server_valid_clean isbn clean V) as [-> _].
  set (clean := JS.strip_hyphens_spaces isbn) in *.
  assert (books !! clean = None) as Hc.
  { unfold ISBNServer.findBookByISBN in F.
    apply (proj1 (server_probe_None _ _) F).
    unfold ISBNServer.getISBNVariants, ISBNServer.cleanISBN. fold clean.
    destruct (Nat.eqb (String.length clean) 13 && JS.startsWith "978" clean);
      destruct (Nat.eqb (String.length clean) 10);
      try destruct (negb (String.eqb (ISBNServer.normalizeISBN clean) clean)); left. }
  split.
  - intros L. split; [exact G |].
    assert (ISBNServer.normalizeISBN isbn <> clean) as N.
    { destruct (normalize_cases isbn) as [[H _] | [_ ->]]; [contradiction |].
      fold clean. intros Q. destruct (isbn13_of_length clean L); rewrite Q in *; lia. }
    assert (books' !! clean = None) as Hc'
      by (rewrite E, lookup_insert_ne by exact N; exact Hc).
    unfold ISBNServer.deleteBook, ISBNServer.updateBook. rewrite V, Hc'. now split.
  - intros L.
    assert (ISBNServer.normalizeISBN isbn = clean) as N.
    { destruct (normalize_cases isbn) as [[_ ->] | [H _]]; [reflexivity |].
      fold clean in H. lia. }
    unfold ISBNServer.deleteBook. rewrite V, E, N, lookup_insert_eq.
    rewrite delete_insert_id by exact Hc. reflexivity.
Qed.

(** ** The server: synchronisation *)

Lemma server_valid_key_prefix (raw clean : string) :
  ISBNServer.validateISBN raw = Valid clean ->
  JS.startsWith "978" (ISBNServer.normalizeISBN raw) = true
  \/ JS.startsWith "979" (ISBNServer.normalizeISBN raw) = true.
Proof.
  intros V. destruct (server_valid_clean raw clean V) as [-> HL].
  set (c := JS.strip_hyphens_spaces raw) in *.
  destruct (normalize_cases raw) as [[H10 ->] | [H10 ->]]; fold c in H10 |- *.
  - destruct HL as [HL | HL]; [contradiction |].
    unfold ISBNServer.validateISBN, ISBNServer.cleanISBN in V. fold c in V.
    apply Nat.eqb_neq in H10. rewrite H10, HL in V. simpl in V.
    destruct (JS.startsWith "978" c); [now left |].
    destruct (JS.startsWith "979" c); [now right | discriminate V].
  - left. unfold isbn13_of.
    exact (startsWith_append "978"
             (JS.substring 0 9 c +:+ JS.toString (checkDigit13 ("978" +:+ JS.substring 0 9 c)))).
Qed.

Lemma import_entry_spec (books : gmap string Book) (i u : nat) (isbn : string)
    (bookData : Book) (now1 now2 : string) :
  exists books' i' u',
    ISBNServerRoutes.import_entry (books, i, u) isbn bookData now1 now2 = (books', i', u')
    /\ size books' + i = size books + i'
    /\ i' + u' = i + u + (if is_valid (ISBNServer.validateISBN isbn) then 1 else 0)
    /\ (forall k, is_Some (books !! k) -> is_Some (books' !! k))
    /\ (forall k, books !! k = None -> is_Some (books' !! k) ->
                  JS.startsWith "978" k = true \/ JS.startsWith "979" k = true).
Proof.
  unfold ISBNServerRoutes.import_entry.
  destruct (ISBNServer.validateISBN isbn) as [clean | e] eqn:V; simpl.
  - destruct (server_valid_clean isbn clean V) as [-> _].
    rewrite server_normalize_of_clean.
    pose proof (server_valid_key_prefix isbn _ V) as Hp.
    set (n := ISBNServer.normalizeISBN isbn) in *.
    destruct (books !! n) as [existing |] eqn:E.
    + eexists _, i, (S u). split; [reflexivity |].
      split; [rewrite map_size_insert_Some by eauto; lia |]. split; [lia |].
      split.
      * intros k Hk. destruct (decide (n = k)) as [<- | N];
          [rewrite lookup_insert_eq; eauto | now rewrite lookup_insert_ne].
      * intros k Hk Hs. destruct (decide (n = k)) as [<- | N]; [exact Hp |].
        rewrite lookup_insert_ne, Hk in Hs by exact N. now destruct Hs.
    + eexists _, (S i), u. split; [reflexivity |].
      split; [rewrite map_size_insert_None by exact E; lia |]. split; [lia |].
      split.
      * intros k Hk. destruct (decide (n = k)) as [<- | N];
          [rewrite lookup_insert_eq; eauto | now rewrite lookup_insert_ne].
      * intros k Hk Hs. destruct (decide (n = k)) as [<- | N]; [exact Hp |].
        rewrite lookup_insert_ne, Hk in Hs by exact N. now destruct Hs.
  - exists books, i, u. split; [reflexivity |]. split; [reflexivity |].
    split; [lia |]. split; [tauto |]. intros k Hk Hs. rewrite Hk in Hs. now destruct Hs.
Qed.

Lemma import_loop_spec (entries : list (string * Book * (string * string))) :
  forall (books : gmap string Book) (i u : nat),
  exists books' i' u',
    ISBNServerRoutes.import_loop (books, i, u) entries = (books', i', u')
    /\ size books' + i = size books + i'
    /\ i' + u' = i + u + count_valid entries
    /\ (forall k, is_Some (books !! k) -> is_Some (books' !! k))
    /\ (forall k, books !! k = None -> is_Some (books' !! k) ->
                  JS.startsWith "978" k = true \/ JS.startsWith "979" k = true).
Proof.
  induction entries as [|[[isbn bookData] [now1 now2]] rest IH]; intros books i u.
  - exists books, i, u. simpl. split; [reflexivity |]. split; [reflexivity |].
    split; [unfold count_valid; simpl; lia |]. split; [tauto |].
    intros k Hk Hs. rewrite Hk in Hs. now destruct Hs.
  - destruct (import_entry_spec books i u isbn bookData now1 now2)
      as (b1 & i1 & u1 & E1 & S1 & C1 & K1 & P1).
    destruct (IH b1 i1 u1) as (b2 & i2 & u2 & E2 & S2 & C2 & K2 & P2).
    exists b2, i2, u2. cbn [ISBNServerRoutes.import_loop]. rewrite E1, E2.
    split; [reflexivity |].
    split; [lia |].
    split; [unfold count_valid in *; simpl;
            destruct (is_valid (ISBNServer.validateISBN isbn)); simpl; lia |].
    split; [intros k Hk; apply K2, K1, Hk |].
    intros k Hk Hs. destruct (b1 !! k) eqn:Eb.
    + apply (P1 k Hk). rewrite Eb. eauto.
    + now apply (P2 k).
Qed.

(** [POST /api/sync/import]: the reported total is the size of the store,
    which has grown by the number of imported records; imported and updated
    together count the entries with a valid identifier; no key is lost, and
    every new key starts with ["978"] or ["979"]. *)
Theorem import_counts (books : gmap string Book)
    (entries : list (string * Book * (string * string))) :
  let books' := (ISBNServerRoutes.importFromLocalStorage books entries).1 in
  exists imported updated,
    (ISBNServerRoutes.importFromLocalStorage books entries).2
    = ISBNServerRoutes.Synchronised imported updated (size books')
    /\ size books' = size books + imported
    /\ imported + updated = count_valid entries
    /\ (forall k, is_Some (books !! k) -> is_Some (books' !! k))
    /\ (forall k, books !! k = None -> is_Some (books' !! k) ->
                  JS.startsWith "978" k = true \/ JS.startsWith "979" k = true).
Proof.
  intros books'. unfold books', ISBNServerRoutes.importFromLocalStorage.
  destruct (import_loop_spec entries books 0 0) as (b & i & u & E & S & C & K & P).
  rewrite E. simpl. exists i, u. split; [reflexivity |].
  split; [lia |]. split; [lia |]. split; assumption.
Qed.

(** ** The PostgreSQL server *)

(** PostgreSQL server: a successful [POST /api/books] writes the record
    under the normalised identifier, replacing whatever was stored there;
    the record is the request with [isbn], [createdAt] and [updatedAt] set.
    [DELETE] and [PUT] with any valid identifier that normalises to this key
    then reach the record. *)
Theorem postgres_create_then_reach (table : gmap string Book) (bookData : Book)
    (now1 now2 : string) (final : Book) :
  (ISBNServerPostgresRoutes.createBook table bookData now1 now2).2
  = ISBNServerPostgresRoutes.Created final ->
  exists isbn n,
    bookData !! "isbn" = Some (JS.VStr isbn)
    /\ n = ISBNServer.normalizeISBN isbn
    /\ (ISBNServerPostgresRoutes.createBook table bookData now1 now2).1
       = <[n := final]> table
    /\ final !! "isbn" = Some (JS.VStr n)
    /\ final !! "createdAt" = Some (JS.VStr now1)
    /\ (forall f, f <> "isbn" -> f <> "createdAt" -> f <> "updatedAt" ->
                  final !! f = bookData !! f)
    /\ forall isbn' updates now,
         is_valid (ISBNServer.validateISBN isbn') = true ->
         ISBNServer.normalizeISBN isbn' = n ->
         ISBNServerPostgres.deleteBook (<[n := final]> table) isbn'
         = (delete n table, ISBNServerPostgres.NoContent)
         /\ ISBNServerPostgresRoutes.updateBook (<[n := final]> table) isbn' updates now
            = (<[n := <["updatedAt" := JS.VStr now]> (updates ∪ final)]> table,
               ISBNServerPostgresRoutes.Updated
                 (<["updatedAt" := JS.VStr now]> (updates ∪ final))).
Proof.
  unfold ISBNServerPostgresRoutes.createBook.
  destruct (bookData !! "isbn") as [v |] eqn:B; [| discriminate].
  destruct (JS.truthy v) eqn:T; simpl; [| discriminate].
  destruct v as [| | | isbn |]; try discriminate.
  destruct (ISBNServer.validateISBN isbn) as [clean | error] eqn:V; [| discriminate].
  destruct (server_valid_clean isbn clean V) as [-> _].
  rewrite server_normalize_of_clean. simpl. intros [= <-].
  exists isbn, (ISBNServer.normalizeISBN isbn).
  set (n := ISBNServer.normalizeISBN isbn).
  split; [reflexivity |]. split; [reflexivity |]. split; [reflexivity |].
  split; [rewrite !lookup_insert_ne by discriminate; apply lookup_insert_eq |].
  split; [rewrite lookup_insert_ne by discriminate; apply lookup_insert_eq |].
  split; [intros f N1 N2 N3; now rewrite !lookup_insert_ne by congruence |].
  intros isbn' updates now V' N'.
  destruct (ISBNServer.validateISBN isbn') as [clean' | e] eqn:E'; [| discriminate V'].
  destruct (server_valid_clean isbn' clean' E') as [-> _].
  unfold ISBNServerPostgres.deleteBook, ISBNServerPostgresRoutes.updateBook.
  rewrite E', server_normalize_of_clean, N', lookup_insert_eq.
  split; [now rewrite delete_insert_eq | now rewrite insert_insert_eq].
Qed.

(** ** Instances *)

Lemma canonical_keys_preserved_witness :
  canonical_keys
    (BookDatabase.addBook store_isbn13 "0156013983" pages_only "2025-07-01T12:00:00.000Z").1.
Proof.
  apply (canonical_keys_preserved store_isbn13 "0156013983" pages_only
           "pageCount" (JS.VNum 96) "2025-07-01T12:00:00.000Z").
  intros k b H. unfold store_isbn13 in H.
  apply lookup_singleton_Some in H as [<- _]. reflexivity.
Defined.

Lemma unclean_key_is_invisible_witness :
  BookDatabase.findBook (<["978-0-15-601398-7" := title_only]> ∅) "9780156013987"
  = BookDatabase.findBook ∅ "9780156013987".
Proof.
  apply (unclean_key_is_invisible ∅ "978-0-15-601398-7" title_only "9780156013987"
           pages_only "2025-07-01T12:00:00.000Z").
  reflexivity.
Defined.

Lemma client_valid_implies_server_valid_witness :
  BookAPIService.validateISBN (Display.formatISBN "978 0 15 601398 7")
  = Valid "9780156013987".
Proof.
  apply (client_valid_implies_server_valid "978 0 15 601398 7" "9780156013987").
  reflexivity.
Defined.

Lemma valid_identifier_has_valid_key_witness :
  String.length (BookDatabase.normalizeISBN "0-15-601398-3") = 13.
Proof.
  apply (valid_identifier_has_valid_key "0-15-601398-3" "0156013983").
  reflexivity.
Defined.

Lemma server_key_ending_with_NaN_witness :
  ISBNServer.normalizeISBN "abcdefghij" = "978" +:+ JS.substring 0 9 "abcdefghij" +:+ "NaN".
Proof. apply (server_key_ending_with_NaN "abcdefghij"); reflexivity. Defined.

Lemma created_isbn10_is_not_deletable_witness :
  ISBNServer.deleteBook (ISBNServerRoutes.createBook ∅ post_isbn10 "T1" "T2").1 "0156013983"
  = ((ISBNServerRoutes.createBook ∅ post_isbn10 "T1" "T2").1,
     ISBNServer.Failure 404 "Livre non trouvé").
Proof.
  assert (post_isbn10 !! "isbn" = Some (JS.VStr "0156013983")) as B
    by (vm_compute; reflexivity).
  assert ((ISBNServerRoutes.createBook ∅ post_isbn10 "T1" "T2").2
          = ISBNServerRoutes.Created created_isbn10 "Livre créé avec succès") as C
    by (vm_compute; reflexivity).
  destruct (created_isbn10_is_not_deletable ∅ post_isbn10 "T1" "T2" "0156013983"
              pages_only "T3" created_isbn10 "Livre créé avec succès" B C) as [H _].
  apply H. reflexivity.
Defined.

Lemma postgres_create_then_reach_witness :
  exists isbn n,
    post_isbn10 !! "isbn" = Some (JS.VStr isbn) /\ n = ISBNServer.normalizeISBN isbn.
Proof.
  assert ((ISBNServerPostgresRoutes.createBook ∅ post_isbn10 "T1" "T2").2
          = ISBNServerPostgresRoutes.Created upserted_isbn10) as C
    by (vm_compute; reflexivity).
  destruct (postgres_create_then_reach ∅ post_isbn10 "T1" "T2" upserted_isbn10 C)
    as (isbn & n & B & N & _).
  exists isbn, n. now split.
Defined.

(** ** Look-up by either form *)

(** [findBook] finds a record by the other form of the identifier: a record
    under the ISBN-13 key is found from any ten-character identifier that
    normalises to this key, and a record under the ISBN-10 key is found
    from the 13-character identifier under [978] that converts to it,
    provided no record is stored under the cleaned input itself. *)
Theorem findBook_by_other_form (data : gmap string Book) (isbn : string) (b : Book) :
  let clean := JS.strip_hyphens_spaces isbn in
  data !! clean = None ->
  (String.length clean = 10 ->
   data !! BookDatabase.normalizeISBN isbn = Some b ->
   BookDatabase.findBook data isbn
   = Some (<["foundWithISBN" := JS.VStr (BookDatabase.normalizeISBN isbn)]> b))
  /\ (forall isbn10,
        BookDatabase.convertISBN13ToISBN10 clean = Some isbn10 ->
        data !! isbn10 = Some b ->
        BookDatabase.findBook data isbn = Some (<["foundWithISBN" := JS.VStr isbn10]> b)).
Proof.
  intros clean Hc. split.
  - intros L Hn. unfold BookDatabase.findBook. rewrite (client_variants_10 isbn L).
    fold clean. rewrite client_probe_two, Hc.
    destruct (client_normalize_cases isbn) as [[N _] | [_ E]]; [contradiction |].
    fold clean in E. rewrite E in Hn |- *. now rewrite Hn.
  - intros isbn10 Hconv Ht.
    destruct (Nat.eq_dec (String.length clean) 13) as [L | L];
      [destruct (JS.startsWith "978" clean) eqn:P |].
    + rewrite (convert13_Some clean L P) in Hconv. injection Hconv as <-.
      unfold BookDatabase.findBook. rewrite (client_variants_13 isbn L P).
      fold clean. rewrite client_probe_two, Hc. now rewrite Ht.
    + rewrite convert13_None in Hconv; [discriminate | intros [_ ?]; congruence].
    + rewrite convert13_None in Hconv; [discriminate | intros [? _]; contradiction].
Qed.

Lemma findBook_by_other_form_witness :
  BookDatabase.findBook store_isbn13 "0-15-601398-3"
  = Some (<["foundWithISBN" := JS.VStr (BookDatabase.normalizeISBN "0-15-601398-3")]>
            petit_prince).
Proof.
  assert (store_isbn13 !! JS.strip_hyphens_spaces "0-15-601398-3" = None) as Hc
    by (vm_compute; reflexivity).
  destruct (findBook_by_other_form store_isbn13 "0-15-601398-3" petit_prince Hc)
    as [H _].
  apply H; [reflexivity | vm_compute; reflexivity].
Defined.

(** ** The server: answers of the Google Books route are cached *)

(** [GET /api/external/google/:isbn] for an identifier none of whose
    variants is an inherited name.  An invalid identifier is answered 400.
    A valid identifier one of whose variants is a key is answered from the
    store, whatever the API would answer, and nothing changes.  In no case
    is a record of the store changed.  When no variant is a key and the
    API gives a book, the route stores it under the normalised identifier,
    with the fields of the book other than the four it sets; it answers
    with the items of the API when the file is written and 500 when
    writing it fails, and either way every later request for the same
    identifier is answered from the store with this record. *)
Theorem searchGoogleBooks_caches (books : gmap string Book) (isbn : string)
    (answer : ISBNServerGoogle.fetched) (now1 now2 : string) (saved : bool) :
  no_inherited (ISBNServer.getISBNVariants isbn) = true ->
  let books' := (ISBNServerGoogle.searchGoogleBooks books isbn answer now1 now2 saved).1 in
  let response := (ISBNServerGoogle.searchGoogleBooks books isbn answer now1 now2 saved).2 in
  (forall error, ISBNServer.validateISBN isbn = Invalid error ->
                 books' = books /\ response = ISBNServerGoogle.Error 400 error)
  /\ (forall book k,
        is_valid (ISBNServer.validateISBN isbn) = true ->
        ISBNServer.findBookByISBN books isbn = Some (book, k) ->
        books' = books /\ response = ISBNServerGoogle.LocalDatabase book)
  /\ (forall k b, books !! k = Some b -> books' !! k = Some b)
  /\ (forall bookInfo rest,
        is_valid (ISBNServer.validateISBN isbn) = true ->
        ISBNServer.findBookByISBN books isbn = None ->
        answer = ISBNServerGoogle.FetchOk (bookInfo :: rest) ->
        exists stored,
          books' = <[ISBNServer.normalizeISBN isbn := stored]> books
          /\ books !! ISBNServer.normalizeISBN isbn = None
          /\ stored !! "isbn" = Some (JS.VStr (ISBNServer.normalizeISBN isbn))
          /\ (forall f, f <> "isbn" -> f <> "source" -> f <> "createdAt" ->
                        f <> "updatedAt" -> stored !! f = bookInfo !! f)
          /\ response
             = (if saved then ISBNServerGoogle.GoogleApiServer (bookInfo :: rest)
                else ISBNServerGoogle.Error 500 "Erreur lors de la recherche Google Books")
          /\ forall answer' now3 now4 saved',
               ISBNServerGoogle.searchGoogleBooks books' isbn answer' now3 now4 saved'
               = (books', ISBNServerGoogle.LocalDatabase stored)).
Proof.
  intros _ books' response. unfold books', response, ISBNServerGoogle.searchGoogleBooks.
  destruct (ISBNServer.validateISBN isbn) as [clean | error] eqn:V.
  - destruct (server_valid_clean isbn clean V) as [-> _].
    unfold ISBNServer.findBookByISBN.
    rewrite server_variants_of_clean, server_normalize_of_clean.
    split; [intros error H; discriminate H |].
    destruct (ISBNServer.probe books (ISBNServer.getISBNVariants isbn)) as [[b0 k0] |] eqn:P.
    + split; [intros book k _ [= <- <-]; now split |].
      split; [intros k b H; exact H |]. intros bookInfo rest _ H. discriminate H.
    + pose proof (proj1 (server_probe_None _ _) P) as Hnone.
      pose proof (server_normalize_in_variants isbn) as Hin.
      split; [intros book k _ H; discriminate H |].
      split.
      * destruct answer as [| [| bookInfo rest]]; simpl; intros k b H; try exact H.
        rewrite lookup_insert_ne; [exact H |].
        intros <-. rewrite (Hnone _ Hin) in H. discriminate H.
      * intros bookInfo rest _ _ ->. simpl.
        eexists. split; [reflexivity |]. split; [now apply Hnone |].
        split; [rewrite !lookup_insert_ne by discriminate; apply lookup_insert_eq |].
        split; [intros f N1 N2 N3 N4; now rewrite !lookup_insert_ne by congruence |].
        split; [reflexivity |].
        intros answer' now3 now4 saved'.
        now rewrite (server_probe_insert _ _ _ _ Hnone Hin).
  - split; [intros e [= <-]; now split |].
    split; [intros book k Hv _; discriminate Hv |].
    split; [intros k b H; exact H |].
    intros bookInfo rest Hv. discriminate Hv.
Qed.

(** ** Upsert under a key other than the canonical key *)

(** C4 (as amended). When [findBook] finds the record under a key other
    than the canonical key, either the cleaned input has ten characters, the
    old key being the cleaned input and the canonical key its ISBN-13 form,
    or it has 13 characters and is the canonical key, the old key being the
    ISBN-10 derived from it.  After [addBook] (and after [updateBookField])
    the old key is absent, the merged record is stored under the canonical
    key, of the variants of the upserted identifier only the canonical key
    holds a record, and every other key of the store is as it was before;
    this is the state of [this.data] whether or not [saveDatabase] succeeds.
    In particular, adding [{title}] under ["9780156013987"] and then
    [{pageCount}] under ["0156013987"] to the empty store leaves one
    record, under ["9780156013987"], with both fields; so does adding
    [{pageCount}] under ["9780156013987"] to the store that holds [{title}]
    under ["0156013983"]. *)
Theorem client_upsert_migrates
    (data : gmap string Book) (isbn : string) (bookInfo : Book)
    (field : string) (value : JS.value) (now : string) (saved : bool)
    (existing : Book) :
  BookDatabase.findBook data isbn = Some existing ->
  BookDatabase.foundWithISBN existing <> BookDatabase.normalizeISBN isbn ->
  let clean := JS.strip_hyphens_spaces isbn in
  let old := BookDatabase.foundWithISBN existing in
  let canonical := BookDatabase.normalizeISBN isbn in
  ((String.length clean = 10 /\ old = clean
    /\ BookDatabase.convertISBN10ToISBN13 clean = Some canonical)
   \/ (String.length clean = 13 /\ canonical = clean
       /\ BookDatabase.convertISBN13ToISBN10 clean = Some old))
  /\ (exists data',
      BookDatabaseSaving.addBook data isbn bookInfo now saved
      = (data', BookDatabaseSaving.save_then_return saved
                  (BookDatabase.merge existing bookInfo now))
      /\ data' !! old = None
      /\ data' !! canonical = Some (BookDatabase.merge existing bookInfo now)
      /\ (forall v, v ∈ BookDatabase.getISBNVariants isbn ->
                    is_Some (data' !! v) -> v = canonical)
      /\ (forall k, k <> old -> k <> canonical -> data' !! k = data !! k))
  /\ (exists data' stored,
      BookDatabaseSaving.updateBookField data isbn field value now saved
      = Some (data', BookDatabaseSaving.save_then_return saved true)
      /\ data !! old = Some stored
      /\ data' !! old = None
      /\ is_Some (data' !! canonical)
      /\ (field <> "__proto__" ->
          data' !! canonical
          = Some (<["lastUpdated" := JS.VStr now]> (<[field := value]> stored)))
      /\ (forall v, v ∈ BookDatabase.getISBNVariants isbn ->
                    is_Some (data' !! v) -> v = canonical)
      /\ (forall k, k <> old -> k <> canonical -> data' !! k = data !! k))
  /\ (let s1 := (BookDatabase.addBook ∅ "9780156013987" title_only now).1 in
      let s2 := (BookDatabase.addBook s1 "0156013987" pages_only now).1 in
      dom s2 = {[ "9780156013987" ]}
      /\ exists record, s2 !! "9780156013987" = Some record
                        /\ record !! "title" = Some (JS.VStr "Le Petit Prince")
                        /\ record !! "pageCount" = Some (JS.VNum 96))
  /\ (let s := (BookDatabase.addBook store_isbn10 "9780156013987" pages_only now).1 in
      dom s = {[ "9780156013987" ]}
      /\ exists record, s !! "9780156013987" = Some record
                        /\ record !! "title" = Some (JS.VStr "Le Petit Prince")
                        /\ record !! "pageCount" = Some (JS.VNum 96)).
Proof.
  intros Hf Hne clean old canonical.
  destruct (upsert_migrates_found data isbn bookInfo field value now existing Hf Hne)
    as ((d1 & Hadd & Ho1 & Hc1 & Hv1 & Hk1) & (d2 & stored & Hupd & Hs & Ho2 & Hc2 & Hv2 & Hk2)
        & Hex).
  split; [| split; [| split; [| split; [exact Hex |]]]].
  - unfold BookDatabase.findBook in Hf.
    destruct (client_probe_Some _ _ _ Hf) as (k & stored' & Hk & _ & _ & Hfound).
    fold old in Hfound. fold old canonical in Hne.
    destruct (client_normalize_cases isbn) as [[H10 Hn] | [H10 Hn]];
      fold clean canonical in H10, Hn.
    + right.
      assert (BookDatabase.getISBNVariants isbn <> [clean]) as Hvs.
      { intros E. rewrite E in Hk. apply list_elem_of_singleton in Hk. congruence. }
      destruct (Nat.eq_dec (String.length clean) 13) as [H13 | H13];
        [destruct (JS.startsWith "978" clean) eqn:P |].
      * rewrite (client_variants_13 isbn H13 P) in Hk. fold clean in Hk.
        apply elem_of_cons in Hk as [Hk | Hk]; [congruence |].
        apply list_elem_of_singleton in Hk.
        split; [exact H13 |]. split; [exact Hn |].
        rewrite (convert13_Some clean H13 P). congruence.
      * exfalso. apply Hvs. apply client_variants_other; [exact H10 |].
        intros [_ Q]. change (JS.startsWith "978" clean = true) in Q. congruence.
      * exfalso. apply Hvs. apply client_variants_other; [exact H10 |].
        intros [Q _]. change (String.length clean = 13) in Q. contradiction.
    + left. rewrite (client_variants_10 isbn H10) in Hk. fold clean in Hk.
      apply elem_of_cons in Hk as [Hk | Hk].
      * split; [exact H10 |]. split; [congruence |].
        rewrite (convert10_Some clean H10). congruence.
      * apply list_elem_of_singleton in Hk. congruence.
  - exists d1. unfold BookDatabaseSaving.addBook. rewrite Hadd. simpl.
    split; [reflexivity |]. split; [exact Ho1 |]. split; [exact Hc1 |].
    split; [exact Hv1 | exact Hk1].
  - exists d2, stored. unfold BookDatabaseSaving.updateBookField. rewrite Hupd.
    split; [reflexivity |]. split; [exact Hs |]. split; [exact Ho2 |].
    split; [eexists; exact Hc2 |]. split; [intros _; exact Hc2 |].
    split; [exact Hv2 | exact Hk2].
  - split.
    + vm_compute. reflexivity.
    + eexists. split; [vm_compute; reflexivity |]. split; vm_compute; reflexivity.
Qed.

Lemma client_upsert_migrates_witness :
  (BookDatabaseSaving.addBook store_isbn10 "0156013983" pages_only
     "2025-07-01T12:00:00.000Z" false).1 !! "0156013983" = None.
Proof.
  assert (BookDatabase.findBook store_isbn10 "0156013983" = Some found_isbn10) as F
    by (vm_compute; reflexivity).
  assert (BookDatabase.foundWithISBN found_isbn10
          <> BookDatabase.normalizeISBN "0156013983") as N
    by (vm_compute; discriminate).
  destruct (client_upsert_migrates
              store_isbn10 "0156013983" pages_only "pageCount" (JS.VNum 96)
              "2025-07-01T12:00:00.000Z" false found_isbn10 F N)
    as (_ & (data' & Hadd & Hold & _) & _).
  rewrite Hadd. exact Hold.
Defined.

(** C4 (as stated) fails: the store holds records under ["0156013987"] and
    under ["0156013983"], two ten-character keys with the same canonical key
    ["9780156013987"].  [findBook("0156013987")] finds the first one under
    its own key, which is not the canonical key; after [addBook] (and after
    [updateBookField]) with this identifier the store holds a record under
    ["9780156013987"] and still the one under ["0156013983"], the ISBN-10
    into which ["9780156013987"] converts. *)
Lemma upsert_leaves_equivalent_key :
  let now := "2025-07-01T12:00:00.000Z" in
  let added := (BookDatabase.addBook store_two_isbn10 "0156013987" pages_only now).1 in
  (exists existing,
      BookDatabase.findBook store_two_isbn10 "0156013987" = Some existing
      /\ BookDatabase.foundWithISBN existing = "0156013987"
      /\ BookDatabase.foundWithISBN existing <> BookDatabase.normalizeISBN "0156013987")
  /\ BookDatabase.normalizeISBN "0156013987" = "9780156013987"
  /\ BookDatabase.normalizeISBN "0156013983" = "9780156013987"
  /\ BookDatabase.convertISBN13ToISBN10 "9780156013987" = Some "0156013983"
  /\ dom added = {[ "0156013983"; "9780156013987" ]}
  /\ added !! "0156013983" = Some pages_only
  /\ (exists updated,
        BookDatabase.updateBookField store_two_isbn10 "0156013987"
          "pageCount" (JS.VNum 96) now = Some (updated, true)
        /\ dom updated = {[ "0156013983"; "9780156013987" ]}).
Proof.
  split.
  { eexists. split; [vm_compute; reflexivity |].
    split; [vm_compute; reflexivity | vm_compute; discriminate]. }
  split; [reflexivity |]. split; [reflexivity |]. split; [reflexivity |].
  split; [vm_compute; reflexivity |]. split; [vm_compute; reflexivity |].
  eexists. split; [vm_compute; reflexivity | vm_compute; reflexivity].
Qed.

(** ** Further instances *)

Lemma deleteBook_removes_every_variant_witness :
  BookDatabase.findBook
    (BookDatabaseSaving.deleteBook store_isbn13 "0156013983" false).1 "0156013983"
  = None.
Proof.
  assert (no_inherited (BookDatabase.getISBNVariants "0156013983") = true) as N
    by reflexivity.
  destruct (deleteBook_removes_every_variant store_isbn13 "0156013983" false N)
    as [H _].
  exact H.
Defined.

Lemma updateBookField_outcome_witness :
  exists data' result,
    BookDatabaseSaving.updateBookField store_isbn10 "0156013983" "pageCount"
      (JS.VNum 96) "2025-07-01T12:00:00.000Z" false
    = Some (data', result).
Proof.
  assert (no_inherited (BookDatabase.getISBNVariants "0156013983") = true) as N
    by reflexivity.
  assert ("pageCount" <> "__proto__") as F by discriminate.
  destruct (updateBookField_outcome store_isbn10 "0156013983" "pageCount"
              (JS.VNum 96) "2025-07-01T12:00:00.000Z" false N F)
    as (data' & result & E & _).
  exists data', result. exact E.
Defined.

Lemma addBook_size_witness :
  size (BookDatabase.addBook store_isbn13 "9782401084629" title_only
          "2025-07-01T12:00:00.000Z").1
  = S (size store_isbn13).
Proof.
  assert (no_inherited (BookDatabase.getISBNVariants "9782401084629") = true) as N
    by reflexivity.
  destruct (addBook_size store_isbn13 "9782401084629" title_only
              "2025-07-01T12:00:00.000Z" N) as [H _].
  apply H. vm_compute. reflexivity.
Defined.

Lemma createBook_outcome_witness :
  exists status error,
    (ISBNServerSaving.createBook ∅ post_isbn10 "T1" "T2" false).2
    = ISBNServerRoutes.Error status error.
Proof.
  assert (forall isbn, post_isbn10 !! "isbn" = Some (JS.VStr isbn) ->
                       no_inherited (ISBNServer.getISBNVariants isbn) = true) as N.
  { intros isbn H. vm_compute in H. injection H as <-. reflexivity. }
  destruct (createBook_outcome ∅ post_isbn10 "T1" "T2" false N)
    as [(isbn & clean & newBook & _ & _ & A & _) | (_ & status & error & A & _)].
  - exists 500, "Erreur serveur". exact A.
  - exists status, error. exact A.
Defined.

Lemma searchGoogleBooks_caches_witness :
  (ISBNServerGoogle.searchGoogleBooks store_isbn13 "0156013983"
     ISBNServerGoogle.FetchFailed "T1" "T2" true).2
  = ISBNServerGoogle.LocalDatabase petit_prince.
Proof.
  assert (no_inherited (ISBNServer.getISBNVariants "0156013983") = true) as N
    by reflexivity.
  destruct (searchGoogleBooks_caches store_isbn13 "0156013983"
              ISBNServerGoogle.FetchFailed "T1" "T2" true N) as (_ & H & _).
  apply (H petit_prince "9780156013987"); [reflexivity | vm_compute; reflexivity].
Defined.
